(** * tickets: the ops-bookings read model, the message pipeline and the
      service start-up, embedded from the Go sources

    - [Entities], [Projector]: package [db], [OpsBookingReadModel] and its
      handlers, with the entities they work on.
    - [Pipeline]: package [message], [useMiddlewares] and the middlewares of
      [message/middleware.go].
    - [Splitter]: the [events_splitter] handler registered by [NewRouter].
    - [ServiceRun]: the goroutines started by [Service.Run].

    Conventions.  A Go [error] result is a [result]: [Ok], [Err e] or
    [Panic].  [time.Time] is an instant, a [Z]; the zero time is [0].
    [time.Now()] is an explicit argument [now] of the function that calls
    it; the clock reads a present-day year, which [json.Marshal] encodes.
    A Go map is an [option (gmap string _)], [None] being the nil map. *)

From stdpp Require Import gmap strings list fin_maps pretty.

Local Open Scope string_scope.
Local Open Scope list_scope.

(** ** Errors and results *)

(** The Go errors the embedded code builds: [sql.ErrNoRows], the errors of
    [json.Unmarshal] and of [json.Marshal], [fmt.Errorf] without [%w]
    ([ErrMsg]) and with [%w] ([ErrWrap]), the [RecoveredPanicError] of
    watermill's [Recoverer], and an error whose type implements
    [IsPermanent() bool] and answers true (the [PermanentError] interface
    of the error-handling notes under docs; no Go file of the sources
    declares or tests it). *)
Inductive error : Type :=
| ErrNoRows
| ErrUnmarshal
| ErrMarshal
| ErrMsg (msg : string)
| ErrWrap (msg : string) (cause : error)
| ErrRecoveredPanic (v : string)
| ErrPermanent (msg : string).

#[global] Instance error_eq_dec : EqDecision error.
Proof. solve_decision. Defined.

(** [errors.Is(err, target)]: [err] or an error it wraps is [target]. *)
Fixpoint errors_Is (err target : error) : bool :=
  bool_decide (err = target) ||
  match err with
  | ErrWrap _ cause => errors_Is cause target
  | _ => false
  end.

Inductive result (A : Type) : Type :=
| Ok (a : A)
| Err (e : error)
| Panic (v : string).
Arguments Ok {A} a.
Arguments Err {A} e.
Arguments Panic {A} v.

(** ** Entities (package [entities]) *)

Module Entities.

Definition Time := Z.
Definition zero_time : Time := 0%Z.

Module Money.
Record t := { Amount : string; Currency : string }.
End Money.

Module MessageHeader.
Record t := { ID : string; PublishedAt : Time }.
End MessageHeader.

(** Modelled from the spec: the struct declarations of package [entities]
    for the events and the read model are not among the sources.  The
    events have the fields the handlers read; [OpsBooking] and [OpsTicket]
    have the fields of the spec's data model, under the names the handlers
    use. *)
Module BookingMade_v1.
Record t := { Header : MessageHeader.t; BookingID : string }.
End BookingMade_v1.

Module TicketBookingConfirmed_v1.
Record t := {
    Header : MessageHeader.t;
    TicketID : string;
    CustomerEmail : string;
    Price : Money.t;
    BookingID : string }.
End TicketBookingConfirmed_v1.

Module TicketRefunded_v1.
Record t := { Header : MessageHeader.t; TicketID : string }.
End TicketRefunded_v1.

Module TicketPrinted_v1.
Record t := { Header : MessageHeader.t; TicketID : string; FileName : string }.
End TicketPrinted_v1.

Module TicketReceiptIssued_v1.
Record t := {
    Header : MessageHeader.t;
    TicketID : string;
    ReceiptNumber : string;
    IssuedAt : Time }.
End TicketReceiptIssued_v1.

Module OpsTicket.
Record t := {
    PriceAmount : string;
    PriceCurrency : string;
    CustomerEmail : string;
    ConfirmedAt : Time;
    RefundedAt : Time;
    PrintedAt : Time;
    PrintedFileName : string;
    ReceiptIssuedAt : Time;
    ReceiptNumber : string }.

  (** The zero value, what a Go map read returns for an absent key. *)
Definition zero : t :=
    {| PriceAmount := ""; PriceCurrency := ""; CustomerEmail := "";
       ConfirmedAt := zero_time; RefundedAt := zero_time;
       PrintedAt := zero_time; PrintedFileName := "";
       ReceiptIssuedAt := zero_time; ReceiptNumber := "" |}.

  (** The four times of the ticket are instants that [Time.MarshalJSON]
      encodes, [ok] telling which instants those are. *)
Definition times_ok (ok : Time → bool) (ticket : t) : bool :=
    ok (ConfirmedAt ticket) && ok (RefundedAt ticket) &&
    ok (PrintedAt ticket) && ok (ReceiptIssuedAt ticket).
End OpsTicket.

Module OpsBooking.
Record t := {
    BookingID : string;
    BookedAt : Time;
    Tickets : option (gmap string OpsTicket.t);
    LastUpdate : Time }.

Definition zero : t :=
    {| BookingID := ""; BookedAt := zero_time; Tickets := None;
       LastUpdate := zero_time |}.

Definition with_Tickets (m : option (gmap string OpsTicket.t)) (b : t) : t :=
    {| BookingID := BookingID b; BookedAt := BookedAt b; Tickets := m;
       LastUpdate := LastUpdate b |}.

Definition with_LastUpdate (now : Time) (b : t) : t :=
    {| BookingID := BookingID b; BookedAt := BookedAt b;
       Tickets := Tickets b; LastUpdate := now |}.

  (** The times a booking has from events, [BookedAt] and the times of its
      tickets, are instants that [Time.MarshalJSON] encodes.  [LastUpdate]
      is not among them: it is a reading of the clock. *)
Definition times_ok (ok : Time → bool) (b : t) : bool :=
    ok (BookedAt b) &&
    match Tickets b with
    | Some m =>
        bool_decide
          (map_Forall (λ _ ticket, OpsTicket.times_ok ok ticket = true) m)
    | None => true
    end.
End OpsBooking.

(** [m[k]] and [_, ok := m[k]] on a possibly nil map. *)
Definition map_get (m : option (gmap string OpsTicket.t)) (k : string) : OpsTicket.t :=
  match m with
  | Some m => default OpsTicket.zero (m !! k)
  | None => OpsTicket.zero
  end.

Definition map_has (m : option (gmap string OpsTicket.t)) (k : string) : bool :=
  match m with
  | Some m => bool_decide (is_Some (m !! k))
  | None => false
  end.

(** [m[k] = v]: a write to the nil map panics. *)
Definition map_set (m : option (gmap string OpsTicket.t)) (k : string)
    (v : OpsTicket.t) : result (option (gmap string OpsTicket.t)) :=
  match m with
  | Some m => Ok (Some (<[k := v]> m))
  | None => Panic "assignment to entry in nil map"
  end.

End Entities.

(** ** The read model of bookings for operations (package [db]) *)

Module Projector.
Import Entities.

(** What the read model calls outside the repository, as an interface:
    [encoding/json] on [entities.OpsBooking] and the PostgreSQL server.
    [payload] is the type of the column [payload] of
    [read_model_ops_bookings].
    - [Time_MarshalJSON_ok t]: [Time.MarshalJSON] encodes the instant [t];
      it returns an error for a year outside 0 to 9999.  The zero time is
      in year 1.
    - [json_Marshal], [json_Unmarshal]: [json.Marshal] and
      [json.Unmarshal] ([None]: it returns an error).  Of the fields of the
      struct, strings and a string-keyed map, only a time can make
      [json.Marshal] fail.  It is always called on a booking whose
      [LastUpdate] has just been read from the clock, so it fails exactly
      when [BookedAt] or a time of a ticket is not encoded.  A time that
      [json.Unmarshal] has decoded has a year of four digits, and is
      encoded.
    - [jsonb_tickets_has_key p k]: the SQL condition
      [payload::jsonb -> 'tickets' ? k] on the stored payload [p].
    - [row_order]: the order in which the server returns the rows of a
      query without ORDER BY; SQL leaves it open, so it is any permutation.
    - [select_payloads]: the result of the two queries of [FindAll]
      (a date filter on the receipts and ORDER BY booked_at DESC).
    - [ExecContext_error]: the answer of the server to the two INSERT
      statements, [None] when it executes them and [Some err] when it
      refuses them (no connection, a statement that times out).  The
      server answers the statements of the calls that a theorem compares
      alike.  The two SELECTs by key are taken to be answered. *)
Class Externals (payload : Type) := {
  Time_MarshalJSON_ok : Time → bool;
  json_Marshal : OpsBooking.t → option payload;
  json_Unmarshal : payload → option OpsBooking.t;
  jsonb_tickets_has_key : payload → string → bool;
  row_order : list (string * payload) → list (string * payload);
  select_payloads : string → gmap string payload → result (list payload);
  ExecContext_error : option error;
  Time_MarshalJSON_ok_zero : Time_MarshalJSON_ok zero_time = true;
  json_Marshal_is_Some : ∀ b,
    is_Some (json_Marshal b) ↔ OpsBooking.times_ok Time_MarshalJSON_ok b = true;
  json_Unmarshal_Marshal : ∀ b p,
    json_Marshal b = Some p → json_Unmarshal p = Some b;
  json_Unmarshal_times_ok : ∀ p b,
    json_Unmarshal p = Some b → OpsBooking.times_ok Time_MarshalJSON_ok b = true;
  jsonb_tickets_has_key_spec : ∀ p b k,
    json_Unmarshal p = Some b →
    jsonb_tickets_has_key p k = map_has (OpsBooking.Tickets b) k;
  row_order_perm : ∀ rows, row_order rows ≡ₚ rows }.

(** The table [read_model_ops_bookings (payload, booking_id)]: the
    statements name [booking_id] as the conflict target, so it is a key. *)
Abbreviation table payload := (gmap string payload).

Inductive IsolationLevel := LevelDefault | LevelRepeatableRead | LevelSerializable.

Section handlers.
Context {payload : Type} `{!Externals payload}.

(** Modelled from the spec: [updateInTx] is a helper of package [db] that
    is not among the sources.  The spec asks that the read-modify-write is
    executed as a single transaction: the changes of [fn] are committed
    when it returns nil and dropped when it fails, and the result of [fn]
    is the result of the call.  One projector runs at a time here, so the
    isolation level has no effect and no serialization failure occurs. *)
Definition updateInTx (isolation : IsolationLevel)
    (fn : table payload → result (table payload))
    (db : table payload) : result unit * table payload :=
  match fn db with
  | Ok tx => (Ok tt, tx)
  | Err e => (Err e, db)
  | Panic v => (Panic v, db)
  end.

Definition unmarshalReadModelFromDB (p : payload) : result OpsBooking.t :=
  match json_Unmarshal p with
  | None => Err ErrUnmarshal
  | Some dbReadModel =>
      match OpsBooking.Tickets dbReadModel with
      | None => Ok (OpsBooking.with_Tickets (Some ∅) dbReadModel)
      | Some _ => Ok dbReadModel
      end
  end.

(** [QueryRowContext(...).Scan(&payload)]: the first row of the result, or
    [sql.ErrNoRows]. *)
Definition scan_first (rows : list (string * payload)) : result payload :=
  match rows with
  | [] => Err ErrNoRows
  | row :: _ => Ok row.2
  end.

Definition findByTicketID (ticketID : string) (db : table payload)
    : result OpsBooking.t :=
  match scan_first
          (filter (λ row, jsonb_tickets_has_key row.2 ticketID = true)
                  (row_order (map_to_list db))) with
  | Ok p => unmarshalReadModelFromDB p
  | Err e => Err e
  | Panic v => Panic v
  end.

Definition findByBookingID (bookingID : string) (db : table payload)
    : result OpsBooking.t :=
  match db !! bookingID with
  | None => Err ErrNoRows
  | Some p => unmarshalReadModelFromDB p
  end.

(** [json.Marshal], then INSERT ... ON CONFLICT (booking_id) DO NOTHING. *)
Definition createReadModel (booking : OpsBooking.t) (db : table payload)
    : result unit * table payload :=
  match json_Marshal booking with
  | None => (Err ErrMarshal, db)
  | Some p =>
      match ExecContext_error with
      | Some err => (Err (ErrWrap "could not create read model" err), db)
      | None =>
          match db !! OpsBooking.BookingID booking with
          | Some _ => (Ok tt, db)
          | None => (Ok tt, <[OpsBooking.BookingID booking := p]> db)
          end
      end
  end.

(** [json.Marshal], then INSERT ... ON CONFLICT (booking_id) DO UPDATE SET
    payload = excluded.payload. *)
Definition updateReadModel (now : Time) (rm : OpsBooking.t) (tx : table payload)
    : result (table payload) :=
  let rm := OpsBooking.with_LastUpdate now rm in
  match json_Marshal rm with
  | None => Err ErrMarshal
  | Some p =>
      match ExecContext_error with
      | Some err => Err (ErrWrap "could not update read model" err)
      | None => Ok (<[OpsBooking.BookingID rm := p]> tx)
      end
  end.

Definition updateByBookingID (now : Time) (bookingID : string)
    (updateFunc : OpsBooking.t → result OpsBooking.t)
    (db : table payload) : result unit * table payload :=
  updateInTx LevelRepeatableRead
    (λ tx,
       match findByBookingID bookingID tx with
       | Err err =>
           if errors_Is err ErrNoRows
           then Err (ErrMsg ("read model for booking " +:+ bookingID +:+ " not exist yet"))
           else Err (ErrWrap "could not find read model" err)
       | Panic v => Panic v
       | Ok rm =>
           match updateFunc rm with
           | Err err => Err err
           | Panic v => Panic v
           | Ok updatedRm => updateReadModel now updatedRm tx
           end
       end)
    db.

Definition updateByTicketID (now : Time) (ticketID : string)
    (updateFunc : OpsTicket.t → result OpsTicket.t)
    (db : table payload) : result unit * table payload :=
  updateInTx LevelRepeatableRead
    (λ tx,
       match findByTicketID ticketID tx with
       | Err err =>
           if errors_Is err ErrNoRows
           then Err (ErrMsg ("read model for ticket " +:+ ticketID +:+ " not exist yet"))
           else Err (ErrWrap "could not find read model" err)
       | Panic v => Panic v
       | Ok rm =>
           let ticket := map_get (OpsBooking.Tickets rm) ticketID in
           match updateFunc ticket with
           | Err err => Err err
           | Panic v => Panic v
           | Ok updatedRm =>
               match map_set (OpsBooking.Tickets rm) ticketID updatedRm with
               | Ok tickets =>
                   updateReadModel now (OpsBooking.with_Tickets tickets rm) tx
               | Err err => Err err
               | Panic v => Panic v
               end
           end
       end)
    db.

Definition OnBookingMade (now : Time) (e : BookingMade_v1.t)
    (db : table payload) : result unit * table payload :=
  match createReadModel
          {| OpsBooking.BookingID := BookingMade_v1.BookingID e;
             OpsBooking.Tickets := Some ∅;
             OpsBooking.LastUpdate := now;
             OpsBooking.BookedAt :=
               MessageHeader.PublishedAt (BookingMade_v1.Header e) |}
          db with
  | (Err err, db') => (Err (ErrWrap "could not create read model" err), db')
  | r => r
  end.

Definition OnTicketBookingConfirmed (now : Time)
    (e : TicketBookingConfirmed_v1.t)
    (db : table payload) : result unit * table payload :=
  updateByBookingID now (TicketBookingConfirmed_v1.BookingID e)
    (λ rm,
       let ticket :=
         map_get (OpsBooking.Tickets rm) (TicketBookingConfirmed_v1.TicketID e) in
       let ticket :=
         {| OpsTicket.PriceAmount :=
              Money.Amount (TicketBookingConfirmed_v1.Price e);
            OpsTicket.PriceCurrency :=
              Money.Currency (TicketBookingConfirmed_v1.Price e);
            OpsTicket.CustomerEmail := TicketBookingConfirmed_v1.CustomerEmail e;
            OpsTicket.ConfirmedAt :=
              MessageHeader.PublishedAt (TicketBookingConfirmed_v1.Header e);
            OpsTicket.RefundedAt := OpsTicket.RefundedAt ticket;
            OpsTicket.PrintedAt := OpsTicket.PrintedAt ticket;
            OpsTicket.PrintedFileName := OpsTicket.PrintedFileName ticket;
            OpsTicket.ReceiptIssuedAt := OpsTicket.ReceiptIssuedAt ticket;
            OpsTicket.ReceiptNumber := OpsTicket.ReceiptNumber ticket |} in
       match map_set (OpsBooking.Tickets rm)
               (TicketBookingConfirmed_v1.TicketID e) ticket with
       | Ok tickets => Ok (OpsBooking.with_Tickets tickets rm)
       | Err err => Err err
       | Panic v => Panic v
       end)
    db.

Definition OnTicketRefunded (now : Time) (e : TicketRefunded_v1.t)
    (db : table payload) : result unit * table payload :=
  updateByTicketID now (TicketRefunded_v1.TicketID e)
    (λ rm,
       Ok {| OpsTicket.PriceAmount := OpsTicket.PriceAmount rm;
             OpsTicket.PriceCurrency := OpsTicket.PriceCurrency rm;
             OpsTicket.CustomerEmail := OpsTicket.CustomerEmail rm;
             OpsTicket.ConfirmedAt := OpsTicket.ConfirmedAt rm;
             OpsTicket.RefundedAt :=
               MessageHeader.PublishedAt (TicketRefunded_v1.Header e);
             OpsTicket.PrintedAt := OpsTicket.PrintedAt rm;
             OpsTicket.PrintedFileName := OpsTicket.PrintedFileName rm;
             OpsTicket.ReceiptIssuedAt := OpsTicket.ReceiptIssuedAt rm;
             OpsTicket.ReceiptNumber := OpsTicket.ReceiptNumber rm |})
    db.

Definition OnTicketPrinted (now : Time) (e : TicketPrinted_v1.t)
    (db : table payload) : result unit * table payload :=
  updateByTicketID now (TicketPrinted_v1.TicketID e)
    (λ rm,
       Ok {| OpsTicket.PriceAmount := OpsTicket.PriceAmount rm;
             OpsTicket.PriceCurrency := OpsTicket.PriceCurrency rm;
             OpsTicket.CustomerEmail := OpsTicket.CustomerEmail rm;
             OpsTicket.ConfirmedAt := OpsTicket.ConfirmedAt rm;
             OpsTicket.RefundedAt := OpsTicket.RefundedAt rm;
             OpsTicket.PrintedAt :=
               MessageHeader.PublishedAt (TicketPrinted_v1.Header e);
             OpsTicket.PrintedFileName := TicketPrinted_v1.FileName e;
             OpsTicket.ReceiptIssuedAt := OpsTicket.ReceiptIssuedAt rm;
             OpsTicket.ReceiptNumber := OpsTicket.ReceiptNumber rm |})
    db.

Definition OnTicketReceiptIssued (now : Time) (e : TicketReceiptIssued_v1.t)
    (db : table payload) : result unit * table payload :=
  updateByTicketID now (TicketReceiptIssued_v1.TicketID e)
    (λ rm,
       Ok {| OpsTicket.PriceAmount := OpsTicket.PriceAmount rm;
             OpsTicket.PriceCurrency := OpsTicket.PriceCurrency rm;
             OpsTicket.CustomerEmail := OpsTicket.CustomerEmail rm;
             OpsTicket.ConfirmedAt := OpsTicket.ConfirmedAt rm;
             OpsTicket.RefundedAt := OpsTicket.RefundedAt rm;
             OpsTicket.PrintedAt := OpsTicket.PrintedAt rm;
             OpsTicket.PrintedFileName := OpsTicket.PrintedFileName rm;
             OpsTicket.ReceiptIssuedAt := TicketReceiptIssued_v1.IssuedAt e;
             OpsTicket.ReceiptNumber := TicketReceiptIssued_v1.ReceiptNumber e |})
    db.

(** The loop of [FindAll] over the selected payloads; [acc] is [result]. *)
Fixpoint unmarshal_each (payloads : list payload) (acc : list OpsBooking.t)
    : result (list OpsBooking.t) :=
  match payloads with
  | [] => Ok acc
  | p :: payloads =>
      match unmarshalReadModelFromDB p with
      | Ok booking => unmarshal_each payloads (acc ++ [booking])
      | Err err => Err (ErrWrap "could not unmarshal booking" err)
      | Panic v => Panic v
      end
  end.

Definition FindAll (receiptIssueDate : string) (db : table payload)
    : result (list OpsBooking.t) :=
  match select_payloads receiptIssueDate db with
  | Err err => Err (ErrWrap "could not find all bookings" err)
  | Panic v => Panic v
  | Ok payloads => unmarshal_each payloads []
  end.

Definition FindByID (bookingID : string) (db : table payload)
    : result OpsBooking.t :=
  match findByBookingID bookingID db with
  | Err err =>
      if errors_Is err ErrNoRows
      then Err (ErrMsg ("booking not found: " +:+ bookingID))
      else Err (ErrWrap "could not find booking by ID" err)
  | r => r
  end.

(** Every row that decodes holds the booking of its own key.  Both
    statements that write the table store a booking under its
    [BookingID]. *)
Definition stored_under_own_id (db : table payload) : Prop :=
  ∀ bookingID p rm,
    db !! bookingID = Some p → json_Unmarshal p = Some rm →
    OpsBooking.BookingID rm = bookingID.

(** The row of booking [bookingID] decodes to [rm] and is stored under
    its own id. *)
Definition booking_row (db : table payload) (bookingID : string)
    (rm : OpsBooking.t) : Prop :=
  ∃ p, db !! bookingID = Some p ∧ json_Unmarshal p = Some rm ∧
       OpsBooking.BookingID rm = bookingID.

(** Ticket [ticketID] is [ticket] on the row of booking [bookingID], whose
    tickets are [m], and is on no other row. *)
Definition ticket_of_one_booking (db : table payload)
    (ticketID bookingID : string) (rm : OpsBooking.t)
    (m : gmap string OpsTicket.t) (ticket : OpsTicket.t) : Prop :=
  booking_row db bookingID rm ∧
  OpsBooking.Tickets rm = Some m ∧
  m !! ticketID = Some ticket ∧
  ∀ bookingID' p', db !! bookingID' = Some p' → bookingID' ≠ bookingID →
    jsonb_tickets_has_key p' ticketID = false.

End handlers.

(** Instants counted in seconds from the zero time, 1 January of year 1:
    year 0 has 366 days, the years 1 to 9999 have 3652059. *)
Definition year_0_to_9999 (t : Time) : bool :=
  (-366 * 86400 <=? t)%Z && (t <? 3652059 * 86400)%Z.

(** The codec in which the stored payload is the decoded document itself,
    with a server that executes the statements: an instance of the
    interface, on which the handlers can be run. *)
Definition plain_json (b : OpsBooking.t) : option OpsBooking.t :=
  if OpsBooking.times_ok year_0_to_9999 b then Some b else None.

#[global, refine] Instance plain_externals : Externals OpsBooking.t := {|
  Time_MarshalJSON_ok := year_0_to_9999;
  json_Marshal := plain_json;
  json_Unmarshal := plain_json;
  jsonb_tickets_has_key := λ p k, map_has (OpsBooking.Tickets p) k;
  row_order := id;
  select_payloads := λ _ db, Ok (map_to_list db).*2;
  ExecContext_error := None |}.
Proof.
  - reflexivity.
  - intros b. unfold plain_json.
    destruct (OpsBooking.times_ok year_0_to_9999 b); split;
      (done || by intros []).
  - intros b p. unfold plain_json.
    by destruct (OpsBooking.times_ok year_0_to_9999 b) eqn:Hb; intros [= <-];
      rewrite Hb.
  - intros p b. unfold plain_json.
    by destruct (OpsBooking.times_ok year_0_to_9999 p) eqn:Hb; intros [= <-].
  - intros p b k. unfold plain_json.
    by destruct (OpsBooking.times_ok year_0_to_9999 p); intros [= <-].
  - done.
Defined.

(** The same codec with a server that refuses the statements. *)
Definition refusing_externals : Externals OpsBooking.t.
Proof.
  refine {|
    Time_MarshalJSON_ok := year_0_to_9999;
    json_Marshal := plain_json;
    json_Unmarshal := plain_json;
    jsonb_tickets_has_key := λ p k, map_has (OpsBooking.Tickets p) k;
    row_order := id;
    select_payloads := λ _ db, Ok (map_to_list db).*2;
    ExecContext_error := Some (ErrMsg "connection refused") |}.
  - exact (@Time_MarshalJSON_ok_zero _ plain_externals).
  - exact (@json_Marshal_is_Some _ plain_externals).
  - exact (@json_Unmarshal_Marshal _ plain_externals).
  - exact (@json_Unmarshal_times_ok _ plain_externals).
  - exact (@jsonb_tickets_has_key_spec _ plain_externals).
  - exact (@row_order_perm _ plain_externals).
Defined.

End Projector.

(** ** The message pipeline (package [message], [middleware.go]) *)

Module Pipeline.

(** [context.Context] of a message, with the values the middlewares read
    and write: the topic and handler name the router stores, the
    correlation id, the remote trace context and the current span. *)
Module Context.
Record t := {
  SubscribeTopic : string;
  HandlerName : string;
  CorrelationID : string;
  RemoteTrace : string;
  Span : string }.
End Context.

Module Message.
Record t := {
  UUID : string;
  Metadata : gmap string string;
  Payload : string }.

(** [msg.Metadata.Get(key)]: the empty string for an absent key. *)
Definition Metadata_Get (msg : t) (key : string) : string :=
  default "" (Metadata msg !! key).
End Message.

(** What a handler function does when called: it returns
    [(msgs, err)] or it panics. *)
Inductive outcome : Type :=
| Return (msgs : list Message.t) (err : option error)
| Panicked (v : string).

(** What the middlewares do besides calling the next handler. *)
Inductive effect : Type :=
| LogInfoHandling (message_id payload : string)
    (metadata : gmap string string) (correlation_id handler : string)
| LogErrorHandling (err : error)
| LogErrorRetrying (err : error) (retry_no max_retries : nat) (wait_time : Z)
| CounterProcessedInc (topic handler : string)
| SummaryDurationObserve (topic handler : string)
| CounterFailedInc (topic handler : string)
| SpanStart (name : string)
| SpanRecordError (err : error)
| SpanEnd
| Sleep (d : Z).

#[global] Instance effect_eq_dec : EqDecision effect.
Proof. solve_decision. Defined.

(** The state a message is processed in: the effects so far (oldest
    first), the identifiers [shortuuid.New()] will return next, the context
    of the message (a [*message.Message] is shared by all middlewares, so
    [msg.SetContext] is seen by the later attempts), and the state [U] the
    handlers of the application work on. *)
Record World (U : Type) := {
  effects : list effect;
  uuids : nat → string;
  ctx : Context.t;
  user : U }.
Arguments effects {U} w.
Arguments uuids {U} w.
Arguments ctx {U} w.
Arguments user {U} w.

Definition emit {U} (eff : effect) (w : World U) : World U :=
  {| effects := effects w ++ [eff]; uuids := uuids w; ctx := ctx w;
     user := user w |}.

Definition SetContext {U} (c : Context.t) (w : World U) : World U :=
  {| effects := effects w; uuids := uuids w; ctx := c; user := user w |}.

Definition HandlerFunc (U : Type) : Type :=
  Message.t → World U → outcome * World U.

Definition HandlerMiddleware (U : Type) : Type :=
  HandlerFunc U → HandlerFunc U.

(** A handler of the application: it works on [U] only. *)
Definition lift_handler {U} (h : Message.t → U → outcome * U) : HandlerFunc U :=
  λ msg w,
    let '(out, s) := h msg (user w) in
    (out, {| effects := effects w; uuids := uuids w; ctx := ctx w; user := s |}).

Definition metricsMiddleware {U} (next : HandlerFunc U) : HandlerFunc U :=
  λ msg w,
    let topic := Context.SubscribeTopic (ctx w) in
    let handler := Context.HandlerName (ctx w) in
    let '(out, w) := next msg w in
    match out with
    | Panicked v => (Panicked v, w)
    | Return msgs err =>
        let w := emit (CounterProcessedInc topic handler) w in
        let w := emit (SummaryDurationObserve topic handler) w in
        let w :=
          match err with
          | Some _ => emit (CounterFailedInc topic handler) w
          | None => w
          end in
        (Return msgs err, w)
    end.

Definition logMiddleware {U} (next : HandlerFunc U) : HandlerFunc U :=
  λ msg w,
    let c := ctx w in
    let w :=
      emit (LogInfoHandling (Message.UUID msg) (Message.Payload msg)
              (Message.Metadata msg) (Context.CorrelationID c)
              (Context.HandlerName c)) w in
    let '(out, w) := next msg w in
    match out with
    | Return msgs (Some err) => (Return msgs (Some err), emit (LogErrorHandling err) w)
    | _ => (out, w)
    end.

Definition correlationIdMiddleware {U} (next : HandlerFunc U) : HandlerFunc U :=
  λ msg w,
    let c := ctx w in
    let reqCorrelationID := Message.Metadata_Get msg "correlation_id" in
    let '(reqCorrelationID, w) :=
      if bool_decide (reqCorrelationID = "")
      then (uuids w 0,
            {| effects := effects w; uuids := λ n, uuids w (S n);
               ctx := ctx w; user := user w |})
      else (reqCorrelationID, w) in
    let c :=
      {| Context.SubscribeTopic := Context.SubscribeTopic c;
         Context.HandlerName := Context.HandlerName c;
         Context.CorrelationID := reqCorrelationID;
         Context.RemoteTrace := Context.RemoteTrace c;
         Context.Span := Context.Span c |} in
    next msg (SetContext c w).

(** The propagator reads the W3C [traceparent] of the metadata when there
    is one. *)
Definition Extract (c : Context.t) (carrier : gmap string string) : Context.t :=
  match carrier !! "traceparent" with
  | Some tp =>
      {| Context.SubscribeTopic := Context.SubscribeTopic c;
         Context.HandlerName := Context.HandlerName c;
         Context.CorrelationID := Context.CorrelationID c;
         Context.RemoteTrace := tp;
         Context.Span := Context.Span c |}
  | None => c
  end.

Definition tracingMiddleware {U} (next : HandlerFunc U) : HandlerFunc U :=
  λ msg w,
    let c := Extract (ctx w) (Message.Metadata msg) in
    let topic := Context.SubscribeTopic c in
    let handler := Context.HandlerName c in
    let name := "topic: " +:+ topic +:+ ", handler: " +:+ handler in
    let w := emit (SpanStart name) w in
    let c :=
      {| Context.SubscribeTopic := Context.SubscribeTopic c;
         Context.HandlerName := Context.HandlerName c;
         Context.CorrelationID := Context.CorrelationID c;
         Context.RemoteTrace := Context.RemoteTrace c;
         Context.Span := name |} in
    let '(out, w) := next msg (SetContext c w) in
    let w :=
      match out with
      | Return _ (Some err) => emit (SpanRecordError err) w
      | _ => w
      end in
    (out, emit SpanEnd w).


(** *** watermill: [middleware.Recoverer], [middleware.Retry], the router

    These three are code of the library the repository configures; they
    are written from the library's behaviour. *)

(** [Recoverer]: a panic of the wrapped handler becomes an error. *)
Definition Recoverer {U} (h : HandlerFunc U) : HandlerFunc U :=
  λ msg w,
    let '(out, w) := h msg w in
    match out with
    | Panicked v => (Return [] (Some (ErrRecoveredPanic v)), w)
    | Return msgs err => (Return msgs err, w)
    end.

Module Retry.
Record t := {
  MaxRetries : nat;
  InitialInterval : Z;
  MaxInterval : Z;
  Multiplier : Z }.
End Retry.

(** [time.Duration] counts nanoseconds. *)
Definition Millisecond : Z := 1000000.
Definition Second : Z := 1000 * Millisecond.

(** The exponential back-off without randomization: the next interval is
    the current one times the multiplier, capped by [MaxInterval]. *)
Definition NextBackOff (r : Retry.t) (currentInterval : Z) : Z :=
  if (Retry.MaxInterval r <=? currentInterval * Retry.Multiplier r)%Z
  then Retry.MaxInterval r
  else (currentInterval * Retry.Multiplier r)%Z.

(** The [retryLoop] of [Retry.Middleware], entered after a first failed
    call with [retryNum = 1]: wait, call the handler again, return on
    success, else log, increment [retryNum] and leave the loop with the
    last error once [retryNum > MaxRetries].  [remaining] is
    [MaxRetries - retryNum], the number of iterations left after this one.
    The context of the message is taken not to be cancelled while it
    waits. *)
Fixpoint retryLoop {U} (r : Retry.t) (h : HandlerFunc U) (msg : Message.t)
    (remaining retryNum : nat) (waitTime : Z) (w : World U)
    : outcome * World U :=
  let w := emit (Sleep waitTime) w in
  let '(out, w) := h msg w in
  match out with
  | Panicked v => (Panicked v, w)
  | Return producedMessages None => (Return producedMessages None, w)
  | Return _ (Some err) =>
      let w := emit (LogErrorRetrying err retryNum (Retry.MaxRetries r) waitTime) w in
      match remaining with
      | O => (Return [] (Some err), w)
      | S remaining =>
          retryLoop r h msg remaining (S retryNum) (NextBackOff r waitTime) w
      end
  end.

Definition Retry_Middleware {U} (r : Retry.t) (h : HandlerFunc U) : HandlerFunc U :=
  λ msg w,
    let '(out, w) := h msg w in
    match out with
    | Return _ (Some _) =>
        retryLoop r h msg (Retry.MaxRetries r - 1) 1 (Retry.InitialInterval r) w
    | _ => (out, w)
    end.

Record Router (U : Type) := { middlewares : list (HandlerMiddleware U) }.
Arguments middlewares {U} r.

Definition NewDefaultRouter {U} : Router U := {| middlewares := [] |}.

Definition AddMiddleware {U} (m : HandlerMiddleware U) (router : Router U) : Router U :=
  {| middlewares := middlewares router ++ [m] |}.

(** The middleware added first is the outermost one. *)
Definition wrap {U} (ms : list (HandlerMiddleware U)) (h : HandlerFunc U) : HandlerFunc U :=
  foldr (λ m next, m next) h ms.

Inductive delivery : Type := Ack | Nack.

#[global] Instance delivery_eq_dec : EqDecision delivery.
Proof. solve_decision. Defined.

(** How the router answers the broker for one message of a handler without
    publisher (all handlers of [NewRouter] are such): [Ack] when the
    wrapped handler returns no error and no message, [Nack] when it returns
    an error, produces a message or panics. *)
Definition handleMessage {U} (router : Router U) (h : HandlerFunc U)
    (msg : Message.t) (w : World U) : delivery * World U :=
  let '(out, w) := wrap (middlewares router) h msg w in
  match out with
  | Return [] None => (Ack, w)
  | _ => (Nack, w)
  end.

(** *** [useMiddlewares] *)

Definition useMiddlewares {U} (router : Router U) : Router U :=
  let router := AddMiddleware Recoverer router in
  let router :=
    AddMiddleware
      (Retry_Middleware
         {| Retry.MaxRetries := 3;
            Retry.InitialInterval := Millisecond * 400;
            Retry.MaxInterval := Second;
            Retry.Multiplier := 2 |})
      router in
  let router := AddMiddleware tracingMiddleware router in
  let router := AddMiddleware correlationIdMiddleware router in
  let router := AddMiddleware logMiddleware router in
  let router := AddMiddleware metricsMiddleware router in
  router.

(** How often the innermost middleware counted a processed message, that
    is, how often the handler returned; and the waits of the retries. *)
Definition is_processed (eff : effect) : bool :=
  match eff with
  | CounterProcessedInc _ _ => true
  | _ => false
  end.

Definition processed_total (effs : list effect) : nat :=
  length (List.filter is_processed effs).

Definition sleeps (effs : list effect) : list Z :=
  omap (λ eff, match eff with Sleep d => Some d | _ => None end) effs.

(** The waits of [retryLoop] when every call fails. *)
Fixpoint waits (r : Retry.t) (remaining : nat) (waitTime : Z) : list Z :=
  waitTime ::
  match remaining with
  | O => []
  | S remaining => waits r remaining (NextBackOff r waitTime)
  end.

(** A handler of the application that fails with [e] whenever it is
    called on [msg], and a handler function that does so and counts
    [calls] processed messages each time, without waiting. *)
Definition always_fails {U} (h : Message.t → U → outcome * U)
    (msg : Message.t) (e : error) : Prop :=
  ∀ s, ∃ msgs, (h msg s).1 = Return msgs (Some e).

Definition fails_counting {U} (h : HandlerFunc U) (msg : Message.t)
    (e : error) (calls : nat) : Prop :=
  ∀ w, ∃ msgs w',
    h msg w = (Return msgs (Some e), w') ∧
    processed_total (effects w') = processed_total (effects w) + calls ∧
    sleeps (effects w') = sleeps (effects w).



(** How often the failure counter was incremented. *)
Definition is_failed (eff : effect) : bool :=
  match eff with
  | CounterFailedInc _ _ => true
  | _ => false
  end.

Definition failed_total (effs : list effect) : nat :=
  length (List.filter is_failed effs).



(** [k] calls of the handler on [msg], one after the other from state [s],
    each return an error, and leave state [s']. *)
Fixpoint fails_times {U} (f : Message.t → U → outcome * U) (msg : Message.t)
    (k : nat) (s s' : U) : Prop :=
  match k with
  | O => s = s'
  | S k =>
      ∃ msgs err s1,
        f msg s = (Return msgs (Some err), s1) ∧ fails_times f msg k s1 s'
  end.

(** What a call adds to the two counters, by its outcome. *)
Definition counts_processed (out : outcome) : nat :=
  match out with
  | Return _ _ => 1
  | Panicked _ => 0
  end.

Definition counts_failed (out : outcome) : nat :=
  match out with
  | Return _ (Some _) => 1
  | _ => 0
  end.

(** The handler function [h] does on [msg] what the handler [f] of the
    application does, on the state of the application, counts it, and
    does not wait. *)
Definition runs_handler {U} (h : HandlerFunc U)
    (f : Message.t → U → outcome * U) (msg : Message.t) : Prop :=
  ∀ w, ∃ w',
    h msg w = ((f msg (user w)).1, w') ∧
    user w' = (f msg (user w)).2 ∧
    processed_total (effects w') =
      processed_total (effects w) + counts_processed (f msg (user w)).1 ∧
    failed_total (effects w') =
      failed_total (effects w) + counts_failed (f msg (user w)).1 ∧
    sleeps (effects w') = sleeps (effects w).

End Pipeline.

(** ** The events splitter (package [message], [NewRouter]) *)

Module Splitter.
Import Pipeline.

(** [message.Publisher], on the state [U] of the broker. *)
Class Publisher (U : Type) := {
  Publish : string → Message.t → U → result unit * U }.

(** Modelled from the spec: the marshaler of the event processor is set by
    [event.NewProcessorConfig], which is not among the sources.  The spec
    says the splitter extracts the event-type name from the metadata of the
    message: [NameFromMessage] is a function of the metadata. *)
Class CommandEventMarshaler := {
  NameFromMetadata : gmap string string → string }.

Definition NameFromMessage `{!CommandEventMarshaler} (msg : Message.t) : string :=
  NameFromMetadata (Message.Metadata msg).

(** The function registered as handler ["events_splitter"] on topic
    ["events"]. *)
Definition events_splitter {U} `{!Publisher U, !CommandEventMarshaler}
    (msg : Message.t) (s : U) : result unit * U :=
  let eventName := NameFromMessage msg in
  if bool_decide (eventName = "")
  then (Err (ErrMsg "cannot get event name from message"), s)
  else Publish ("events." +:+ eventName) msg s.

(** [router.AddConsumerHandler]: the function returns an error only; the
    handler function made of it returns no message. *)
Definition AddConsumerHandler {U} (handlerFunc : Message.t → U → result unit * U)
    : HandlerFunc U :=
  lift_handler
    (λ msg s,
       match handlerFunc msg s with
       | (Ok _, s) => (Return [] None, s)
       | (Err err, s) => (Return [] (Some err), s)
       | (Panic v, s) => (Panicked v, s)
       end).

(** A broker that records what is published, and the marshaler that reads
    the metadata key [name]: instances on which the splitter can be run. *)
#[global] Instance recording_publisher : Publisher (list (string * Message.t)) := {|
  Publish := λ topic msg s, (Ok tt, s ++ [(topic, msg)]) |}.

#[global] Instance name_marshaler : CommandEventMarshaler := {|
  NameFromMetadata := λ md, default "" (md !! "name") |}.

(** [DataLake], on the state [U] of the store, and the decoding of the
    header of an event by the marshaler ([Marshaler.Unmarshal] into a
    struct with the one field [Header]). *)
Class DataLake (U : Type) := {
  StoreEvent :
    string → Entities.MessageHeader.t → string → string → U → result unit * U }.

Class HeaderUnmarshaler := {
  Unmarshal_Header : Message.t → error + Entities.MessageHeader.t }.

(** The function registered as handler ["store_to_data_lake"] on topic
    ["events"]. *)
Definition store_to_data_lake {U}
    `{!DataLake U, !CommandEventMarshaler, !HeaderUnmarshaler}
    (msg : Message.t) (s : U) : result unit * U :=
  let eventName := NameFromMessage msg in
  if bool_decide (eventName = "")
  then (Err (ErrMsg "cannot get event name from message"), s)
  else
    match Unmarshal_Header msg with
    | inl err => (Err (ErrWrap "cannot unmarshal event" err), s)
    | inr header =>
        StoreEvent (Entities.MessageHeader.ID header) header eventName
          (Message.Payload msg) s
    end.

End Splitter.

(** ** [Service.Run] (package [service]) *)

Module ServiceRun.

(** The four goroutines of the errgroup, each with its program points, the
    channel returned by [Router.Running] (the router closes it once it
    runs; nothing is ever sent on it) and the context of the group.  The
    machine starts after [InitializeDatabaseSchema] has succeeded and the
    four goroutines are spawned; when it fails, [Run] returns before any
    of them exists. *)

(** [return s.msgsRouter.Run(ctx)] *)
Inductive router_pc : Type :=
| RouterSpawned | RouterStarting | RouterRunning | RouterReturned.

(** [<-s.msgsRouter.Running(); err := s.echoRouter.Start(":8080"); ...] *)
Inductive http_pc : Type :=
| HttpWaitsRunning | HttpReceived | HttpServing | HttpReturned.

(** [<-ctx.Done(); return x.Shutdown(...)] *)
Inductive shutdown_pc : Type :=
| WaitsDone | ShuttingDown | ShutdownReturned.

Record state := {
  router : router_pc;
  http : http_pc;
  echo_shutdown : shutdown_pc;
  trace_shutdown : shutdown_pc;
  running_closed : bool;
  ctx_done : bool }.

Inductive event : Type :=
| RouterRun
| RouterSignalsRunning
| RouterReturns (failed : bool)
| HttpReceivesRunning
| HttpStart
| HttpReturns (failed : bool)
| ContextCancelled
| EchoShutdown
| EchoShutdownReturns
| TraceShutdown
| TraceShutdownReturns.

#[global] Instance event_eq_dec : EqDecision event.
Proof. solve_decision. Defined.

Definition init : state :=
  {| router := RouterSpawned; http := HttpWaitsRunning;
     echo_shutdown := WaitsDone; trace_shutdown := WaitsDone;
     running_closed := false; ctx_done := false |}.

Definition set_router (pc : router_pc) (closed done : bool) (s : state) : state :=
  {| router := pc; http := http s; echo_shutdown := echo_shutdown s;
     trace_shutdown := trace_shutdown s; running_closed := closed;
     ctx_done := done |}.

Definition set_http (pc : http_pc) (done : bool) (s : state) : state :=
  {| router := router s; http := pc; echo_shutdown := echo_shutdown s;
     trace_shutdown := trace_shutdown s; running_closed := running_closed s;
     ctx_done := done |}.

Definition set_echo_shutdown (pc : shutdown_pc) (s : state) : state :=
  {| router := router s; http := http s; echo_shutdown := pc;
     trace_shutdown := trace_shutdown s; running_closed := running_closed s;
     ctx_done := ctx_done s |}.

Definition set_trace_shutdown (pc : shutdown_pc) (s : state) : state :=
  {| router := router s; http := http s; echo_shutdown := echo_shutdown s;
     trace_shutdown := pc; running_closed := running_closed s;
     ctx_done := ctx_done s |}.

(** One step of one goroutine, [None] when the goroutine is not at that
    point or is blocked there.  A goroutine that returns an error cancels
    the context of the group; the context is also cancelled from outside
    (the interrupt signal).  A receive on [Running()] or on [ctx.Done()]
    goes on only once the channel is closed. *)
Definition step (s : state) (ev : event) : option state :=
  match ev with
  | RouterRun =>
      match router s with
      | RouterSpawned => Some (set_router RouterStarting (running_closed s) (ctx_done s) s)
      | _ => None
      end
  | RouterSignalsRunning =>
      match router s with
      | RouterStarting => Some (set_router RouterRunning true (ctx_done s) s)
      | _ => None
      end
  | RouterReturns failed =>
      match router s with
      | RouterStarting | RouterRunning =>
          Some (set_router RouterReturned (running_closed s) (failed || ctx_done s) s)
      | _ => None
      end
  | HttpReceivesRunning =>
      match http s with
      | HttpWaitsRunning =>
          if running_closed s then Some (set_http HttpReceived (ctx_done s) s) else None
      | _ => None
      end
  | HttpStart =>
      match http s with
      | HttpReceived => Some (set_http HttpServing (ctx_done s) s)
      | _ => None
      end
  | HttpReturns failed =>
      match http s with
      | HttpServing => Some (set_http HttpReturned (failed || ctx_done s) s)
      | _ => None
      end
  | ContextCancelled => Some (set_http (http s) true s)
  | EchoShutdown =>
      match echo_shutdown s with
      | WaitsDone => if ctx_done s then Some (set_echo_shutdown ShuttingDown s) else None
      | _ => None
      end
  | EchoShutdownReturns =>
      match echo_shutdown s with
      | ShuttingDown => Some (set_echo_shutdown ShutdownReturned s)
      | _ => None
      end
  | TraceShutdown =>
      match trace_shutdown s with
      | WaitsDone => if ctx_done s then Some (set_trace_shutdown ShuttingDown s) else None
      | _ => None
      end
  | TraceShutdownReturns =>
      match trace_shutdown s with
      | ShuttingDown => Some (set_trace_shutdown ShutdownReturned s)
      | _ => None
      end
  end.

(** A schedule is a list of events, oldest first; [run s tr] is the state
    after it, [None] when some event of [tr] cannot happen where it
    stands. *)
Fixpoint run (s : state) (tr : list event) : option state :=
  match tr with
  | [] => Some s
  | ev :: tr =>
      match step s ev with
      | Some s' => run s' tr
      | None => None
      end
  end.

(** The events that cancel the context of the group: the signal from
    outside, and the return of a goroutine with an error. *)
Definition cancels (ev : event) : bool :=
  match ev with
  | ContextCancelled | RouterReturns true | HttpReturns true => true
  | _ => false
  end.

End ServiceRun.

(** ** The front end handler (package [http]) *)

Module Frontend.

(** [fs.FS], as the handler uses it: whether [Open] succeeds, what
    [fs.Stat] answers ([Some true] for a directory) and what [fs.ReadFile]
    reads. *)
Record FS := {
  Open : string → bool;
  Stat : string → option bool;
  ReadFile : string → option string }.

(** The file server of the handler is [http.FileServer] on [staticFS]. *)
Record FrontendHandler := {
  staticFS : FS;
  indexFile : string }.

(** What a handler call does with the request: [c.Blob(code, contentType,
    content)], the return of [echo.NewHTTPError(code)], or the hand-over
    of the request to the file server. *)
Inductive response : Type :=
| Blob (code : nat) (contentType content : string)
| HTTPError (code : nat)
| FileServed (path : string).

Definition StatusOK : nat := 200.
Definition StatusNotFound : nat := 404.

(** [strings.HasSuffix] and [strings.TrimPrefix]. *)
Definition HasSuffix (s suffix : string) : bool :=
  (String.length suffix <=? String.length s)%nat &&
  String.eqb
    (String.substring (String.length s - String.length suffix)
       (String.length suffix) s)
    suffix.

Definition TrimPrefix (s prefix : string) : string :=
  if String.prefix prefix s
  then String.substring (String.length prefix)
         (String.length s - String.length prefix) s
  else s.

(** [web.StaticFiles] is not among the sources: the file system is an
    argument. *)
Definition newFrontendHandler (staticFS : FS) : FrontendHandler :=
  {| staticFS := staticFS; indexFile := "_shell.html" |}.

Definition serveFile (h : FrontendHandler) (path : string) : response :=
  match ReadFile (staticFS h) path with
  | None => HTTPError StatusNotFound
  | Some content =>
      let contentType :=
        if HasSuffix path ".js" then "application/javascript"
        else if HasSuffix path ".css" then "text/css"
        else if HasSuffix path ".json" then "application/json"
        else "text/html; charset=utf-8" in
      Blob StatusOK contentType content
  end.

Definition GetStaticFiles (h : FrontendHandler) (path : string) : response :=
  if bool_decide (path = "/") then serveFile h (indexFile h)
  else
    let cleanPath := TrimPrefix path "/" in
    if negb (Open (staticFS h) cleanPath) then serveFile h (indexFile h)
    else
      match Stat (staticFS h) cleanPath with
      | None => serveFile h (indexFile h)
      | Some isDir =>
          if isDir then serveFile h (indexFile h) else FileServed path
      end.

End Frontend.

(** ** The receipts client (package [adapters]) *)

Module ReceiptsAdapter.
Import Entities.

(** [entities.IssueReceiptRequest] and [entities.IssueReceiptResponse]. *)
Module IssueReceiptRequest.
Record t := { IdempotencyKey : string; TicketID : string; Price : Money.t }.
End IssueReceiptRequest.

Module IssueReceiptResponse.
Record t := { ReceiptNumber : string; IssuedAt : Time }.
End IssueReceiptResponse.

(** The request and the response of the generated client of the receipts
    service; a pointer field is an [option]. *)
Module CreateReceipt.
Record t := {
  IdempotencyKey : option string;
  TicketId : string;
  MoneyAmount : string;
  MoneyCurrency : string }.
End CreateReceipt.

Module ReceiptBody.
Record t := { Number : string; IssuedAt : Time }.
End ReceiptBody.

Module PutReceiptsResponse.
Record t := {
  StatusCode : nat;
  JSON200 : option ReceiptBody.t;
  JSON201 : option ReceiptBody.t }.
End PutReceiptsResponse.

Module VoidReceiptRequest.
Record t := { TicketId : string; Reason : string; IdempotentId : option string }.
End VoidReceiptRequest.

(** [clients.Receipts], on the state [U] of the receipts service. *)
Class ReceiptsClient (U : Type) := {
  PutReceiptsWithResponse :
    CreateReceipt.t → U → result PutReceiptsResponse.t * U;
  PutVoidReceiptWithResponse :
    VoidReceiptRequest.t → U → result nat * U }.

Definition IssueReceipt {U} `{!ReceiptsClient U}
    (request : IssueReceiptRequest.t) (s : U)
    : result IssueReceiptResponse.t * U :=
  let key :=
    IssueReceiptRequest.IdempotencyKey request
      +:+ IssueReceiptRequest.TicketID request in
  match PutReceiptsWithResponse
          {| CreateReceipt.IdempotencyKey := Some key;
             CreateReceipt.TicketId := IssueReceiptRequest.TicketID request;
             CreateReceipt.MoneyAmount :=
               Money.Amount (IssueReceiptRequest.Price request);
             CreateReceipt.MoneyCurrency :=
               Money.Currency (IssueReceiptRequest.Price request) |} s with
  | (Err err, s) => (Err (ErrWrap "failed to post receipt" err), s)
  | (Panic v, s) => (Panic v, s)
  | (Ok resp, s) =>
      if (PutReceiptsResponse.StatusCode resp =? 200)%nat then
        match PutReceiptsResponse.JSON200 resp with
        | Some body =>
            (Ok {| IssueReceiptResponse.ReceiptNumber := ReceiptBody.Number body;
                   IssueReceiptResponse.IssuedAt := ReceiptBody.IssuedAt body |},
             s)
        | None => (Panic "invalid memory address or nil pointer dereference", s)
        end
      else if (PutReceiptsResponse.StatusCode resp =? 201)%nat then
        match PutReceiptsResponse.JSON201 resp with
        | Some body =>
            (Ok {| IssueReceiptResponse.ReceiptNumber := ReceiptBody.Number body;
                   IssueReceiptResponse.IssuedAt := ReceiptBody.IssuedAt body |},
             s)
        | None => (Panic "invalid memory address or nil pointer dereference", s)
        end
      else
        (Err (ErrMsg ("unexpected status code for POST receipts-api/receipts: "
                        +:+ pretty (PutReceiptsResponse.StatusCode resp))), s)
  end.

Definition VoidReceipt {U} `{!ReceiptsClient U}
    (ticketID idempotencyKey : string) (s : U) : result unit * U :=
  match PutVoidReceiptWithResponse
          {| VoidReceiptRequest.TicketId := ticketID;
             VoidReceiptRequest.Reason := "customer requested refund";
             VoidReceiptRequest.IdempotentId := Some idempotencyKey |} s with
  | (Err err, s) => (Err (ErrWrap "failed to post void receipt" err), s)
  | (Panic v, s) => (Panic v, s)
  | (Ok code, s) =>
      if (code =? 200)%nat then (Ok tt, s)
      else
        (Err (ErrMsg
                ("unexpected status code for POST receipts-api/receipts/void: "
                   +:+ pretty code)), s)
  end.

(** An instance on which the adapter can be run: a service that keeps the
    receipts it issued by idempotency key, and answers 201 and the new
    receipt for a new key, 200 and the receipt it has for a key it
    knows. *)
Module FakeService.
Record t := {
  issued : gmap string ReceiptBody.t;
  voided : list string;
  clock : Time }.
End FakeService.

#[global] Instance fake_receipts_client : ReceiptsClient FakeService.t := {|
  PutReceiptsWithResponse := λ req s,
    let key := default "" (CreateReceipt.IdempotencyKey req) in
    match FakeService.issued s !! key with
    | Some body =>
        (Ok {| PutReceiptsResponse.StatusCode := 200;
               PutReceiptsResponse.JSON200 := Some body;
               PutReceiptsResponse.JSON201 := None |}, s)
    | None =>
        let body :=
          {| ReceiptBody.Number := "receipt-" +:+ key;
             ReceiptBody.IssuedAt := FakeService.clock s |} in
        (Ok {| PutReceiptsResponse.StatusCode := 201;
               PutReceiptsResponse.JSON200 := None;
               PutReceiptsResponse.JSON201 := Some body |},
         {| FakeService.issued := <[key := body]> (FakeService.issued s);
            FakeService.voided := FakeService.voided s;
            FakeService.clock := (FakeService.clock s + 1)%Z |})
    end;
  PutVoidReceiptWithResponse := λ req s,
    (Ok 200,
     {| FakeService.issued := FakeService.issued s;
        FakeService.voided :=
          FakeService.voided s ++ [VoidReceiptRequest.TicketId req];
        FakeService.clock := FakeService.clock s |}) |}.

End ReceiptsAdapter.

(** ** Concrete inputs *)

Module Examples.
Import Entities Projector Pipeline Splitter.

Definition header (published_at : Time) : MessageHeader.t :=
  {| MessageHeader.ID := "e1"; MessageHeader.PublishedAt := published_at |}.

Definition booking_made : BookingMade_v1.t :=
  {| BookingMade_v1.Header := header 100%Z; BookingMade_v1.BookingID := "B1" |}.

(** The creation of B1 with a time in year 10000. *)
Definition booking_made_year_10000 : BookingMade_v1.t :=
  {| BookingMade_v1.Header := header (3652059 * 86400)%Z;
     BookingMade_v1.BookingID := "B1" |}.

Definition ticket_confirmed : TicketBookingConfirmed_v1.t :=
  {| TicketBookingConfirmed_v1.Header := header 200%Z;
     TicketBookingConfirmed_v1.TicketID := "T1";
     TicketBookingConfirmed_v1.CustomerEmail := "ops@example.com";
     TicketBookingConfirmed_v1.Price :=
       {| Money.Amount := "50.00"; Money.Currency := "EUR" |};
     TicketBookingConfirmed_v1.BookingID := "B1" |}.

Definition ticket_printed : TicketPrinted_v1.t :=
  {| TicketPrinted_v1.Header := header 300%Z;
     TicketPrinted_v1.TicketID := "T1";
     TicketPrinted_v1.FileName := "T1-ticket.html" |}.

Definition ticket_refunded : TicketRefunded_v1.t :=
  {| TicketRefunded_v1.Header := header 400%Z;
     TicketRefunded_v1.TicketID := "T1" |}.

Definition ticket_T1 : OpsTicket.t :=
  {| OpsTicket.PriceAmount := "50.00"; OpsTicket.PriceCurrency := "EUR";
     OpsTicket.CustomerEmail := "ops@example.com";
     OpsTicket.ConfirmedAt := 200%Z; OpsTicket.RefundedAt := zero_time;
     OpsTicket.PrintedAt := zero_time; OpsTicket.PrintedFileName := "";
     OpsTicket.ReceiptIssuedAt := zero_time; OpsTicket.ReceiptNumber := "" |}.

(** Booking B1 without tickets, stored with a nil map. *)
Definition booking_B1_nil : OpsBooking.t :=
  {| OpsBooking.BookingID := "B1"; OpsBooking.BookedAt := 100%Z;
     OpsBooking.Tickets := None; OpsBooking.LastUpdate := 100%Z |}.

(** Booking B1 with ticket T1. *)
Definition booking_B1 : OpsBooking.t :=
  {| OpsBooking.BookingID := "B1"; OpsBooking.BookedAt := 100%Z;
     OpsBooking.Tickets := Some {["T1" := ticket_T1]};
     OpsBooking.LastUpdate := 200%Z |}.

Definition db_empty : gmap string OpsBooking.t := ∅.
Definition db_B1_nil : gmap string OpsBooking.t := {["B1" := booking_B1_nil]}.
Definition db_B1 : gmap string OpsBooking.t := {["B1" := booking_B1]}.


Definition msg_printed : Message.t :=
  {| Message.UUID := "m2";
     Message.Metadata := {["name" := "TicketPrinted_v1"]};
     Message.Payload := "{}" |}.

Definition world {U} (topic handler : string) (s : U) : World U :=
  {| effects := [];
     uuids := λ _, "3n8fSWgjzvutiGvhXWYaUP";
     ctx := {| Context.SubscribeTopic := topic;
               Context.HandlerName := handler;
               Context.CorrelationID := "";
               Context.RemoteTrace := "";
               Context.Span := "" |};
     user := s |}.


Definition generic_failure (msg : Message.t) (s : unit) : outcome * unit :=
  (Return [] (Some (ErrMsg "connection refused")), s).

Definition ticket_receipt_issued : TicketReceiptIssued_v1.t :=
  {| TicketReceiptIssued_v1.Header := header 500%Z;
     TicketReceiptIssued_v1.TicketID := "T1";
     TicketReceiptIssued_v1.ReceiptNumber := "R-1";
     TicketReceiptIssued_v1.IssuedAt := 450%Z |}.

(** A handler that fails at its first two calls and then returns no
    error, and one that panics; the state counts the calls. *)
Definition flaky (msg : Message.t) (calls : nat) : outcome * nat :=
  if (calls <? 2)%nat
  then (Return [] (Some (ErrMsg "connection refused")), S calls)
  else (Return [] None, S calls).

Definition panicking (msg : Message.t) (calls : nat) : outcome * nat :=
  (Panicked "index out of range", S calls).

(** A data lake that records what is stored, and a marshaler that decodes
    the header of every payload but the empty one. *)
Definition recording_data_lake
    : DataLake (list (string * string * string)) := {|
  StoreEvent := λ eventID eventHeader eventName payload s,
    (Ok tt, s ++ [(eventID, eventName, payload)]) |}.

Definition header_unmarshaler : HeaderUnmarshaler := {|
  Unmarshal_Header := λ msg,
    if bool_decide (Message.Payload msg = "") then inl ErrUnmarshal
    else inr (header 100%Z) |}.

Definition msg_empty_payload : Message.t :=
  {| Message.UUID := "m3";
     Message.Metadata := {["name" := "TicketPrinted_v1"]};
     Message.Payload := "" |}.

(** An embedded file system with the shell, one script and one
    directory. *)
Definition static_fs : Frontend.FS :=
  {| Frontend.Open := λ name,
       bool_decide (name ∈ ["_shell.html"; "assets"; "assets/app.js"]);
     Frontend.Stat := λ name,
       if bool_decide (name = "assets") then Some true
       else if bool_decide (name ∈ ["_shell.html"; "assets/app.js"])
            then Some false else None;
     Frontend.ReadFile := λ name,
       if bool_decide (name = "_shell.html") then Some "<html></html>"
       else if bool_decide (name = "assets/app.js") then Some "app()"
       else None |}.

Definition receipt_request : ReceiptsAdapter.IssueReceiptRequest.t :=
  {| ReceiptsAdapter.IssueReceiptRequest.IdempotencyKey := "k1";
     ReceiptsAdapter.IssueReceiptRequest.TicketID := "T1";
     ReceiptsAdapter.IssueReceiptRequest.Price :=
       {| Money.Amount := "50.00"; Money.Currency := "EUR" |} |}.

Definition receipts_service : ReceiptsAdapter.FakeService.t :=
  {| ReceiptsAdapter.FakeService.issued := ∅;
     ReceiptsAdapter.FakeService.voided := [];
     ReceiptsAdapter.FakeService.clock := 450%Z |}.

End Examples.

(** * Properties *)

(** ** The read model *)

Section projector_facts.
Import Entities Projector.
Context {payload : Type} `{!Externals payload}.
Implicit Types (db : table payload) (p : payload) (rm : OpsBooking.t).

Lemma errors_Is_refl (e : error) : errors_Is e e = true.
Proof. destruct e; cbn [errors_Is]; by rewrite bool_decide_eq_true_2. Qed.

(** *** Times that [json.Marshal] encodes *)

Lemma OpsTicket_times_ok_iff (ticket : OpsTicket.t) :
  OpsTicket.times_ok Time_MarshalJSON_ok ticket = true ↔
  Time_MarshalJSON_ok (OpsTicket.ConfirmedAt ticket) = true ∧
  Time_MarshalJSON_ok (OpsTicket.RefundedAt ticket) = true ∧
  Time_MarshalJSON_ok (OpsTicket.PrintedAt ticket) = true ∧
  Time_MarshalJSON_ok (OpsTicket.ReceiptIssuedAt ticket) = true.
Proof. unfold OpsTicket.times_ok. rewrite !andb_true_iff. tauto. Qed.

Lemma OpsTicket_zero_times_ok :
  OpsTicket.times_ok Time_MarshalJSON_ok OpsTicket.zero = true.
Proof.
  apply OpsTicket_times_ok_iff; simpl.
  by rewrite Time_MarshalJSON_ok_zero.
Qed.

Lemma OpsBooking_times_ok_tickets rm m :
  OpsBooking.times_ok Time_MarshalJSON_ok rm = true →
  OpsBooking.Tickets rm = Some m →
  map_Forall (λ _ ticket, OpsTicket.times_ok Time_MarshalJSON_ok ticket = true) m.
Proof.
  unfold OpsBooking.times_ok. intros Hok Hm. rewrite Hm in Hok.
  apply andb_true_iff in Hok as [_ Hok]. by apply bool_decide_eq_true in Hok.
Qed.

Lemma OpsBooking_times_ok_with_Tickets rm m :
  OpsBooking.times_ok Time_MarshalJSON_ok rm = true →
  map_Forall (λ _ ticket, OpsTicket.times_ok Time_MarshalJSON_ok ticket = true) m →
  OpsBooking.times_ok Time_MarshalJSON_ok (OpsBooking.with_Tickets (Some m) rm)
    = true.
Proof.
  unfold OpsBooking.times_ok. simpl. intros Hok Hm.
  apply andb_true_iff in Hok as [-> _]. simpl.
  by apply bool_decide_eq_true.
Qed.

Lemma map_get_times_ok rm (k : string) :
  OpsBooking.times_ok Time_MarshalJSON_ok rm = true →
  OpsTicket.times_ok Time_MarshalJSON_ok (map_get (OpsBooking.Tickets rm) k)
    = true.
Proof.
  intros Hok. unfold map_get.
  destruct (OpsBooking.Tickets rm) as [m|] eqn:Hm;
    [|apply OpsTicket_zero_times_ok].
  destruct (m !! k) as [ticket|] eqn:Hk; simpl;
    [|apply OpsTicket_zero_times_ok].
  exact (OpsBooking_times_ok_tickets rm m Hok Hm k ticket Hk).
Qed.

(** A booking whose tickets are those of [rm] with one ticket written. *)
Lemma OpsBooking_times_ok_insert rm (k : string) (ticket : OpsTicket.t) :
  OpsBooking.times_ok Time_MarshalJSON_ok rm = true →
  OpsTicket.times_ok Time_MarshalJSON_ok ticket = true →
  OpsBooking.times_ok Time_MarshalJSON_ok
    (OpsBooking.with_Tickets
       (Some (<[k := ticket]> (default ∅ (OpsBooking.Tickets rm)))) rm) = true.
Proof.
  intros Hok Hticket. apply OpsBooking_times_ok_with_Tickets; [done|].
  apply map_Forall_insert_2; [done|].
  destruct (OpsBooking.Tickets rm) as [m|] eqn:Hm; simpl.
  - by eapply OpsBooking_times_ok_tickets.
  - apply map_Forall_empty.
Qed.

(** A booking that encodes is read back as it is. *)
Lemma json_Marshal_times_ok rm :
  OpsBooking.times_ok Time_MarshalJSON_ok rm = true →
  ∃ p, json_Marshal rm = Some p ∧ json_Unmarshal p = Some rm.
Proof.
  intros Hok. apply json_Marshal_is_Some in Hok as [p Hp].
  exists p. split; [done|]. by apply json_Unmarshal_Marshal.
Qed.

Lemma json_Marshal_None rm :
  OpsBooking.times_ok Time_MarshalJSON_ok rm = false → json_Marshal rm = None.
Proof.
  intros Hok. apply eq_None_not_Some. rewrite json_Marshal_is_Some. congruence.
Qed.

(** *** Reading a payload *)

(** What is read back from a payload never has a nil map. *)
Lemma unmarshalReadModelFromDB_Tickets p rm :
  unmarshalReadModelFromDB p = Ok rm → OpsBooking.Tickets rm ≠ None.
Proof.
  unfold unmarshalReadModelFromDB.
  destruct (json_Unmarshal p) as [b|]; [|done].
  destruct (OpsBooking.Tickets b) eqn:Hb; intros [= <-]; simpl; congruence.
Qed.

Lemma unmarshalReadModelFromDB_Some p rm m :
  json_Unmarshal p = Some rm → OpsBooking.Tickets rm = Some m →
  unmarshalReadModelFromDB p = Ok rm.
Proof. intros Hp Hm. unfold unmarshalReadModelFromDB. by rewrite Hp, Hm. Qed.

(** Reading back what was written, for a booking with a map. *)
Lemma unmarshalReadModelFromDB_Marshal rm p :
  OpsBooking.Tickets rm ≠ None →
  json_Unmarshal p = Some rm →
  unmarshalReadModelFromDB p = Ok rm.
Proof.
  intros Hm Hp. unfold unmarshalReadModelFromDB. rewrite Hp.
  destruct (OpsBooking.Tickets rm); done.
Qed.

Lemma with_Tickets_id rm m :
  OpsBooking.Tickets rm = Some m → OpsBooking.with_Tickets (Some m) rm = rm.
Proof. destruct rm; simpl; by intros ->. Qed.

(** A payload that decodes is read back with the map of its tickets, the
    empty map standing in for a nil one. *)
Lemma unmarshalReadModelFromDB_decode p rm :
  json_Unmarshal p = Some rm →
  unmarshalReadModelFromDB p =
    Ok (OpsBooking.with_Tickets (Some (default ∅ (OpsBooking.Tickets rm))) rm).
Proof.
  intros Hp. unfold unmarshalReadModelFromDB. rewrite Hp.
  destruct (OpsBooking.Tickets rm) as [m|] eqn:Hm; simpl; [|done].
  by rewrite with_Tickets_id.
Qed.

Lemma FindByID_row (bookingID : string) db p rm :
  db !! bookingID = Some p →
  unmarshalReadModelFromDB p = Ok rm →
  FindByID bookingID db = Ok rm.
Proof. intros Hrow Hp. unfold FindByID, findByBookingID. by rewrite Hrow, Hp. Qed.

(** *** The two statements that write *)

(** What [createReadModel] leaves: the table as it was, or the table with
    the new row of a booking that had none. *)
Lemma createReadModel_table (booking : OpsBooking.t) db :
  (createReadModel booking db).2 = db ∨
  (db !! OpsBooking.BookingID booking = None ∧
   ∃ p, json_Marshal booking = Some p ∧
        (createReadModel booking db).2 =
          <[OpsBooking.BookingID booking := p]> db).
Proof.
  unfold createReadModel.
  destruct (json_Marshal booking) as [p|]; [|by left].
  destruct ExecContext_error as [err|]; [by left|].
  destruct (db !! OpsBooking.BookingID booking) eqn:Hrow; [by left|].
  right. split; [done|]. by exists p.
Qed.

Lemma createReadModel_existing (booking : OpsBooking.t) db :
  OpsBooking.times_ok Time_MarshalJSON_ok booking = true →
  ExecContext_error = None →
  is_Some (db !! OpsBooking.BookingID booking) →
  createReadModel booking db = (Ok tt, db).
Proof.
  intros Hok Hexec [p Hp]. unfold createReadModel.
  destruct (json_Marshal_times_ok _ Hok) as (p' & -> & _).
  by rewrite Hexec, Hp.
Qed.

Lemma createReadModel_fresh (booking : OpsBooking.t) db :
  OpsBooking.times_ok Time_MarshalJSON_ok booking = true →
  ExecContext_error = None →
  db !! OpsBooking.BookingID booking = None →
  ∃ p, json_Marshal booking = Some p ∧ json_Unmarshal p = Some booking ∧
       createReadModel booking db =
         (Ok tt, <[OpsBooking.BookingID booking := p]> db).
Proof.
  intros Hok Hexec Hrow. unfold createReadModel.
  destruct (json_Marshal_times_ok _ Hok) as (p & Hp & Hback).
  exists p. by rewrite Hp, Hexec, Hrow.
Qed.

(** The transaction that writes [rm], by its three outcomes. *)
Lemma updateReadModel_tx now rm db :
  updateInTx LevelRepeatableRead (updateReadModel now rm) db =
    match json_Marshal (OpsBooking.with_LastUpdate now rm) with
    | None => (Err ErrMarshal, db)
    | Some p =>
        match ExecContext_error with
        | Some err => (Err (ErrWrap "could not update read model" err), db)
        | None => (Ok tt, <[OpsBooking.BookingID rm := p]> db)
        end
    end.
Proof.
  unfold updateInTx, updateReadModel.
  destruct (json_Marshal _) as [p|]; [|done].
  by destruct ExecContext_error.
Qed.

Lemma updateReadModel_table now rm db :
  (updateInTx LevelRepeatableRead (updateReadModel now rm) db).2 = db ∨
  ∃ p, json_Marshal (OpsBooking.with_LastUpdate now rm) = Some p ∧
       ExecContext_error = None ∧
       updateInTx LevelRepeatableRead (updateReadModel now rm) db =
         (Ok tt, <[OpsBooking.BookingID rm := p]> db).
Proof.
  rewrite updateReadModel_tx.
  destruct (json_Marshal _) as [p|]; [|by left].
  destruct ExecContext_error as [err|] eqn:Hexec; [by left|].
  right. by exists p.
Qed.

Lemma updateReadModel_Ok now rm db :
  OpsBooking.times_ok Time_MarshalJSON_ok rm = true →
  ExecContext_error = None →
  ∃ p, json_Marshal (OpsBooking.with_LastUpdate now rm) = Some p ∧
       json_Unmarshal p = Some (OpsBooking.with_LastUpdate now rm) ∧
       updateInTx LevelRepeatableRead (updateReadModel now rm) db =
         (Ok tt, <[OpsBooking.BookingID rm := p]> db).
Proof.
  intros Hok Hexec. rewrite updateReadModel_tx.
  destruct (json_Marshal_times_ok (OpsBooking.with_LastUpdate now rm) Hok)
    as (p & Hp & Hback).
  exists p. by rewrite Hp, Hexec.
Qed.

(** Whether the write of a booking is refused by [json.Marshal] does not
    depend on the reading of the clock. *)
Lemma json_Marshal_with_LastUpdate now now' rm p :
  json_Marshal (OpsBooking.with_LastUpdate now rm) = Some p →
  is_Some (json_Marshal (OpsBooking.with_LastUpdate now' rm)).
Proof.
  intros Hp. apply json_Marshal_is_Some.
  change (OpsBooking.times_ok Time_MarshalJSON_ok
            (OpsBooking.with_LastUpdate now rm) = true).
  apply json_Marshal_is_Some. by exists p.
Qed.

(** *** [OnBookingMade] *)

Lemma OnBookingMade_times_ok now (e : BookingMade_v1.t) :
  Time_MarshalJSON_ok (MessageHeader.PublishedAt (BookingMade_v1.Header e))
    = true →
  OpsBooking.times_ok Time_MarshalJSON_ok
    {| OpsBooking.BookingID := BookingMade_v1.BookingID e;
       OpsBooking.BookedAt :=
         MessageHeader.PublishedAt (BookingMade_v1.Header e);
       OpsBooking.Tickets := Some ∅;
       OpsBooking.LastUpdate := now |} = true.
Proof.
  intros Hok. unfold OpsBooking.times_ok. simpl. rewrite Hok. simpl.
  apply bool_decide_eq_true, map_Forall_empty.
Qed.

Lemma OnBookingMade_table now (e : BookingMade_v1.t) db :
  (OnBookingMade now e db).2 = db ∨
  (db !! BookingMade_v1.BookingID e = None ∧
   ∃ p, json_Unmarshal p =
          Some {| OpsBooking.BookingID := BookingMade_v1.BookingID e;
                  OpsBooking.BookedAt :=
                    MessageHeader.PublishedAt (BookingMade_v1.Header e);
                  OpsBooking.Tickets := Some ∅;
                  OpsBooking.LastUpdate := now |} ∧
        (OnBookingMade now e db).2 = <[BookingMade_v1.BookingID e := p]> db).
Proof.
  unfold OnBookingMade.
  match goal with |- context [createReadModel ?b db] =>
    destruct (createReadModel_table b db) as [Hsame|(Hrow & p & Hp & Hnew)];
    destruct (createReadModel b db) as [[[]|err|v] db'] end;
    simpl in *; subst db'; try by left.
  all: right; split; [done|]; exists p; split; [|done].
  all: by apply json_Unmarshal_Marshal.
Qed.

Lemma OnBookingMade_existing now (e : BookingMade_v1.t) db :
  Time_MarshalJSON_ok (MessageHeader.PublishedAt (BookingMade_v1.Header e))
    = true →
  ExecContext_error = None →
  is_Some (db !! BookingMade_v1.BookingID e) →
  OnBookingMade now e db = (Ok tt, db).
Proof.
  intros Hok Hexec Hrow. unfold OnBookingMade.
  rewrite createReadModel_existing; [done| |done|done].
  by apply OnBookingMade_times_ok.
Qed.

(** [OnBookingMade] on a table without the row of the booking inserts
    the booking with an empty, non-nil map of tickets. *)
Lemma OnBookingMade_fresh now (e : BookingMade_v1.t) db :
  Time_MarshalJSON_ok (MessageHeader.PublishedAt (BookingMade_v1.Header e))
    = true →
  ExecContext_error = None →
  db !! BookingMade_v1.BookingID e = None →
  ∃ p, json_Unmarshal p =
         Some {| OpsBooking.BookingID := BookingMade_v1.BookingID e;
                 OpsBooking.BookedAt :=
                   MessageHeader.PublishedAt (BookingMade_v1.Header e);
                 OpsBooking.Tickets := Some ∅;
                 OpsBooking.LastUpdate := now |} ∧
       OnBookingMade now e db = (Ok tt, <[BookingMade_v1.BookingID e := p]> db).
Proof.
  intros Hok Hexec Hrow. unfold OnBookingMade.
  match goal with |- context [createReadModel ?b db] =>
    destruct (createReadModel_fresh b db) as (p & Hp & Hback & ->) end;
    [by apply OnBookingMade_times_ok|done|done|].
  by exists p.
Qed.

Lemma OnBookingMade_row now (e : BookingMade_v1.t) db :
  Time_MarshalJSON_ok (MessageHeader.PublishedAt (BookingMade_v1.Header e))
    = true →
  ExecContext_error = None →
  is_Some ((OnBookingMade now e db).2 !! BookingMade_v1.BookingID e).
Proof.
  intros Hok Hexec.
  destruct (db !! BookingMade_v1.BookingID e) as [p|] eqn:Hrow.
  - rewrite OnBookingMade_existing; [|done|done|by exists p].
    simpl. rewrite Hrow. eauto.
  - destruct (OnBookingMade_fresh now e db Hok Hexec Hrow) as (p & _ & ->).
    simpl. rewrite lookup_insert_eq. eauto.
Qed.

(** C2.  The time of the event is one that [json.Marshal] encodes and the
    server executes the statement.  When the row of the booking exists,
    [OnBookingMade] returns no error and leaves the table as it is; and
    after a first [OnBookingMade], on any table, delivering the event again
    (at any later time) changes nothing and returns no error. *)
Theorem OnBookingMade_redelivery_noop now (e : BookingMade_v1.t) db :
  Time_MarshalJSON_ok (MessageHeader.PublishedAt (BookingMade_v1.Header e))
    = true →
  ExecContext_error = None →
  (is_Some (db !! BookingMade_v1.BookingID e) →
   OnBookingMade now e db = (Ok tt, db)) ∧
  ∀ now' : Time,
    OnBookingMade now' e (OnBookingMade now e db).2 =
      (Ok tt, (OnBookingMade now e db).2).
Proof.
  intros Hok Hexec. split; [by apply OnBookingMade_existing|].
  intros now'. apply OnBookingMade_existing; [done|done|].
  by apply OnBookingMade_row.
Qed.

(** *** [OnTicketBookingConfirmed] *)

Lemma updateByBookingID_missing now (bookingID : string) updateFunc db :
  db !! bookingID = None →
  updateByBookingID now bookingID updateFunc db =
    (Err (ErrMsg ("read model for booking " +:+ bookingID +:+ " not exist yet")), db).
Proof.
  intros Hrow. unfold updateByBookingID, updateInTx, findByBookingID.
  by rewrite Hrow.
Qed.

(** On a row that is read back and an update that succeeds,
    [updateByBookingID] is the transaction that writes the updated
    booking. *)
Lemma updateByBookingID_row now (bookingID : string) updateFunc db p rm updatedRm :
  db !! bookingID = Some p →
  unmarshalReadModelFromDB p = Ok rm →
  updateFunc rm = Ok updatedRm →
  updateByBookingID now bookingID updateFunc db =
    updateInTx LevelRepeatableRead (updateReadModel now updatedRm) db.
Proof.
  intros Hrow Hp Hf. unfold updateByBookingID, updateInTx, findByBookingID.
  by rewrite Hrow, Hp, Hf.
Qed.

(** [OnTicketBookingConfirmed] on a row that decodes writes the booking
    with the ticket of the event, whose other fields are those the row had
    for it. *)
Lemma OnTicketBookingConfirmed_decoded now (e : TicketBookingConfirmed_v1.t)
    db p rm :
  db !! TicketBookingConfirmed_v1.BookingID e = Some p →
  json_Unmarshal p = Some rm →
  OnTicketBookingConfirmed now e db =
    updateInTx LevelRepeatableRead
      (updateReadModel now
         (OpsBooking.with_Tickets
            (Some
               (<[TicketBookingConfirmed_v1.TicketID e :=
                    {| OpsTicket.PriceAmount :=
                         Money.Amount (TicketBookingConfirmed_v1.Price e);
                       OpsTicket.PriceCurrency :=
                         Money.Currency (TicketBookingConfirmed_v1.Price e);
                       OpsTicket.CustomerEmail :=
                         TicketBookingConfirmed_v1.CustomerEmail e;
                       OpsTicket.ConfirmedAt :=
                         MessageHeader.PublishedAt
                           (TicketBookingConfirmed_v1.Header e);
                       OpsTicket.RefundedAt :=
                         OpsTicket.RefundedAt
                           (map_get (OpsBooking.Tickets rm)
                              (TicketBookingConfirmed_v1.TicketID e));
                       OpsTicket.PrintedAt :=
                         OpsTicket.PrintedAt
                           (map_get (OpsBooking.Tickets rm)
                              (TicketBookingConfirmed_v1.TicketID e));
                       OpsTicket.PrintedFileName :=
                         OpsTicket.PrintedFileName
                           (map_get (OpsBooking.Tickets rm)
                              (TicketBookingConfirmed_v1.TicketID e));
                       OpsTicket.ReceiptIssuedAt :=
                         OpsTicket.ReceiptIssuedAt
                           (map_get (OpsBooking.Tickets rm)
                              (TicketBookingConfirmed_v1.TicketID e));
                       OpsTicket.ReceiptNumber :=
                         OpsTicket.ReceiptNumber
                           (map_get (OpsBooking.Tickets rm)
                              (TicketBookingConfirmed_v1.TicketID e)) |}]>
                  (default ∅ (OpsBooking.Tickets rm)))) rm))
      db.
Proof.
  intros Hrow Hp.
  unfold OnTicketBookingConfirmed.
  erewrite updateByBookingID_row;
    [ | done | by apply unmarshalReadModelFromDB_decode | simpl; reflexivity ].
  do 2 f_equal.
  unfold OpsBooking.with_Tickets, map_get; simpl.
  by destruct (OpsBooking.Tickets rm).
Qed.

Lemma OnTicketBookingConfirmed_row now (e : TicketBookingConfirmed_v1.t) db rm :
  booking_row db (TicketBookingConfirmed_v1.BookingID e) rm →
  OnTicketBookingConfirmed now e db =
    updateInTx LevelRepeatableRead
      (updateReadModel now
         (OpsBooking.with_Tickets
            (Some
               (<[TicketBookingConfirmed_v1.TicketID e :=
                    {| OpsTicket.PriceAmount :=
                         Money.Amount (TicketBookingConfirmed_v1.Price e);
                       OpsTicket.PriceCurrency :=
                         Money.Currency (TicketBookingConfirmed_v1.Price e);
                       OpsTicket.CustomerEmail :=
                         TicketBookingConfirmed_v1.CustomerEmail e;
                       OpsTicket.ConfirmedAt :=
                         MessageHeader.PublishedAt
                           (TicketBookingConfirmed_v1.Header e);
                       OpsTicket.RefundedAt :=
                         OpsTicket.RefundedAt
                           (map_get (OpsBooking.Tickets rm)
                              (TicketBookingConfirmed_v1.TicketID e));
                       OpsTicket.PrintedAt :=
                         OpsTicket.PrintedAt
                           (map_get (OpsBooking.Tickets rm)
                              (TicketBookingConfirmed_v1.TicketID e));
                       OpsTicket.PrintedFileName :=
                         OpsTicket.PrintedFileName
                           (map_get (OpsBooking.Tickets rm)
                              (TicketBookingConfirmed_v1.TicketID e));
                       OpsTicket.ReceiptIssuedAt :=
                         OpsTicket.ReceiptIssuedAt
                           (map_get (OpsBooking.Tickets rm)
                              (TicketBookingConfirmed_v1.TicketID e));
                       OpsTicket.ReceiptNumber :=
                         OpsTicket.ReceiptNumber
                           (map_get (OpsBooking.Tickets rm)
                              (TicketBookingConfirmed_v1.TicketID e)) |}]>
                  (default ∅ (OpsBooking.Tickets rm)))) rm))
      db.
Proof.
  intros (p & Hrow & Hp & Hid). by eapply OnTicketBookingConfirmed_decoded.
Qed.

(** The booking that [OnTicketBookingConfirmed] writes encodes when the
    time of the event does: the times of the row were decoded. *)
Lemma OnTicketBookingConfirmed_times_ok (e : TicketBookingConfirmed_v1.t) rm
    (old : OpsTicket.t) :
  OpsBooking.times_ok Time_MarshalJSON_ok rm = true →
  OpsTicket.times_ok Time_MarshalJSON_ok old = true →
  Time_MarshalJSON_ok
    (MessageHeader.PublishedAt (TicketBookingConfirmed_v1.Header e)) = true →
  OpsBooking.times_ok Time_MarshalJSON_ok
    (OpsBooking.with_Tickets
       (Some
          (<[TicketBookingConfirmed_v1.TicketID e :=
               {| OpsTicket.PriceAmount :=
                    Money.Amount (TicketBookingConfirmed_v1.Price e);
                  OpsTicket.PriceCurrency :=
                    Money.Currency (TicketBookingConfirmed_v1.Price e);
                  OpsTicket.CustomerEmail :=
                    TicketBookingConfirmed_v1.CustomerEmail e;
                  OpsTicket.ConfirmedAt :=
                    MessageHeader.PublishedAt
                      (TicketBookingConfirmed_v1.Header e);
                  OpsTicket.RefundedAt := OpsTicket.RefundedAt old;
                  OpsTicket.PrintedAt := OpsTicket.PrintedAt old;
                  OpsTicket.PrintedFileName := OpsTicket.PrintedFileName old;
                  OpsTicket.ReceiptIssuedAt := OpsTicket.ReceiptIssuedAt old;
                  OpsTicket.ReceiptNumber := OpsTicket.ReceiptNumber old |}]>
             (default ∅ (OpsBooking.Tickets rm)))) rm) = true.
Proof.
  intros Hrm Hold He. apply OpsBooking_times_ok_insert; [done|].
  apply OpsTicket_times_ok_iff in Hold as (_ & ? & ? & ?).
  by apply OpsTicket_times_ok_iff.
Qed.

(** [OnTicketBookingConfirmed] when nothing refuses the write. *)
Lemma OnTicketBookingConfirmed_Ok now (e : TicketBookingConfirmed_v1.t) db rm :
  booking_row db (TicketBookingConfirmed_v1.BookingID e) rm →
  Time_MarshalJSON_ok
    (MessageHeader.PublishedAt (TicketBookingConfirmed_v1.Header e)) = true →
  ExecContext_error = None →
  ∃ p,
    json_Unmarshal p =
      Some {| OpsBooking.BookingID := TicketBookingConfirmed_v1.BookingID e;
              OpsBooking.BookedAt := OpsBooking.BookedAt rm;
              OpsBooking.Tickets :=
                Some
                  (<[TicketBookingConfirmed_v1.TicketID e :=
                       {| OpsTicket.PriceAmount :=
                            Money.Amount (TicketBookingConfirmed_v1.Price e);
                          OpsTicket.PriceCurrency :=
                            Money.Currency (TicketBookingConfirmed_v1.Price e);
                          OpsTicket.CustomerEmail :=
                            TicketBookingConfirmed_v1.CustomerEmail e;
                          OpsTicket.ConfirmedAt :=
                            MessageHeader.PublishedAt
                              (TicketBookingConfirmed_v1.Header e);
                          OpsTicket.RefundedAt :=
                            OpsTicket.RefundedAt
                              (map_get (OpsBooking.Tickets rm)
                                 (TicketBookingConfirmed_v1.TicketID e));
                          OpsTicket.PrintedAt :=
                            OpsTicket.PrintedAt
                              (map_get (OpsBooking.Tickets rm)
                                 (TicketBookingConfirmed_v1.TicketID e));
                          OpsTicket.PrintedFileName :=
                            OpsTicket.PrintedFileName
                              (map_get (OpsBooking.Tickets rm)
                                 (TicketBookingConfirmed_v1.TicketID e));
                          OpsTicket.ReceiptIssuedAt :=
                            OpsTicket.ReceiptIssuedAt
                              (map_get (OpsBooking.Tickets rm)
                                 (TicketBookingConfirmed_v1.TicketID e));
                          OpsTicket.ReceiptNumber :=
                            OpsTicket.ReceiptNumber
                              (map_get (OpsBooking.Tickets rm)
                                 (TicketBookingConfirmed_v1.TicketID e)) |}]>
                     (default ∅ (OpsBooking.Tickets rm)));
              OpsBooking.LastUpdate := now |} ∧
    OnTicketBookingConfirmed now e db =
      (Ok tt, <[TicketBookingConfirmed_v1.BookingID e := p]> db).
Proof.
  intros Hrm He Hexec. pose proof Hrm as (p0 & Hrow & Hp0 & Hid).
  rewrite (OnTicketBookingConfirmed_row now e db rm Hrm).
  pose proof (json_Unmarshal_times_ok _ _ Hp0) as Hok.
  match goal with |- context [updateReadModel now ?rm'] =>
    destruct (updateReadModel_Ok now rm' db) as (p & _ & Hback & ->) end;
    [|done|].
  { apply OnTicketBookingConfirmed_times_ok; [done| |done].
    by apply map_get_times_ok. }
  exists p. simpl. rewrite Hid. split; [|done].
  rewrite Hback. f_equal.
  unfold OpsBooking.with_LastUpdate, OpsBooking.with_Tickets; simpl.
  by rewrite Hid.
Qed.

(** C10.  The row of the booking exists, decodes and is stored under its
    own id, and its tickets (possibly a nil map) do not hold the ticket of
    the event; the time of the event is one that [json.Marshal] encodes and
    the server executes the statement.  [OnTicketBookingConfirmed] returns
    no error, and the booking read back afterwards holds the ticket with
    the price amount, currency, customer email and confirmed-at of the
    event, the other fields of the ticket zero, the other tickets as they
    were. *)
Theorem OnTicketBookingConfirmed_creates_ticket now
    (e : TicketBookingConfirmed_v1.t) db p rm :
  db !! TicketBookingConfirmed_v1.BookingID e = Some p →
  json_Unmarshal p = Some rm →
  OpsBooking.BookingID rm = TicketBookingConfirmed_v1.BookingID e →
  map_has (OpsBooking.Tickets rm) (TicketBookingConfirmed_v1.TicketID e) = false →
  Time_MarshalJSON_ok
    (MessageHeader.PublishedAt (TicketBookingConfirmed_v1.Header e)) = true →
  ExecContext_error = None →
  ∃ db',
    OnTicketBookingConfirmed now e db = (Ok tt, db') ∧
    FindByID (TicketBookingConfirmed_v1.BookingID e) db' =
      Ok {| OpsBooking.BookingID := TicketBookingConfirmed_v1.BookingID e;
            OpsBooking.BookedAt := OpsBooking.BookedAt rm;
            OpsBooking.Tickets :=
              Some (<[TicketBookingConfirmed_v1.TicketID e :=
                        {| OpsTicket.PriceAmount :=
                             Money.Amount (TicketBookingConfirmed_v1.Price e);
                           OpsTicket.PriceCurrency :=
                             Money.Currency (TicketBookingConfirmed_v1.Price e);
                           OpsTicket.CustomerEmail :=
                             TicketBookingConfirmed_v1.CustomerEmail e;
                           OpsTicket.ConfirmedAt :=
                             MessageHeader.PublishedAt
                               (TicketBookingConfirmed_v1.Header e);
                           OpsTicket.RefundedAt := zero_time;
                           OpsTicket.PrintedAt := zero_time;
                           OpsTicket.PrintedFileName := "";
                           OpsTicket.ReceiptIssuedAt := zero_time;
                           OpsTicket.ReceiptNumber := "" |}]>
                      (default ∅ (OpsBooking.Tickets rm)));
            OpsBooking.LastUpdate := now |}.
Proof.
  intros Hrow Hp Hid Hfresh He Hexec.
  assert (map_get (OpsBooking.Tickets rm) (TicketBookingConfirmed_v1.TicketID e)
            = OpsTicket.zero) as Hzero.
  { unfold map_has in Hfresh. unfold map_get.
    destruct (OpsBooking.Tickets rm) as [m|]; [|done].
    apply bool_decide_eq_false in Hfresh.
    by rewrite (proj2 (eq_None_not_Some _) Hfresh). }
  destruct (OnTicketBookingConfirmed_Ok now e db rm) as (p' & Hback & ->);
    [by exists p|done|done|].
  eexists. split; [reflexivity|].
  eapply FindByID_row; [apply lookup_insert_eq|].
  rewrite Hzero in Hback.
  by apply unmarshalReadModelFromDB_Marshal.
Qed.

(** [OnTicketBookingConfirmed] right after [OnBookingMade] created the row:
    the row then holds the booking with the one ticket of the event. *)
Lemma OnTicketBookingConfirmed_after_made now1 now2
    (b : BookingMade_v1.t) (c : TicketBookingConfirmed_v1.t) db :
  TicketBookingConfirmed_v1.BookingID c = BookingMade_v1.BookingID b →
  db !! BookingMade_v1.BookingID b = None →
  Time_MarshalJSON_ok (MessageHeader.PublishedAt (BookingMade_v1.Header b))
    = true →
  Time_MarshalJSON_ok
    (MessageHeader.PublishedAt (TicketBookingConfirmed_v1.Header c)) = true →
  ExecContext_error = None →
  ∃ p,
    json_Marshal
      {| OpsBooking.BookingID := BookingMade_v1.BookingID b;
         OpsBooking.BookedAt :=
           MessageHeader.PublishedAt (BookingMade_v1.Header b);
         OpsBooking.Tickets :=
           Some {[TicketBookingConfirmed_v1.TicketID c :=
                    {| OpsTicket.PriceAmount :=
                         Money.Amount (TicketBookingConfirmed_v1.Price c);
                       OpsTicket.PriceCurrency :=
                         Money.Currency (TicketBookingConfirmed_v1.Price c);
                       OpsTicket.CustomerEmail :=
                         TicketBookingConfirmed_v1.CustomerEmail c;
                       OpsTicket.ConfirmedAt :=
                         MessageHeader.PublishedAt
                           (TicketBookingConfirmed_v1.Header c);
                       OpsTicket.RefundedAt := zero_time;
                       OpsTicket.PrintedAt := zero_time;
                       OpsTicket.PrintedFileName := "";
                       OpsTicket.ReceiptIssuedAt := zero_time;
                       OpsTicket.ReceiptNumber := "" |}]};
         OpsBooking.LastUpdate := now2 |} = Some p ∧
    OnTicketBookingConfirmed now2 c (OnBookingMade now1 b db).2 =
      (Ok tt, <[BookingMade_v1.BookingID b := p]> db).
Proof.
  intros Hid Hrow Hb Hc Hexec.
  destruct (OnBookingMade_fresh now1 b db Hb Hexec Hrow) as (p1 & Hback1 & ->).
  cbn [snd].
  match type of Hback1 with _ = Some ?rm1 =>
    rewrite (OnTicketBookingConfirmed_row now2 c _ rm1) end.
  2:{ exists p1. rewrite Hid. split; [apply lookup_insert_eq|]. by split. }
  rewrite updateReadModel_tx.
  unfold OpsBooking.with_LastUpdate, OpsBooking.with_Tickets, map_get; simpl.
  rewrite lookup_empty, insert_empty. simpl.
  match goal with |- context [json_Marshal ?rm2] =>
    destruct (json_Marshal_times_ok rm2) as (p & Hp & _) end.
  { unfold OpsBooking.times_ok. simpl. rewrite Hb. simpl.
    apply bool_decide_eq_true, map_Forall_singleton.
    apply OpsTicket_times_ok_iff; simpl.
    by rewrite Hc, Time_MarshalJSON_ok_zero. }
  exists p. split; [done|].
  by rewrite Hp, Hexec, insert_insert_eq.
Qed.

(** C1.  The table has no row for booking B, and the confirmation is for a
    ticket of B; the times of the two events are ones that [json.Marshal]
    encodes and the server executes the statements.  Delivered first,
    [OnTicketBookingConfirmed] fails with the error "read model for
    booking B not exist yet" and leaves the table as it is; a handler error
    is what the router answers with a negative acknowledgement.  After
    [OnBookingMade] its redelivery returns no error, and the table it
    leaves is the one the in-order delivery leaves: the row of B with the
    one ticket.  The clock readings of the calls are arbitrary; only the
    last successful write stamps [LastUpdate], and it is the same call in
    both orders. *)
Theorem out_of_order_convergence (now0 now1 now1' now2 : Time)
    (b : BookingMade_v1.t) (c : TicketBookingConfirmed_v1.t) db :
  TicketBookingConfirmed_v1.BookingID c = BookingMade_v1.BookingID b →
  db !! BookingMade_v1.BookingID b = None →
  Time_MarshalJSON_ok (MessageHeader.PublishedAt (BookingMade_v1.Header b))
    = true →
  Time_MarshalJSON_ok
    (MessageHeader.PublishedAt (TicketBookingConfirmed_v1.Header c)) = true →
  ExecContext_error = None →
  let in_order :=
    OnTicketBookingConfirmed now2 c (OnBookingMade now1 b db).2 in
  let too_early := OnTicketBookingConfirmed now0 c db in
  let made_late := OnBookingMade now1' b too_early.2 in
  let redelivered := OnTicketBookingConfirmed now2 c made_late.2 in
  too_early =
    (Err (ErrMsg ("read model for booking " +:+ BookingMade_v1.BookingID b
                    +:+ " not exist yet")), db) ∧
  (OnBookingMade now1 b db).1 = Ok tt ∧
  in_order.1 = Ok tt ∧
  made_late.1 = Ok tt ∧
  redelivered.1 = Ok tt ∧
  redelivered.2 = in_order.2 ∧
  FindByID (BookingMade_v1.BookingID b) redelivered.2 =
    Ok {| OpsBooking.BookingID := BookingMade_v1.BookingID b;
          OpsBooking.BookedAt :=
            MessageHeader.PublishedAt (BookingMade_v1.Header b);
          OpsBooking.Tickets :=
            Some {[TicketBookingConfirmed_v1.TicketID c :=
                     {| OpsTicket.PriceAmount :=
                          Money.Amount (TicketBookingConfirmed_v1.Price c);
                        OpsTicket.PriceCurrency :=
                          Money.Currency (TicketBookingConfirmed_v1.Price c);
                        OpsTicket.CustomerEmail :=
                          TicketBookingConfirmed_v1.CustomerEmail c;
                        OpsTicket.ConfirmedAt :=
                          MessageHeader.PublishedAt
                            (TicketBookingConfirmed_v1.Header c);
                        OpsTicket.RefundedAt := zero_time;
                        OpsTicket.PrintedAt := zero_time;
                        OpsTicket.PrintedFileName := "";
                        OpsTicket.ReceiptIssuedAt := zero_time;
                        OpsTicket.ReceiptNumber := "" |}]};
          OpsBooking.LastUpdate := now2 |}.
Proof.
  intros Hid Hrow Hb Hc Hexec in_order too_early made_late redelivered.
  assert (too_early =
            (Err (ErrMsg ("read model for booking " +:+ BookingMade_v1.BookingID b
                            +:+ " not exist yet")), db)) as Hearly.
  { unfold too_early, OnTicketBookingConfirmed. rewrite Hid.
    by apply updateByBookingID_missing. }
  assert (made_late = OnBookingMade now1' b db) as Hlate.
  { unfold made_late. by rewrite Hearly. }
  destruct (OnTicketBookingConfirmed_after_made now1 now2 b c db
              Hid Hrow Hb Hc Hexec) as (p & Hp & Hin).
  destruct (OnTicketBookingConfirmed_after_made now1' now2 b c db
              Hid Hrow Hb Hc Hexec) as (p' & Hp' & Hre).
  assert (p' = p) as -> by congruence.
  fold in_order in Hin. rewrite <- Hlate in Hre. fold redelivered in Hre.
  destruct (OnBookingMade_fresh now1 b db Hb Hexec Hrow) as (p1 & _ & Hmade).
  destruct (OnBookingMade_fresh now1' b db Hb Hexec Hrow) as (p1' & _ & Hmade').
  split; [done|]. split; [by rewrite Hmade|].
  split; [by rewrite Hin|].
  split; [by rewrite Hlate, Hmade'|].
  split; [by rewrite Hre|].
  split; [by rewrite Hre, Hin|].
  rewrite Hre. cbn [snd].
  eapply FindByID_row; [apply lookup_insert_eq|].
  apply unmarshalReadModelFromDB_Marshal; [done|].
  by apply json_Unmarshal_Marshal.
Qed.

(** C9.  [unmarshalReadModelFromDB] never returns a booking with a nil map
    of tickets, and puts the empty map where the payload decodes with a nil
    one; so the bookings returned by [FindByID] and by [FindAll] have a
    map, and the update function of [updateByBookingID] is only called on
    a booking with a map: two update functions that agree on those
    bookings give the same update. *)
Theorem Tickets_never_nil :
  (∀ p rm, unmarshalReadModelFromDB p = Ok rm → OpsBooking.Tickets rm ≠ None) ∧
  (∀ p rm, json_Unmarshal p = Some rm → OpsBooking.Tickets rm = None →
     unmarshalReadModelFromDB p = Ok (OpsBooking.with_Tickets (Some ∅) rm)) ∧
  (∀ bookingID db rm,
     FindByID bookingID db = Ok rm → OpsBooking.Tickets rm ≠ None) ∧
  (∀ receiptIssueDate db bookings,
     FindAll receiptIssueDate db = Ok bookings →
     Forall (λ rm, OpsBooking.Tickets rm ≠ None) bookings) ∧
  (∀ now bookingID db (f g : OpsBooking.t → result OpsBooking.t),
     (∀ rm, OpsBooking.Tickets rm ≠ None → f rm = g rm) →
     updateByBookingID now bookingID f db = updateByBookingID now bookingID g db).
Proof.
  split; [apply unmarshalReadModelFromDB_Tickets|].
  split.
  { intros p rm Hp Hnil. unfold unmarshalReadModelFromDB. by rewrite Hp, Hnil. }
  split.
  { intros bookingID db rm. unfold FindByID, findByBookingID.
    destruct (db !! bookingID) as [p|]; [|done].
    destruct (unmarshalReadModelFromDB p) as [rm'|err|v] eqn:Hp.
    - intros [= <-]. by eapply unmarshalReadModelFromDB_Tickets.
    - by destruct (errors_Is err ErrNoRows).
    - done. }
  split.
  { intros receiptIssueDate db bookings. unfold FindAll.
    destruct (select_payloads receiptIssueDate db) as [payloads|err|v]; [|done..].
    assert (∀ acc, Forall (λ rm, OpsBooking.Tickets rm ≠ None) acc →
              unmarshal_each payloads acc = Ok bookings →
              Forall (λ rm, OpsBooking.Tickets rm ≠ None) bookings) as Hloop.
    { induction payloads as [|p payloads IH]; intros acc Hacc; simpl.
      - by intros [= <-].
      - destruct (unmarshalReadModelFromDB p) as [rm|err|v] eqn:Hp; [|done..].
        apply IH. apply Forall_app. split; [done|].
        apply Forall_singleton. by eapply unmarshalReadModelFromDB_Tickets. }
    by apply Hloop. }
  intros now bookingID db f g Hfg.
  unfold updateByBookingID, updateInTx, findByBookingID.
  destruct (db !! bookingID) as [p|]; [|done].
  destruct (unmarshalReadModelFromDB p) as [rm|err|v] eqn:Hp; [|done..].
  by rewrite (Hfg rm) by by eapply unmarshalReadModelFromDB_Tickets.
Qed.

(** *** The handlers of ticket events *)

(** The ticket is on the row of one booking only: whatever the order of
    the rows, the query of [findByTicketID] yields the payload of that
    row. *)
Lemma findByTicketID_unique (ticketID bookingID : string) db p :
  db !! bookingID = Some p →
  jsonb_tickets_has_key p ticketID = true →
  (∀ bookingID' p', db !! bookingID' = Some p' → bookingID' ≠ bookingID →
     jsonb_tickets_has_key p' ticketID = false) →
  findByTicketID ticketID db = unmarshalReadModelFromDB p.
Proof.
  intros Hrow Hhas Huniq. unfold findByTicketID.
  assert (filter (λ row : string * payload,
                    jsonb_tickets_has_key row.2 ticketID = true)
                 (row_order (map_to_list db)) = [(bookingID, p)]) as ->; [|done].
  apply Permutation_singleton_r. rewrite row_order_perm.
  apply NoDup_Permutation.
  - apply NoDup_filter, NoDup_map_to_list.
  - apply NoDup_singleton.
  - intros [bookingID' p']. rewrite list_elem_of_filter, elem_of_map_to_list.
    rewrite list_elem_of_singleton. simpl. split.
    + intros [Hhas' Hrow'].
      destruct (decide (bookingID' = bookingID)) as [->|Hne].
      * congruence.
      * rewrite (Huniq _ _ Hrow' Hne) in Hhas'. done.
    + intros [= -> ->]. done.
Qed.

(** One update of a ticket that is on one row only is the transaction
    that writes the booking with the updated ticket. *)
Lemma updateByTicketID_one now (ticketID bookingID : string) updateFunc
    db rm m ticket updatedTicket :
  ticket_of_one_booking db ticketID bookingID rm m ticket →
  updateFunc ticket = Ok updatedTicket →
  updateByTicketID now ticketID updateFunc db =
    updateInTx LevelRepeatableRead
      (updateReadModel now
         (OpsBooking.with_Tickets (Some (<[ticketID := updatedTicket]> m)) rm))
      db.
Proof.
  intros ((p & Hrow & Hp & Hid) & Hm & Hticket & Huniq) Hf.
  unfold updateByTicketID, updateInTx.
  erewrite findByTicketID_unique; [ | done | | done ].
  - erewrite unmarshalReadModelFromDB_Some by done.
    rewrite Hm. simpl. rewrite Hticket. simpl. rewrite Hf. by simpl.
  - erewrite jsonb_tickets_has_key_spec by done.
    rewrite Hm. simpl. apply bool_decide_eq_true. eauto.
Qed.

Lemma ticket_of_one_booking_times_ok (ticketID bookingID : string)
    db rm m ticket :
  ticket_of_one_booking db ticketID bookingID rm m ticket →
  OpsBooking.times_ok Time_MarshalJSON_ok rm = true ∧
  OpsTicket.times_ok Time_MarshalJSON_ok ticket = true.
Proof.
  intros ((p & Hrow & Hp & Hid) & Hm & Hticket & _).
  pose proof (json_Unmarshal_times_ok _ _ Hp) as Hok.
  split; [done|].
  exact (OpsBooking_times_ok_tickets rm m Hok Hm ticketID ticket Hticket).
Qed.

(** The row written back holds the ticket, still on that row only. *)
Lemma ticket_of_one_booking_insert now (ticketID bookingID : string)
    db rm m ticket updatedTicket p' :
  ticket_of_one_booking db ticketID bookingID rm m ticket →
  json_Unmarshal p' =
    Some (OpsBooking.with_LastUpdate now
            (OpsBooking.with_Tickets
               (Some (<[ticketID := updatedTicket]> m)) rm)) →
  ticket_of_one_booking (<[bookingID := p']> db) ticketID bookingID
    (OpsBooking.with_LastUpdate now
       (OpsBooking.with_Tickets (Some (<[ticketID := updatedTicket]> m)) rm))
    (<[ticketID := updatedTicket]> m) updatedTicket.
Proof.
  intros ((p & Hrow & Hp & Hid) & Hm & Hticket & Huniq) Hback.
  split; [|split; [done|split]].
  - exists p'. split; [apply lookup_insert_eq|]. by split.
  - apply lookup_insert_eq.
  - intros bookingID' p'' Hrow' Hne.
    rewrite lookup_insert_ne in Hrow' by done. by eapply Huniq.
Qed.

(** One update of the ticket when nothing refuses the write. *)
Lemma updateByTicketID_step now (ticketID bookingID : string) updateFunc
    db rm m ticket updatedTicket :
  ticket_of_one_booking db ticketID bookingID rm m ticket →
  updateFunc ticket = Ok updatedTicket →
  OpsTicket.times_ok Time_MarshalJSON_ok updatedTicket = true →
  ExecContext_error = None →
  ∃ p,
    json_Marshal
      (OpsBooking.with_LastUpdate now
         (OpsBooking.with_Tickets (Some (<[ticketID := updatedTicket]> m)) rm))
      = Some p ∧
    updateByTicketID now ticketID updateFunc db = (Ok tt, <[bookingID := p]> db) ∧
    ticket_of_one_booking (<[bookingID := p]> db) ticketID bookingID
      (OpsBooking.with_LastUpdate now
         (OpsBooking.with_Tickets (Some (<[ticketID := updatedTicket]> m)) rm))
      (<[ticketID := updatedTicket]> m) updatedTicket.
Proof.
  intros Hone Hf Hticket Hexec.
  destruct (ticket_of_one_booking_times_ok _ _ _ _ _ _ Hone) as [Hok _].
  pose proof Hone as ((p0 & Hrow & Hp0 & Hid) & Hm & _).
  rewrite (updateByTicketID_one now _ _ _ _ _ _ _ _ Hone Hf).
  match goal with |- context [updateReadModel now ?rm'] =>
    destruct (updateReadModel_Ok now rm' db) as (p & Hp & Hback & ->) end;
    [|done|].
  { apply OpsBooking_times_ok_with_Tickets; [done|].
    apply map_Forall_insert_2; [done|].
    by eapply OpsBooking_times_ok_tickets. }
  exists p. simpl. rewrite Hid. split; [done|]. split; [done|].
  exact (ticket_of_one_booking_insert now _ _ _ _ _ _ updatedTicket p
           Hone Hback).
Qed.

Lemma FindByID_ticket_of_one_booking (ticketID bookingID : string)
    db rm m ticket :
  ticket_of_one_booking db ticketID bookingID rm m ticket →
  FindByID bookingID db = Ok rm.
Proof.
  intros ((p & Hrow & Hp & Hid) & Hm & _).
  eapply FindByID_row; [done|]. by eapply unmarshalReadModelFromDB_Some.
Qed.

(** Two updates of the ticket one after the other, when nothing refuses
    the writes. *)
Lemma updateByTicketID_twice now1 now2 (ticketID bookingID : string) f g
    db rm m ticket ticket1 ticket2 :
  ticket_of_one_booking db ticketID bookingID rm m ticket →
  f ticket = Ok ticket1 →
  g ticket1 = Ok ticket2 →
  OpsTicket.times_ok Time_MarshalJSON_ok ticket1 = true →
  OpsTicket.times_ok Time_MarshalJSON_ok ticket2 = true →
  ExecContext_error = None →
  ∃ p,
    json_Marshal
      (OpsBooking.with_LastUpdate now2
         (OpsBooking.with_Tickets (Some (<[ticketID := ticket2]> m)) rm))
      = Some p ∧
    (updateByTicketID now1 ticketID f db).1 = Ok tt ∧
    updateByTicketID now2 ticketID g (updateByTicketID now1 ticketID f db).2 =
      (Ok tt, <[bookingID := p]> db) ∧
    ticket_of_one_booking (<[bookingID := p]> db) ticketID bookingID
      (OpsBooking.with_LastUpdate now2
         (OpsBooking.with_Tickets (Some (<[ticketID := ticket2]> m)) rm))
      (<[ticketID := ticket2]> m) ticket2.
Proof.
  intros Hone Hf Hg Hok1 Hok2 Hexec.
  destruct (updateByTicketID_step now1 _ _ _ _ _ _ _ _ Hone Hf Hok1 Hexec)
    as (p1 & _ & -> & Hone1).
  cbn [fst snd].
  destruct (updateByTicketID_step now2 _ _ _ _ _ _ _ _ Hone1 Hg Hok2 Hexec)
    as (p2 & Hp2 & -> & Hone2).
  unfold OpsBooking.with_LastUpdate, OpsBooking.with_Tickets in Hp2, Hone2 |- *.
  simpl in Hp2, Hone2 |- *.
  rewrite (insert_insert_eq m) in Hp2, Hone2.
  rewrite (insert_insert_eq db) in Hone2 |- *.
  exists p2. split; [exact Hp2|]. split; [done|]. split; [done|].
  exact Hone2.
Qed.

(** *** Rows stored under their own id *)

(** The table stays one of rows stored under their own id. *)
Lemma insert_stored_under_own_id db rm p :
  stored_under_own_id db →
  json_Marshal rm = Some p →
  stored_under_own_id (<[OpsBooking.BookingID rm := p]> db).
Proof.
  intros Hdb Hrm bookingID p' rm' Hrow Hp.
  destruct (decide (OpsBooking.BookingID rm = bookingID)) as [<-|Hne].
  - rewrite lookup_insert_eq in Hrow. injection Hrow as <-.
    rewrite (json_Unmarshal_Marshal _ _ Hrm) in Hp. by injection Hp as <-.
  - rewrite lookup_insert_ne in Hrow by done. by eapply Hdb.
Qed.

Lemma OnBookingMade_stored_under_own_id now (e : BookingMade_v1.t) db :
  stored_under_own_id db → stored_under_own_id (OnBookingMade now e db).2.
Proof.
  intros Hdb. unfold OnBookingMade.
  match goal with |- context [createReadModel ?b db] =>
    destruct (createReadModel_table b db) as [Hsame|(_ & p & Hp & Hnew)];
    destruct (createReadModel b db) as [[[]|err|v] db'] end;
    simpl in *; subst db'; try done.
  all: match type of Hp with json_Marshal ?b = _ =>
         exact (insert_stored_under_own_id db b p Hdb Hp) end.
Qed.

Lemma updateReadModel_stored_under_own_id now rm db :
  stored_under_own_id db →
  stored_under_own_id
    (updateInTx LevelRepeatableRead (updateReadModel now rm) db).2.
Proof.
  intros Hdb.
  destruct (updateReadModel_table now rm db) as [->|(p & Hp & _ & ->)];
    [done|].
  exact (insert_stored_under_own_id db (OpsBooking.with_LastUpdate now rm) p
           Hdb Hp).
Qed.

(** What [updateByBookingID] and [updateByTicketID] leave: the table as it
    was, or what the write of a booking leaves. *)
Lemma updateByBookingID_table now (bookingID : string) updateFunc db :
  (updateByBookingID now bookingID updateFunc db).2 = db ∨
  ∃ rm updatedRm,
    findByBookingID bookingID db = Ok rm ∧ updateFunc rm = Ok updatedRm ∧
    updateByBookingID now bookingID updateFunc db =
      updateInTx LevelRepeatableRead (updateReadModel now updatedRm) db.
Proof.
  unfold updateByBookingID, updateInTx.
  destruct (findByBookingID bookingID db) as [rm|err|v]; simpl; [| |by left].
  - destruct (updateFunc rm) as [updatedRm|err|v] eqn:Hf; simpl;
      [|by left..].
    right. by exists rm, updatedRm.
  - left. by destruct (errors_Is err ErrNoRows).
Qed.

Lemma updateByTicketID_table now (ticketID : string) updateFunc db :
  (updateByTicketID now ticketID updateFunc db).2 = db ∨
  ∃ rm,
    updateByTicketID now ticketID updateFunc db =
      updateInTx LevelRepeatableRead (updateReadModel now rm) db.
Proof.
  unfold updateByTicketID, updateInTx.
  destruct (findByTicketID ticketID db) as [rm|err|v]; simpl; [| |by left].
  - destruct (updateFunc _) as [updatedRm|err|v]; simpl; [|by left..].
    destruct (map_set _ _ _) as [tickets|err|v]; simpl; [|by left..].
    right. by eexists.
  - left. by destruct (errors_Is err ErrNoRows).
Qed.

Lemma updateByBookingID_stored_under_own_id now (bookingID : string)
    updateFunc db :
  stored_under_own_id db →
  stored_under_own_id (updateByBookingID now bookingID updateFunc db).2.
Proof.
  intros Hdb.
  destruct (updateByBookingID_table now bookingID updateFunc db)
    as [->|(rm & updatedRm & _ & _ & ->)]; [done|].
  by apply updateReadModel_stored_under_own_id.
Qed.

Lemma updateByTicketID_stored_under_own_id now (ticketID : string)
    updateFunc db :
  stored_under_own_id db →
  stored_under_own_id (updateByTicketID now ticketID updateFunc db).2.
Proof.
  intros Hdb.
  destruct (updateByTicketID_table now ticketID updateFunc db)
    as [->|(rm & ->)]; [done|].
  by apply updateReadModel_stored_under_own_id.
Qed.

(** The write of [updateByTicketID] into the map of tickets never hits a
    nil map: the handler panics only when its update function does. *)
Lemma updateByTicketID_no_nil_write now (ticketID : string) updateFunc db v :
  (updateByTicketID now ticketID updateFunc db).1 = Panic v →
  ∃ ticket, updateFunc ticket = Panic v.
Proof.
  unfold updateByTicketID, updateInTx, findByTicketID.
  destruct (scan_first _) as [p|err|v'] eqn:Hscan; simpl.
  - destruct (unmarshalReadModelFromDB p) as [rm|err|v'] eqn:Hp; simpl.
    + destruct (updateFunc _) as [updatedRm|err|v'] eqn:Hf; simpl.
      * pose proof (unmarshalReadModelFromDB_Tickets _ _ Hp) as Hm.
        destruct (OpsBooking.Tickets rm); [|done]. simpl.
        unfold updateReadModel.
        destruct (json_Marshal _); [|done].
        by destruct ExecContext_error.
      * done.
      * intros [= ->]. eauto.
    + by destruct (errors_Is err ErrNoRows).
    + unfold unmarshalReadModelFromDB in Hp.
      destruct (json_Unmarshal p) as [b|]; [|done].
      by destruct (OpsBooking.Tickets b).
  - by destruct (errors_Is err ErrNoRows).
  - unfold scan_first in Hscan.
    by destruct (filter _ _).
Qed.

(** C3.  Ticket T is on the row of booking B (which decodes and is stored
    under its own id) and on no other row; the times of the two events are
    ones that [json.Marshal] encodes and the server executes the
    statements.  [OnTicketPrinted] and [OnTicketRefunded] for T return no
    error in either order, and in both orders the booking read back
    afterwards holds T with [PrintedAt] and [PrintedFileName] of the one
    event and [RefundedAt] of the other, every other field and every other
    ticket as before. *)
Theorem printed_and_refunded_coexist (now1 now2 now3 now4 : Time)
    (pe : TicketPrinted_v1.t) (re : TicketRefunded_v1.t)
    (ticketID bookingID : string) db p rm m ticket :
  TicketPrinted_v1.TicketID pe = ticketID →
  TicketRefunded_v1.TicketID re = ticketID →
  db !! bookingID = Some p →
  json_Unmarshal p = Some rm →
  OpsBooking.BookingID rm = bookingID →
  OpsBooking.Tickets rm = Some m →
  m !! ticketID = Some ticket →
  (∀ bookingID' p', db !! bookingID' = Some p' → bookingID' ≠ bookingID →
     jsonb_tickets_has_key p' ticketID = false) →
  Time_MarshalJSON_ok (MessageHeader.PublishedAt (TicketPrinted_v1.Header pe))
    = true →
  Time_MarshalJSON_ok (MessageHeader.PublishedAt (TicketRefunded_v1.Header re))
    = true →
  ExecContext_error = None →
  let printed := OnTicketPrinted now1 pe db in
  let printed_refunded := OnTicketRefunded now2 re printed.2 in
  let refunded := OnTicketRefunded now3 re db in
  let refunded_printed := OnTicketPrinted now4 pe refunded.2 in
  let both :=
    {| OpsTicket.PriceAmount := OpsTicket.PriceAmount ticket;
       OpsTicket.PriceCurrency := OpsTicket.PriceCurrency ticket;
       OpsTicket.CustomerEmail := OpsTicket.CustomerEmail ticket;
       OpsTicket.ConfirmedAt := OpsTicket.ConfirmedAt ticket;
       OpsTicket.RefundedAt :=
         MessageHeader.PublishedAt (TicketRefunded_v1.Header re);
       OpsTicket.PrintedAt :=
         MessageHeader.PublishedAt (TicketPrinted_v1.Header pe);
       OpsTicket.PrintedFileName := TicketPrinted_v1.FileName pe;
       OpsTicket.ReceiptIssuedAt := OpsTicket.ReceiptIssuedAt ticket;
       OpsTicket.ReceiptNumber := OpsTicket.ReceiptNumber ticket |} in
  printed.1 = Ok tt ∧ printed_refunded.1 = Ok tt ∧
  refunded.1 = Ok tt ∧ refunded_printed.1 = Ok tt ∧
  FindByID bookingID printed_refunded.2 =
    Ok {| OpsBooking.BookingID := bookingID;
          OpsBooking.BookedAt := OpsBooking.BookedAt rm;
          OpsBooking.Tickets := Some (<[ticketID := both]> m);
          OpsBooking.LastUpdate := now2 |} ∧
  FindByID bookingID refunded_printed.2 =
    Ok {| OpsBooking.BookingID := bookingID;
          OpsBooking.BookedAt := OpsBooking.BookedAt rm;
          OpsBooking.Tickets := Some (<[ticketID := both]> m);
          OpsBooking.LastUpdate := now4 |}.
Proof.
  intros Hpe Hre Hrow Hp Hid Hm Hticket Huniq Hpok Hrok Hexec.
  intros printed printed_refunded refunded refunded_printed both.
  assert (ticket_of_one_booking db ticketID bookingID rm m ticket) as Hone.
  { split; [by exists p|]. by split. }
  destruct (ticket_of_one_booking_times_ok _ _ _ _ _ _ Hone) as [_ Hok].
  apply OpsTicket_times_ok_iff in Hok as (Hc & Hr & Hpr & Hi).
  unfold printed_refunded, refunded_printed, printed, refunded.
  unfold OnTicketPrinted, OnTicketRefunded. rewrite Hpe, Hre.
  match goal with
  | |- context [updateByTicketID now2 ticketID ?g
                  (updateByTicketID now1 ticketID ?f db).2] =>
      destruct (updateByTicketID_twice now1 now2 ticketID bookingID f g
                  db rm m ticket _ _ Hone eq_refl eq_refl)
        as (p2 & _ & Hfirst & Hsecond & Hone2);
        [by apply OpsTicket_times_ok_iff|by apply OpsTicket_times_ok_iff
        |exact Hexec|]
  end.
  match goal with
  | |- context [updateByTicketID now4 ticketID ?g
                  (updateByTicketID now3 ticketID ?f db).2] =>
      destruct (updateByTicketID_twice now3 now4 ticketID bookingID f g
                  db rm m ticket _ _ Hone eq_refl eq_refl)
        as (p4 & _ & Hfirst' & Hsecond' & Hone4);
        [by apply OpsTicket_times_ok_iff|by apply OpsTicket_times_ok_iff
        |exact Hexec|]
  end.
  rewrite Hsecond, Hsecond'. cbn [fst snd].
  split; [exact Hfirst|]. split; [done|].
  split; [exact Hfirst'|]. split; [done|].
  rewrite (FindByID_ticket_of_one_booking _ _ _ _ _ _ Hone2).
  rewrite (FindByID_ticket_of_one_booking _ _ _ _ _ _ Hone4).
  unfold OpsBooking.with_LastUpdate, OpsBooking.with_Tickets. simpl.
  by rewrite Hid.
Qed.

End projector_facts.

(** ** The pipeline *)

Section pipeline_facts.
Import Pipeline.
Context {U : Type}.
Implicit Types (h : HandlerFunc U) (w : World U) (msg : Message.t) (e : error).

Lemma processed_total_emit eff w :
  processed_total (effects (emit eff w)) =
    processed_total (effects w) + (if is_processed eff then 1 else 0).
Proof.
  unfold processed_total, emit; simpl.
  rewrite List.filter_app, length_app; simpl.
  by destruct (is_processed eff).
Qed.

Lemma sleeps_emit eff w :
  sleeps (effects (emit eff w)) =
    sleeps (effects w) ++ match eff with Sleep d => [d] | _ => [] end.
Proof.
  unfold sleeps, emit; simpl. rewrite omap_app. simpl.
  by destruct eff.
Qed.

Lemma lift_handler_fails (f : Message.t → U → outcome * U) msg e :
  always_fails f msg e → fails_counting (lift_handler f) msg e 0.
Proof.
  intros Hf w. destruct (Hf (user w)) as [msgs Hmsgs].
  unfold lift_handler. destruct (f msg (user w)) as [out s]; simpl in *.
  subst out. eexists _, _. split; [done|]. simpl. split; [lia|done].
Qed.

Lemma metricsMiddleware_fails h msg e calls :
  fails_counting h msg e calls → fails_counting (metricsMiddleware h) msg e (S calls).
Proof.
  intros Hh w. destruct (Hh w) as (msgs & w' & Hcall & Hn & Hs).
  unfold metricsMiddleware. rewrite Hcall.
  eexists _, _. split; [done|].
  rewrite !processed_total_emit, !sleeps_emit; simpl.
  rewrite !app_nil_r. split; [lia|done].
Qed.

Lemma logMiddleware_fails h msg e calls :
  fails_counting h msg e calls → fails_counting (logMiddleware h) msg e calls.
Proof.
  intros Hh w. unfold logMiddleware.
  match goal with |- context [h msg ?w0] =>
    destruct (Hh w0) as (msgs & w' & Hcall & Hn & Hs) end.
  rewrite Hcall. eexists _, _. split; [done|].
  rewrite processed_total_emit, sleeps_emit in *; simpl in *.
  rewrite app_nil_r in *. split; [lia|done].
Qed.

Lemma correlationIdMiddleware_fails h msg e calls :
  fails_counting h msg e calls → fails_counting (correlationIdMiddleware h) msg e calls.
Proof.
  intros Hh w. unfold correlationIdMiddleware.
  destruct (bool_decide (Message.Metadata_Get msg "correlation_id" = ""));
    match goal with |- context [h msg ?w0] =>
      destruct (Hh w0) as (msgs & w' & Hcall & Hn & Hs) end;
    rewrite Hcall; by eexists _, _.
Qed.

Lemma tracingMiddleware_fails h msg e calls :
  fails_counting h msg e calls → fails_counting (tracingMiddleware h) msg e calls.
Proof.
  intros Hh w. unfold tracingMiddleware.
  match goal with |- context [h msg ?w0] =>
    destruct (Hh w0) as (msgs & w' & Hcall & Hn & Hs) end.
  rewrite Hcall. eexists _, _. split; [done|].
  change (effects (SetContext ?c ?w0)) with (effects w0) in Hn, Hs.
  rewrite !processed_total_emit, !sleeps_emit; simpl.
  rewrite processed_total_emit in Hn. rewrite sleeps_emit in Hs.
  simpl in Hn, Hs. rewrite !app_nil_r in *. split; [lia|done].
Qed.

(** The loop of [Retry] on a handler that always fails: it calls the
    handler once more than [remaining] says and returns the error. *)
Lemma retryLoop_fails (r : Retry.t) h msg e calls :
  fails_counting h msg e calls →
  ∀ (remaining retryNum : nat) (waitTime : Z) w,
  ∃ w',
    retryLoop r h msg remaining retryNum waitTime w = (Return [] (Some e), w') ∧
    processed_total (effects w') =
      processed_total (effects w) + calls * S remaining ∧
    sleeps (effects w') = sleeps (effects w) ++ waits r remaining waitTime.
Proof.
  intros Hh remaining.
  induction remaining as [|remaining IH]; intros retryNum waitTime w;
    cbn [retryLoop waits];
    match goal with |- context [h msg ?w0] =>
      destruct (Hh w0) as (msgs & w1 & Hcall & Hn & Hs) end;
    rewrite Hcall;
    rewrite processed_total_emit in Hn; rewrite sleeps_emit in Hs;
    cbn [is_processed] in Hn.
  - eexists. split; [done|].
    rewrite processed_total_emit, sleeps_emit; cbn [is_processed].
    rewrite app_nil_r, Hs. split; [lia|done].
  - match goal with |- context [retryLoop r h msg remaining ?n ?d ?w0] =>
      destruct (IH n d w0) as (w2 & Hloop & Hn2 & Hs2) end.
    rewrite Hloop. eexists. split; [done|].
    rewrite processed_total_emit in Hn2. rewrite sleeps_emit in Hs2.
    cbn [is_processed] in Hn2. rewrite app_nil_r, Hs in Hs2.
    rewrite Hs2, <- app_assoc. split; [lia|done].
Qed.

(** [Retry] with any configuration, on a handler that always fails: the
    handler is called once, and then once per retry, [MaxRetries] times (once
    when [MaxRetries] is 0, the loop testing the bound after the call);
    the error of the last call is returned. *)
Lemma Retry_Middleware_fails (r : Retry.t) h msg e calls :
  fails_counting h msg e calls →
  ∀ w, ∃ w',
    Retry_Middleware r h msg w = (Return [] (Some e), w') ∧
    processed_total (effects w') =
      processed_total (effects w) + calls * (1 + Nat.max 1 (Retry.MaxRetries r)) ∧
    sleeps (effects w') =
      sleeps (effects w) ++
      waits r (Retry.MaxRetries r - 1) (Retry.InitialInterval r).
Proof.
  intros Hh w. unfold Retry_Middleware.
  destruct (Hh w) as (msgs & w1 & Hcall & Hn & Hs). rewrite Hcall.
  destruct (retryLoop_fails r h msg e calls Hh (Retry.MaxRetries r - 1) 1
              (Retry.InitialInterval r) w1) as (w2 & Hloop & Hn2 & Hs2).
  rewrite Hloop. eexists. split; [done|].
  rewrite Hs in Hs2. split; [nia|done].
Qed.

Lemma Recoverer_fails h msg e calls :
  fails_counting h msg e calls → fails_counting (Recoverer h) msg e calls.
Proof.
  intros Hh w. destruct (Hh w) as (msgs & w' & Hcall & Hn & Hs).
  unfold Recoverer. rewrite Hcall. by eexists _, _.
Qed.

(** The chain of [useMiddlewares] around a handler that always fails with
    [e]: four calls of the handler, three waits, and [e] is what reaches
    the router. *)
Lemma useMiddlewares_fails (f : Message.t → U → outcome * U) e msg w :
  always_fails f msg e →
  ∃ w',
    wrap (middlewares (useMiddlewares NewDefaultRouter)) (lift_handler f) msg w
      = (Return [] (Some e), w') ∧
    processed_total (effects w') = processed_total (effects w) + (1 + 3) ∧
    sleeps (effects w') =
      sleeps (effects w) ++ [400 * Millisecond; 800 * Millisecond; Second]%Z.
Proof.
  intros Hf. cbn [useMiddlewares NewDefaultRouter AddMiddleware middlewares
                  app wrap foldr].
  pose proof (tracingMiddleware_fails _ _ _ _
               (correlationIdMiddleware_fails _ _ _ _
                 (logMiddleware_fails _ _ _ _
                   (metricsMiddleware_fails _ _ _ _
                     (lift_handler_fails _ _ _ Hf))))) as Hinner.
  match goal with |- context [Retry_Middleware ?r ?h] =>
    destruct (Retry_Middleware_fails r h msg e 1 Hinner w)
      as (w' & Hretry & Hn & Hs) end.
  unfold Recoverer at 1. rewrite Hretry.
  eexists. split; [done|]. split; [exact Hn | exact Hs].
Qed.

(** *** What a delivery that fails leaves *)

Lemma failed_total_app (effs effs' : list effect) :
  failed_total (effs ++ effs') = failed_total effs + failed_total effs'.
Proof. unfold failed_total. by rewrite List.filter_app, length_app. Qed.










(** C5, as the code has it.  A handler that fails on a message with an
    error [e] whenever it is called is called once and retried three times
    ([MaxRetries]), after waits of 400 ms, 800 ms and 1 s, and then the
    router answers [Nack]. *)
Theorem generic_error_is_retried_then_nacked
    (f : Message.t → U → outcome * U) msg e w :
  always_fails f msg e →
  ∃ w',
    handleMessage (useMiddlewares NewDefaultRouter) (lift_handler f) msg w
      = (Nack, w') ∧
    processed_total (effects w') = processed_total (effects w) + (1 + 3) ∧
    sleeps (effects w') =
      sleeps (effects w) ++ [400 * Millisecond; 800 * Millisecond; Second]%Z.
Proof.
  intros Hf.
  destruct (useMiddlewares_fails f e msg w Hf) as (w' & Hwrap & Hn & Hs).
  exists w'. split; [|done].
  unfold handleMessage. by rewrite Hwrap.
Qed.

End pipeline_facts.

(** ** The events splitter *)

Section splitter_facts.
Import Pipeline Splitter.
Context {U : Type} `{!Publisher U, !CommandEventMarshaler}.



(** C7.  On a message whose metadata yields the event name E, the splitter
    does one thing: it hands the message itself (same UUID, metadata and
    payload) to the publisher for topic "events.E", and returns what the
    publisher returns.  The name is read from the metadata alone, so this
    holds for the same message with any other payload. *)
Theorem events_splitter_republishes (msg : Message.t) (eventName : string) (s : U) :
  NameFromMessage msg = eventName →
  eventName ≠ "" →
  events_splitter msg s = Publish ("events." +:+ eventName) msg s ∧
  ∀ payload' : string,
    let msg' :=
      {| Message.UUID := Message.UUID msg;
         Message.Metadata := Message.Metadata msg;
         Message.Payload := payload' |} in
    events_splitter msg' s = Publish ("events." +:+ eventName) msg' s.
Proof.
  intros Hname Hne. split.
  - unfold events_splitter. rewrite Hname.
    by rewrite bool_decide_eq_false_2.
  - intros payload' msg'. unfold events_splitter.
    change (NameFromMessage msg') with (NameFromMessage msg).
    rewrite Hname. by rewrite bool_decide_eq_false_2.
Qed.

End splitter_facts.

(** ** [Service.Run] *)

Section service_run_facts.
Import ServiceRun.

(** While the channel of [Running()] is open the HTTP goroutine stays at
    its receive. *)
Lemma step_keeps_http_waiting (s s' : state) (ev : event) :
  http s = HttpWaitsRunning → running_closed s = false →
  step s ev = Some s' →
  ev ≠ HttpStart ∧
  (ev = RouterSignalsRunning ∨
   (http s' = HttpWaitsRunning ∧ running_closed s' = false)).
Proof.
  intros Hhttp Hclosed Hstep.
  destruct ev; simpl in Hstep; rewrite ?Hhttp, ?Hclosed in Hstep;
    try discriminate; (split; [discriminate|]);
    repeat match type of Hstep with
           | match ?x with _ => _ end = Some _ => destruct x eqn:?
           | (if ?x then _ else _) = Some _ => destruct x eqn:?
           end;
    try discriminate; try (injection Hstep as <-; simpl; by auto).
Qed.

Lemma run_http_start_after_signal (tr : list event) : ∀ s s' : state,
  http s = HttpWaitsRunning → running_closed s = false →
  run s tr = Some s' →
  ∀ i, tr !! i = Some HttpStart →
  ∃ j, j < i ∧ tr !! j = Some RouterSignalsRunning.
Proof.
  induction tr as [|ev tr IH]; intros s s' Hhttp Hclosed Hrun i Hi; [done|].
  simpl in Hrun. destruct (step s ev) as [s1|] eqn:Hstep; [|done].
  destruct (step_keeps_http_waiting s s1 ev Hhttp Hclosed Hstep)
    as [Hne [->|[Hhttp1 Hclosed1]]].
  - destruct i as [|i]; [by simplify_eq/=|].
    exists 0. split; [lia|done].
  - destruct i as [|i]; [by simplify_eq/=|]. simpl in Hi.
    destruct (IH s1 s' Hhttp1 Hclosed1 Hrun i Hi) as (j & Hj & Hsig).
    exists (S j). split; [lia|done].
Qed.

(** C8.  The goroutine that starts the echo server cannot pass its receive
    on [Running()] while that channel is open, and in every schedule of
    [Service.Run] each start of the echo server comes after the router has
    closed that channel. *)
Theorem http_starts_after_router_running :
  (∀ s : state, running_closed s = false → step s HttpReceivesRunning = None) ∧
  (∀ s : state, http s = HttpWaitsRunning → step s HttpStart = None) ∧
  (∀ (tr : list event) (s : state),
     run init tr = Some s →
     ∀ i, tr !! i = Some HttpStart →
     ∃ j, j < i ∧ tr !! j = Some RouterSignalsRunning).
Proof.
  split; [|split].
  - intros s Hclosed. simpl. rewrite Hclosed. by destruct (http s).
  - intros s Hhttp. simpl. by rewrite Hhttp.
  - intros tr s Hrun.
    exact (run_http_start_after_signal tr init s eq_refl eq_refl Hrun).
Qed.

End service_run_facts.

(** ** The theorems at concrete inputs *)

Section concrete_runs.
Import Entities Projector Pipeline Splitter ServiceRun Examples.

(** The rows of the examples decode, and the server of the plain codec
    executes the statements. *)
Lemma booking_B1_decodes : json_Unmarshal booking_B1 = Some booking_B1.
Proof. vm_compute. reflexivity. Defined.

Lemma booking_B1_nil_decodes :
  json_Unmarshal booking_B1_nil = Some booking_B1_nil.
Proof. vm_compute. reflexivity. Defined.

(** The confirmation of T1 before and after the creation of B1. *)
Lemma out_of_order_convergence_witness :
  OnTicketBookingConfirmed 1%Z ticket_confirmed db_empty =
    (Err (ErrMsg "read model for booking B1 not exist yet"), db_empty) ∧
  (OnTicketBookingConfirmed 4%Z ticket_confirmed
     (OnBookingMade 3%Z booking_made
        (OnTicketBookingConfirmed 1%Z ticket_confirmed db_empty).2).2).2 =
  (OnTicketBookingConfirmed 4%Z ticket_confirmed
     (OnBookingMade 2%Z booking_made db_empty).2).2.
Proof.
  edestruct (out_of_order_convergence 1%Z 2%Z 3%Z 4%Z booking_made
               ticket_confirmed db_empty)
    as (Hearly & _ & _ & _ & _ & Hsame & _).
  1-5: reflexivity.
  split; [exact Hearly | exact Hsame].
Defined.

Lemma OnBookingMade_redelivery_noop_witness :
  OnBookingMade 5%Z booking_made db_B1 = (Ok tt, db_B1).
Proof.
  edestruct (OnBookingMade_redelivery_noop 5%Z booking_made db_B1)
    as [Hnoop _].
  1-2: reflexivity.
  apply Hnoop. exists booking_B1. reflexivity.
Defined.

Lemma printed_and_refunded_coexist_witness :
  (OnTicketRefunded 2%Z ticket_refunded
     (OnTicketPrinted 1%Z ticket_printed db_B1).2).1 = Ok tt ∧
  (OnTicketPrinted 4%Z ticket_printed
     (OnTicketRefunded 3%Z ticket_refunded db_B1).2).1 = Ok tt.
Proof.
  edestruct (printed_and_refunded_coexist 1%Z 2%Z 3%Z 4%Z ticket_printed
               ticket_refunded "T1" "B1" db_B1 booking_B1 booking_B1
               {["T1" := ticket_T1]} ticket_T1)
    as (_ & Hpr & _ & Hrp & _).
  1-3: reflexivity.
  - exact booking_B1_decodes.
  - reflexivity.
  - reflexivity.
  - reflexivity.
  - intros bookingID' p' Hrow Hne. unfold db_B1 in Hrow.
    rewrite lookup_singleton_ne in Hrow by done. discriminate.
  - reflexivity.
  - reflexivity.
  - reflexivity.
  - split; [exact Hpr | exact Hrp].
Defined.

Lemma Tickets_never_nil_witness :
  unmarshalReadModelFromDB booking_B1_nil =
    Ok (OpsBooking.with_Tickets (Some ∅) booking_B1_nil).
Proof.
  apply (proj1 (proj2 Tickets_never_nil) booking_B1_nil booking_B1_nil).
  - exact booking_B1_nil_decodes.
  - reflexivity.
Defined.

Lemma OnTicketBookingConfirmed_creates_ticket_witness :
  ∃ db',
    OnTicketBookingConfirmed 5%Z ticket_confirmed db_B1_nil = (Ok tt, db') ∧
    FindByID "B1" db' =
      Ok {| OpsBooking.BookingID := "B1"; OpsBooking.BookedAt := 100%Z;
            OpsBooking.Tickets := Some (<["T1" := ticket_T1]> ∅);
            OpsBooking.LastUpdate := 5%Z |}.
Proof.
  apply (OnTicketBookingConfirmed_creates_ticket 5%Z ticket_confirmed
           db_B1_nil booking_B1_nil booking_B1_nil).
  - reflexivity.
  - exact booking_B1_nil_decodes.
  - reflexivity.
  - reflexivity.
  - reflexivity.
  - reflexivity.
Defined.


Lemma generic_failure_always_fails (msg : Message.t) :
  always_fails generic_failure msg (ErrMsg "connection refused").
Proof. intros s. by eexists. Defined.


Lemma generic_error_is_retried_then_nacked_witness :
  ∃ w',
    handleMessage (useMiddlewares NewDefaultRouter)
      (lift_handler generic_failure) msg_printed
      (world "events.TicketPrinted_v1" "PrintTicket" tt) = (Nack, w') ∧
    processed_total (effects w') = 0 + (1 + 3) ∧
    sleeps (effects w') =
      [] ++ [400 * Millisecond; 800 * Millisecond; Second]%Z.
Proof.
  apply (generic_error_is_retried_then_nacked generic_failure msg_printed
           (ErrMsg "connection refused")
           (world "events.TicketPrinted_v1" "PrintTicket" tt)).
  apply generic_failure_always_fails.
Defined.


Lemma events_splitter_republishes_witness :
  events_splitter msg_printed [] =
    (Ok tt, [("events.TicketPrinted_v1", msg_printed)]).
Proof.
  refine (proj1 (events_splitter_republishes msg_printed "TicketPrinted_v1"
                   [] _ _)).
  - reflexivity.
  - discriminate.
Defined.

Lemma http_starts_after_router_running_witness :
  ∃ j, j < 3 ∧
    [RouterRun; RouterSignalsRunning; HttpReceivesRunning; HttpStart] !! j =
      Some RouterSignalsRunning.
Proof.
  eapply (proj2 (proj2 http_starts_after_router_running)
            [RouterRun; RouterSignalsRunning; HttpReceivesRunning; HttpStart]);
    reflexivity.
Defined.


(** C5 at a concrete input: a handler that always fails with a generic
    error; after the retries the message is not acknowledged. *)
Lemma generic_error_not_acked :
  (handleMessage (useMiddlewares NewDefaultRouter)
     (lift_handler generic_failure) msg_printed
     (world "events.TicketPrinted_v1" "PrintTicket" tt)).1 ≠ Ack ∧
  processed_total
    (effects
       (handleMessage (useMiddlewares NewDefaultRouter)
          (lift_handler generic_failure) msg_printed
          (world "events.TicketPrinted_v1" "PrintTicket" tt)).2) = 4.
Proof. split; [vm_compute; discriminate | vm_compute; reflexivity]. Qed.


(** An event whose time is in year 10000: [json.Marshal] refuses the
    booking before the INSERT, whether the row exists or not, and the
    table is as before. *)
Example OnBookingMade_year_10000 :
  OnBookingMade 5%Z booking_made_year_10000 db_B1 =
    (Err (ErrWrap "could not create read model" ErrMarshal), db_B1) ∧
  OnBookingMade 5%Z booking_made_year_10000 db_empty =
    (Err (ErrWrap "could not create read model" ErrMarshal), db_empty).
Proof. split; vm_compute; reflexivity. Qed.

(** A server that refuses the statements: both writes fail with its
    error, wrapped, and the table is as before. *)
Example writes_refused_by_the_server :
  @OnBookingMade _ refusing_externals 5%Z booking_made db_empty =
    (Err (ErrWrap "could not create read model"
            (ErrWrap "could not create read model"
               (ErrMsg "connection refused"))), db_empty) ∧
  @OnTicketPrinted _ refusing_externals 5%Z ticket_printed db_B1 =
    (Err (ErrWrap "could not update read model"
            (ErrMsg "connection refused")), db_B1).
Proof. split; vm_compute; reflexivity. Qed.

(** The echo server cannot start before the router runs. *)
Example http_start_before_signal_blocked :
  run init [RouterRun; HttpReceivesRunning; HttpStart] = None.
Proof. reflexivity. Qed.

End concrete_runs.

(** ** The read model: errors, replays and what is left untouched *)

Section projector_more_facts.
Import Entities Projector.
Context {payload : Type} `{!Externals payload}.
Implicit Types (db : table payload) (p : payload) (rm : OpsBooking.t).

Lemma findByTicketID_no_row (ticketID : string) db :
  (∀ bookingID p, db !! bookingID = Some p →
     jsonb_tickets_has_key p ticketID = false) →
  findByTicketID ticketID db = Err ErrNoRows.
Proof.
  intros Hnone. unfold findByTicketID.
  destruct (filter _ _) as [|[bookingID p] rows] eqn:Hrows; [done|].
  assert ((bookingID, p) ∈
            filter (λ row : string * payload,
                      jsonb_tickets_has_key row.2 ticketID = true)
                   (row_order (map_to_list db))) as Hin.
  { rewrite Hrows. apply list_elem_of_here. }
  apply list_elem_of_filter in Hin as [Hhas Hin]. simpl in Hhas.
  rewrite row_order_perm in Hin. apply elem_of_map_to_list in Hin.
  rewrite (Hnone _ _ Hin) in Hhas. done.
Qed.

Lemma updateByTicketID_no_row now (ticketID : string) updateFunc db :
  (∀ bookingID p, db !! bookingID = Some p →
     jsonb_tickets_has_key p ticketID = false) →
  updateByTicketID now ticketID updateFunc db =
    (Err (ErrMsg ("read model for ticket " +:+ ticketID +:+ " not exist yet")), db).
Proof.
  intros Hnone. unfold updateByTicketID, updateInTx.
  by rewrite findByTicketID_no_row.
Qed.

(** X1.  While no row holds ticket T, the three handlers of ticket events
    fail with "read model for ticket T not exist yet" and leave the table
    as it is. *)
Theorem ticket_events_before_ticket_exists now
    (pe : TicketPrinted_v1.t) (re : TicketRefunded_v1.t)
    (ie : TicketReceiptIssued_v1.t) (ticketID : string) db :
  TicketPrinted_v1.TicketID pe = ticketID →
  TicketRefunded_v1.TicketID re = ticketID →
  TicketReceiptIssued_v1.TicketID ie = ticketID →
  (∀ bookingID p, db !! bookingID = Some p →
     jsonb_tickets_has_key p ticketID = false) →
  let not_yet :=
    Err (ErrMsg ("read model for ticket " +:+ ticketID +:+ " not exist yet")) in
  OnTicketPrinted now pe db = (not_yet, db) ∧
  OnTicketRefunded now re db = (not_yet, db) ∧
  OnTicketReceiptIssued now ie db = (not_yet, db).
Proof.
  intros <- Hre Hie Hnone not_yet.
  unfold OnTicketPrinted, OnTicketRefunded, OnTicketReceiptIssued.
  rewrite Hre, Hie. by rewrite !updateByTicketID_no_row.
Qed.

(** The same update of the ticket delivered twice, for an update that
    changes nothing when applied to its own result.  When the first
    delivery is refused, by [json.Marshal] or by the server, the table is
    as before; when it is written, the second delivery finds the ticket
    updated and writes the same booking under the later time. *)
Lemma updateByTicketID_redelivery now1 now2 (ticketID bookingID : string) f
    db rm m ticket ticket1 :
  ticket_of_one_booking db ticketID bookingID rm m ticket →
  f ticket = Ok ticket1 →
  f ticket1 = Ok ticket1 →
  updateByTicketID now2 ticketID f (updateByTicketID now1 ticketID f db).2 =
    updateByTicketID now2 ticketID f db.
Proof.
  intros Hone Hf Hf1. pose proof Hone as ((p0 & Hrow & Hp0 & Hid) & Hm & _).
  rewrite (updateByTicketID_one now1 _ _ _ _ _ _ _ _ Hone Hf).
  match goal with |- context [updateReadModel now1 ?rm1] =>
    destruct (updateReadModel_table now1 rm1 db)
      as [->|(p1 & Hp1 & Hexec & ->)] end; [done|].
  cbn [snd]. simpl in Hp1 |- *. rewrite Hid.
  pose proof (ticket_of_one_booking_insert now1 _ _ _ _ _ _ ticket1 p1 Hone
                (json_Unmarshal_Marshal _ _ Hp1)) as Hone1.
  rewrite (updateByTicketID_one now2 _ _ _ _ _ _ _ _ Hone1 Hf1).
  rewrite (updateByTicketID_one now2 _ _ _ _ _ _ _ _ Hone Hf).
  rewrite !updateReadModel_tx.
  destruct (json_Marshal_with_LastUpdate now1 now2 _ _ Hp1) as [p2 Hp2].
  unfold OpsBooking.with_LastUpdate, OpsBooking.with_Tickets in Hp2 |- *.
  simpl in Hp2 |- *. rewrite (insert_insert_eq m).
  by rewrite Hp2, Hexec, Hid, insert_insert_eq.
Qed.

(** X2.  Delivering the same ticket event twice leaves what delivering it
    once, at the time of the second delivery, leaves: the three handlers of
    ticket events are idempotent up to [LastUpdate]. *)
Theorem ticket_events_redelivery now1 now2
    (pe : TicketPrinted_v1.t) (re : TicketRefunded_v1.t)
    (ie : TicketReceiptIssued_v1.t) (ticketID bookingID : string)
    db rm m ticket :
  TicketPrinted_v1.TicketID pe = ticketID →
  TicketRefunded_v1.TicketID re = ticketID →
  TicketReceiptIssued_v1.TicketID ie = ticketID →
  ticket_of_one_booking db ticketID bookingID rm m ticket →
  OnTicketPrinted now2 pe (OnTicketPrinted now1 pe db).2 =
    OnTicketPrinted now2 pe db ∧
  OnTicketRefunded now2 re (OnTicketRefunded now1 re db).2 =
    OnTicketRefunded now2 re db ∧
  OnTicketReceiptIssued now2 ie (OnTicketReceiptIssued now1 ie db).2 =
    OnTicketReceiptIssued now2 ie db.
Proof.
  intros <- Hre Hie Hone.
  unfold OnTicketPrinted, OnTicketRefunded, OnTicketReceiptIssued.
  rewrite Hre, Hie.
  repeat split.
  all: match goal with
       | |- updateByTicketID _ _ ?f _ = _ =>
           exact (updateByTicketID_redelivery now1 now2 _ _ f _ _ _ _ _
                    Hone eq_refl eq_refl)
       end.
Qed.

(** The three updates of a ticket keep its times encoded when the time
    they write is. *)
Lemma OnTicketPrinted_step now (e : TicketPrinted_v1.t)
    (ticketID bookingID : string) db rm m ticket :
  TicketPrinted_v1.TicketID e = ticketID →
  ticket_of_one_booking db ticketID bookingID rm m ticket →
  Time_MarshalJSON_ok (MessageHeader.PublishedAt (TicketPrinted_v1.Header e))
    = true →
  ExecContext_error = None →
  let updated :=
      {| OpsTicket.PriceAmount := OpsTicket.PriceAmount ticket;
         OpsTicket.PriceCurrency := OpsTicket.PriceCurrency ticket;
         OpsTicket.CustomerEmail := OpsTicket.CustomerEmail ticket;
         OpsTicket.ConfirmedAt := OpsTicket.ConfirmedAt ticket;
         OpsTicket.RefundedAt := OpsTicket.RefundedAt ticket;
         OpsTicket.PrintedAt := MessageHeader.PublishedAt (TicketPrinted_v1.Header e);
         OpsTicket.PrintedFileName := TicketPrinted_v1.FileName e;
         OpsTicket.ReceiptIssuedAt := OpsTicket.ReceiptIssuedAt ticket;
         OpsTicket.ReceiptNumber := OpsTicket.ReceiptNumber ticket |} in
  ∃ p,
    OnTicketPrinted now e db = (Ok tt, <[bookingID := p]> db) ∧
    ticket_of_one_booking (<[bookingID := p]> db) ticketID bookingID
      (OpsBooking.with_LastUpdate now
         (OpsBooking.with_Tickets (Some (<[ticketID := updated]> m)) rm))
      (<[ticketID := updated]> m) updated.
Proof.
  intros <- Hone He Hexec updated. unfold OnTicketPrinted.
  destruct (ticket_of_one_booking_times_ok _ _ _ _ _ _ Hone) as [_ Hok].
  apply OpsTicket_times_ok_iff in Hok as (? & ? & ? & ?).
  match goal with |- context [updateByTicketID now _ ?f db] =>
    destruct (updateByTicketID_step now _ _ f _ _ _ _ updated Hone eq_refl)
      as (p & _ & Hcall & Hone') end;
    [by apply OpsTicket_times_ok_iff|done|].
  by exists p.
Qed.

Lemma OnTicketReceiptIssued_step now (e : TicketReceiptIssued_v1.t)
    (ticketID bookingID : string) db rm m ticket :
  TicketReceiptIssued_v1.TicketID e = ticketID →
  ticket_of_one_booking db ticketID bookingID rm m ticket →
  Time_MarshalJSON_ok (TicketReceiptIssued_v1.IssuedAt e) = true →
  ExecContext_error = None →
  let updated :=
      {| OpsTicket.PriceAmount := OpsTicket.PriceAmount ticket;
         OpsTicket.PriceCurrency := OpsTicket.PriceCurrency ticket;
         OpsTicket.CustomerEmail := OpsTicket.CustomerEmail ticket;
         OpsTicket.ConfirmedAt := OpsTicket.ConfirmedAt ticket;
         OpsTicket.RefundedAt := OpsTicket.RefundedAt ticket;
         OpsTicket.PrintedAt := OpsTicket.PrintedAt ticket;
         OpsTicket.PrintedFileName := OpsTicket.PrintedFileName ticket;
         OpsTicket.ReceiptIssuedAt := TicketReceiptIssued_v1.IssuedAt e;
         OpsTicket.ReceiptNumber := TicketReceiptIssued_v1.ReceiptNumber e |} in
  ∃ p,
    OnTicketReceiptIssued now e db = (Ok tt, <[bookingID := p]> db) ∧
    ticket_of_one_booking (<[bookingID := p]> db) ticketID bookingID
      (OpsBooking.with_LastUpdate now
         (OpsBooking.with_Tickets (Some (<[ticketID := updated]> m)) rm))
      (<[ticketID := updated]> m) updated.
Proof.
  intros <- Hone He Hexec updated. unfold OnTicketReceiptIssued.
  destruct (ticket_of_one_booking_times_ok _ _ _ _ _ _ Hone) as [_ Hok].
  apply OpsTicket_times_ok_iff in Hok as (? & ? & ? & ?).
  match goal with |- context [updateByTicketID now _ ?f db] =>
    destruct (updateByTicketID_step now _ _ f _ _ _ _ updated Hone eq_refl)
      as (p & _ & Hcall & Hone') end;
    [by apply OpsTicket_times_ok_iff|done|].
  by exists p.
Qed.

Lemma OnTicketRefunded_step now (e : TicketRefunded_v1.t)
    (ticketID bookingID : string) db rm m ticket :
  TicketRefunded_v1.TicketID e = ticketID →
  ticket_of_one_booking db ticketID bookingID rm m ticket →
  Time_MarshalJSON_ok (MessageHeader.PublishedAt (TicketRefunded_v1.Header e))
    = true →
  ExecContext_error = None →
  let updated :=
      {| OpsTicket.PriceAmount := OpsTicket.PriceAmount ticket;
         OpsTicket.PriceCurrency := OpsTicket.PriceCurrency ticket;
         OpsTicket.CustomerEmail := OpsTicket.CustomerEmail ticket;
         OpsTicket.ConfirmedAt := OpsTicket.ConfirmedAt ticket;
         OpsTicket.RefundedAt := MessageHeader.PublishedAt (TicketRefunded_v1.Header e);
         OpsTicket.PrintedAt := OpsTicket.PrintedAt ticket;
         OpsTicket.PrintedFileName := OpsTicket.PrintedFileName ticket;
         OpsTicket.ReceiptIssuedAt := OpsTicket.ReceiptIssuedAt ticket;
         OpsTicket.ReceiptNumber := OpsTicket.ReceiptNumber ticket |} in
  ∃ p,
    OnTicketRefunded now e db = (Ok tt, <[bookingID := p]> db) ∧
    ticket_of_one_booking (<[bookingID := p]> db) ticketID bookingID
      (OpsBooking.with_LastUpdate now
         (OpsBooking.with_Tickets (Some (<[ticketID := updated]> m)) rm))
      (<[ticketID := updated]> m) updated.
Proof.
  intros <- Hone He Hexec updated. unfold OnTicketRefunded.
  destruct (ticket_of_one_booking_times_ok _ _ _ _ _ _ Hone) as [_ Hok].
  apply OpsTicket_times_ok_iff in Hok as (? & ? & ? & ?).
  match goal with |- context [updateByTicketID now _ ?f db] =>
    destruct (updateByTicketID_step now _ _ f _ _ _ _ updated Hone eq_refl)
      as (p & _ & Hcall & Hone') end;
    [by apply OpsTicket_times_ok_iff|done|].
  by exists p.
Qed.

(** Two updates of the ticket in either order, when the two commute on the
    ticket and nothing refuses the writes. *)
Lemma updateByTicketID_commute now1 now1' now2 (ticketID bookingID : string)
    f g db rm m ticket ticketf ticketg ticket2 :
  ticket_of_one_booking db ticketID bookingID rm m ticket →
  f ticket = Ok ticketf → g ticketf = Ok ticket2 →
  g ticket = Ok ticketg → f ticketg = Ok ticket2 →
  OpsTicket.times_ok Time_MarshalJSON_ok ticketf = true →
  OpsTicket.times_ok Time_MarshalJSON_ok ticketg = true →
  OpsTicket.times_ok Time_MarshalJSON_ok ticket2 = true →
  ExecContext_error = None →
  updateByTicketID now2 ticketID g (updateByTicketID now1 ticketID f db).2 =
    updateByTicketID now2 ticketID f (updateByTicketID now1' ticketID g db).2.
Proof.
  intros Hone Hf Hgf Hg Hfg Hokf Hokg Hok2 Hexec.
  destruct (updateByTicketID_twice now1 now2 _ _ f g _ _ _ _ _ _
              Hone Hf Hgf Hokf Hok2 Hexec) as (p & Hp & _ & -> & _).
  destruct (updateByTicketID_twice now1' now2 _ _ g f _ _ _ _ _ _
              Hone Hg Hfg Hokg Hok2 Hexec) as (p' & Hp' & _ & -> & _).
  congruence.
Qed.

(** X3.  Two different ticket events for the same ticket commute: in
    either order the table ends the same, given the same time of the last
    write.  This holds for each pair of printed, refunded and receipt
    issued, when the times the events carry are ones that [json.Marshal]
    encodes and the server executes the statements. *)
Theorem ticket_events_commute now1 now1' now2
    (pe : TicketPrinted_v1.t) (re : TicketRefunded_v1.t)
    (ie : TicketReceiptIssued_v1.t) (ticketID bookingID : string)
    db rm m ticket :
  TicketPrinted_v1.TicketID pe = ticketID →
  TicketRefunded_v1.TicketID re = ticketID →
  TicketReceiptIssued_v1.TicketID ie = ticketID →
  ticket_of_one_booking db ticketID bookingID rm m ticket →
  Time_MarshalJSON_ok (MessageHeader.PublishedAt (TicketPrinted_v1.Header pe))
    = true →
  Time_MarshalJSON_ok (MessageHeader.PublishedAt (TicketRefunded_v1.Header re))
    = true →
  Time_MarshalJSON_ok (TicketReceiptIssued_v1.IssuedAt ie) = true →
  ExecContext_error = None →
  OnTicketRefunded now2 re (OnTicketPrinted now1 pe db).2 =
    OnTicketPrinted now2 pe (OnTicketRefunded now1' re db).2 ∧
  OnTicketReceiptIssued now2 ie (OnTicketPrinted now1 pe db).2 =
    OnTicketPrinted now2 pe (OnTicketReceiptIssued now1' ie db).2 ∧
  OnTicketReceiptIssued now2 ie (OnTicketRefunded now1 re db).2 =
    OnTicketRefunded now2 re (OnTicketReceiptIssued now1' ie db).2.
Proof.
  intros <- Hre Hie Hone Hpok Hrok Hiok Hexec.
  destruct (ticket_of_one_booking_times_ok _ _ _ _ _ _ Hone) as [_ Hok].
  apply OpsTicket_times_ok_iff in Hok as (? & ? & ? & ?).
  unfold OnTicketPrinted, OnTicketRefunded, OnTicketReceiptIssued.
  rewrite Hre, Hie.
  repeat split.
  all: match goal with
       | |- updateByTicketID _ _ ?g (updateByTicketID _ _ ?f _).2 = _ =>
           apply (updateByTicketID_commute now1 now1' now2 _ _ f g _ _ _ _
                    _ _ _ Hone eq_refl eq_refl eq_refl eq_refl)
       end.
  all: try exact Hexec.
  all: by apply OpsTicket_times_ok_iff.
Qed.

(** X4.  Delivering the same confirmation twice leaves what delivering it
    once, at the time of the second delivery, leaves. *)
Theorem OnTicketBookingConfirmed_redelivery now1 now2
    (e : TicketBookingConfirmed_v1.t) db rm :
  booking_row db (TicketBookingConfirmed_v1.BookingID e) rm →
  OnTicketBookingConfirmed now2 e (OnTicketBookingConfirmed now1 e db).2 =
    OnTicketBookingConfirmed now2 e db.
Proof.
  intros Hrm. pose proof Hrm as (p & Hrow & Hp & Hid).
  rewrite (OnTicketBookingConfirmed_row now1 e db rm Hrm).
  match goal with |- context [updateReadModel now1 ?rm1] =>
    destruct (updateReadModel_table now1 rm1 db)
      as [->|(p1 & Hp1 & Hexec & ->)] end; [done|].
  cbn [snd]. simpl in Hp1 |- *. rewrite Hid.
  erewrite (OnTicketBookingConfirmed_row now2 e (<[_ := _]> db)).
  2:{ exists p1. split; [apply lookup_insert_eq|].
      split; [exact (json_Unmarshal_Marshal _ _ Hp1)|done]. }
  rewrite (OnTicketBookingConfirmed_row now2 e db rm Hrm).
  rewrite !updateReadModel_tx.
  destruct (json_Marshal_with_LastUpdate now1 now2 _ _ Hp1) as [p2 Hp2].
  unfold OpsBooking.with_LastUpdate, OpsBooking.with_Tickets, map_get
    in Hp2 |- *.
  simpl in Hp2 |- *. rewrite lookup_insert_eq, insert_insert_eq. simpl.
  by rewrite Hp2, Hexec, Hid, insert_insert_eq.
Qed.

(** X5.  A confirmation that arrives for a ticket the row already holds
    overwrites the price amount, currency, customer email and confirmed-at
    of the ticket and keeps its refunded, printed and receipt fields and
    every other ticket, when the time of the event is one that
    [json.Marshal] encodes and the server executes the statement. *)
Theorem OnTicketBookingConfirmed_keeps_other_facts now
    (e : TicketBookingConfirmed_v1.t) db rm m ticket :
  booking_row db (TicketBookingConfirmed_v1.BookingID e) rm →
  OpsBooking.Tickets rm = Some m →
  m !! TicketBookingConfirmed_v1.TicketID e = Some ticket →
  Time_MarshalJSON_ok
    (MessageHeader.PublishedAt (TicketBookingConfirmed_v1.Header e)) = true →
  ExecContext_error = None →
  (OnTicketBookingConfirmed now e db).1 = Ok tt ∧
  FindByID (TicketBookingConfirmed_v1.BookingID e)
      (OnTicketBookingConfirmed now e db).2 =
    Ok {| OpsBooking.BookingID := TicketBookingConfirmed_v1.BookingID e;
          OpsBooking.BookedAt := OpsBooking.BookedAt rm;
          OpsBooking.Tickets :=
            Some (<[TicketBookingConfirmed_v1.TicketID e :=
                      {| OpsTicket.PriceAmount :=
                           Money.Amount (TicketBookingConfirmed_v1.Price e);
                         OpsTicket.PriceCurrency :=
                           Money.Currency (TicketBookingConfirmed_v1.Price e);
                         OpsTicket.CustomerEmail :=
                           TicketBookingConfirmed_v1.CustomerEmail e;
                         OpsTicket.ConfirmedAt :=
                           MessageHeader.PublishedAt
                             (TicketBookingConfirmed_v1.Header e);
                         OpsTicket.RefundedAt := OpsTicket.RefundedAt ticket;
                         OpsTicket.PrintedAt := OpsTicket.PrintedAt ticket;
                         OpsTicket.PrintedFileName :=
                           OpsTicket.PrintedFileName ticket;
                         OpsTicket.ReceiptIssuedAt :=
                           OpsTicket.ReceiptIssuedAt ticket;
                         OpsTicket.ReceiptNumber :=
                           OpsTicket.ReceiptNumber ticket |}]> m);
          OpsBooking.LastUpdate := now |}.
Proof.
  intros Hrm Hm Hticket He Hexec.
  destruct (OnTicketBookingConfirmed_Ok now e db rm Hrm He Hexec)
    as (p' & Hback & ->).
  split; [done|]. cbn [snd].
  eapply FindByID_row; [apply lookup_insert_eq|].
  unfold map_get in Hback. rewrite Hm in Hback. simpl in Hback.
  rewrite Hticket in Hback. simpl in Hback.
  by apply unmarshalReadModelFromDB_Marshal.
Qed.

(** A booking with a ticket whose confirmed-at is not encoded is not
    encoded. *)
Lemma OpsBooking_times_ok_insert_false rm (k : string) (ticket : OpsTicket.t)
    (m : gmap string OpsTicket.t) :
  Time_MarshalJSON_ok (OpsTicket.ConfirmedAt ticket) = false →
  OpsBooking.times_ok Time_MarshalJSON_ok
    (OpsBooking.with_Tickets (Some (<[k := ticket]> m)) rm) = false.
Proof.
  intros Hbad. apply not_true_is_false. intros Hok.
  pose proof (OpsBooking_times_ok_tickets _ _ Hok eq_refl k ticket
                (lookup_insert_eq m k ticket)) as Hticket.
  apply OpsTicket_times_ok_iff in Hticket as (Hc & _). congruence.
Qed.

(** X6.  The outcomes of [OnTicketBookingConfirmed], by the row it finds.
    No row: "read model for booking B not exist yet".  A row whose payload
    does not decode: "could not find read model", wrapping the decoding
    error.  A row that decodes: the error of [json.Marshal] when the time
    of the event is not encoded; else "could not update read model",
    wrapping the error of the server, when the server refuses the
    statement; else no error.  It never panics, and whenever it does not
    return nil the table is as before. *)
Theorem OnTicketBookingConfirmed_outcomes now
    (e : TicketBookingConfirmed_v1.t) db :
  (db !! TicketBookingConfirmed_v1.BookingID e = None →
   OnTicketBookingConfirmed now e db =
     (Err (ErrMsg ("read model for booking "
                     +:+ TicketBookingConfirmed_v1.BookingID e
                     +:+ " not exist yet")), db)) ∧
  (∀ p, db !! TicketBookingConfirmed_v1.BookingID e = Some p →
        json_Unmarshal p = None →
        OnTicketBookingConfirmed now e db =
          (Err (ErrWrap "could not find read model" ErrUnmarshal), db)) ∧
  (∀ p rm, db !! TicketBookingConfirmed_v1.BookingID e = Some p →
           json_Unmarshal p = Some rm →
           (Time_MarshalJSON_ok
              (MessageHeader.PublishedAt (TicketBookingConfirmed_v1.Header e))
              = false →
            OnTicketBookingConfirmed now e db = (Err ErrMarshal, db)) ∧
           (Time_MarshalJSON_ok
              (MessageHeader.PublishedAt (TicketBookingConfirmed_v1.Header e))
              = true →
            ∀ err, ExecContext_error = Some err →
            OnTicketBookingConfirmed now e db =
              (Err (ErrWrap "could not update read model" err), db)) ∧
           (Time_MarshalJSON_ok
              (MessageHeader.PublishedAt (TicketBookingConfirmed_v1.Header e))
              = true →
            ExecContext_error = None →
            (OnTicketBookingConfirmed now e db).1 = Ok tt)) ∧
  (∀ v, (OnTicketBookingConfirmed now e db).1 ≠ Panic v) ∧
  ((OnTicketBookingConfirmed now e db).1 ≠ Ok tt →
   (OnTicketBookingConfirmed now e db).2 = db).
Proof.
  assert (∀ p, db !! TicketBookingConfirmed_v1.BookingID e = Some p →
            json_Unmarshal p = None →
            OnTicketBookingConfirmed now e db =
              (Err (ErrWrap "could not find read model" ErrUnmarshal), db))
    as Hbad.
  { intros p Hrow Hp.
    unfold OnTicketBookingConfirmed, updateByBookingID, updateInTx,
      findByBookingID, unmarshalReadModelFromDB.
    by rewrite Hrow, Hp. }
  assert (∀ v, (OnTicketBookingConfirmed now e db).1 ≠ Panic v) as Hnopanic.
  { intros v.
    destruct (db !! TicketBookingConfirmed_v1.BookingID e) as [p|] eqn:Hrow.
    - destruct (json_Unmarshal p) as [rm|] eqn:Hp.
      + rewrite (OnTicketBookingConfirmed_decoded now e db p rm Hrow Hp).
        rewrite updateReadModel_tx.
        destruct (json_Marshal _); [|done].
        by destruct ExecContext_error.
      + by rewrite (Hbad p).
    - unfold OnTicketBookingConfirmed.
      by rewrite updateByBookingID_missing. }
  split; [by apply updateByBookingID_missing|].
  split; [done|]. split; [|split; [done|]].
  - intros p rm Hrow Hp.
    rewrite (OnTicketBookingConfirmed_decoded now e db p rm Hrow Hp).
    rewrite updateReadModel_tx.
    pose proof (json_Unmarshal_times_ok _ _ Hp) as Hok.
    split; [|split].
    + intros He. rewrite json_Marshal_None; [done|].
      change (OpsBooking.times_ok Time_MarshalJSON_ok (OpsBooking.with_LastUpdate now ?b))
        with (OpsBooking.times_ok Time_MarshalJSON_ok b).
      by apply OpsBooking_times_ok_insert_false.
    + intros He err Hexec.
      match goal with |- context [json_Marshal ?rm'] =>
        destruct (json_Marshal_times_ok rm') as (p' & -> & _) end;
        [|by rewrite Hexec].
      change (OpsBooking.times_ok Time_MarshalJSON_ok (OpsBooking.with_LastUpdate now ?b))
        with (OpsBooking.times_ok Time_MarshalJSON_ok b).
      apply OnTicketBookingConfirmed_times_ok; [done| |done].
      by apply map_get_times_ok.
    + intros He Hexec.
      match goal with |- context [json_Marshal ?rm'] =>
        destruct (json_Marshal_times_ok rm') as (p' & -> & _) end;
        [|by rewrite Hexec].
      change (OpsBooking.times_ok Time_MarshalJSON_ok (OpsBooking.with_LastUpdate now ?b))
        with (OpsBooking.times_ok Time_MarshalJSON_ok b).
      apply OnTicketBookingConfirmed_times_ok; [done| |done].
      by apply map_get_times_ok.
  - unfold OnTicketBookingConfirmed.
    match goal with |- context [updateByBookingID now ?b ?f db] =>
      destruct (updateByBookingID_table now b f db)
        as [Hsame|(rm & updatedRm & _ & _ & ->)] end; [done|].
    destruct (updateReadModel_table now updatedRm db)
      as [Hsame|(p & _ & _ & ->)]; done.
Qed.

(** X7.  Before [OnBookingMade] the lookup of the booking fails with
    "booking not found"; after it, when the time of the event is one that
    [json.Marshal] encodes and the server executes the statement, the
    lookup returns the booking with its booked-at time, an empty and
    non-nil map of tickets and the time of the call; the lookup of any
    other booking answers as before. *)
Theorem FindByID_after_OnBookingMade now (e : BookingMade_v1.t) db :
  db !! BookingMade_v1.BookingID e = None →
  Time_MarshalJSON_ok (MessageHeader.PublishedAt (BookingMade_v1.Header e))
    = true →
  ExecContext_error = None →
  FindByID (BookingMade_v1.BookingID e) db =
    Err (ErrMsg ("booking not found: " +:+ BookingMade_v1.BookingID e)) ∧
  FindByID (BookingMade_v1.BookingID e) (OnBookingMade now e db).2 =
    Ok {| OpsBooking.BookingID := BookingMade_v1.BookingID e;
          OpsBooking.BookedAt :=
            MessageHeader.PublishedAt (BookingMade_v1.Header e);
          OpsBooking.Tickets := Some ∅;
          OpsBooking.LastUpdate := now |} ∧
  ∀ bookingID, bookingID ≠ BookingMade_v1.BookingID e →
    FindByID bookingID (OnBookingMade now e db).2 = FindByID bookingID db.
Proof.
  intros Hrow He Hexec.
  destruct (OnBookingMade_fresh now e db He Hexec Hrow) as (p & Hback & ->).
  cbn [snd]. split; [|split].
  - unfold FindByID, findByBookingID. by rewrite Hrow.
  - eapply FindByID_row; [apply lookup_insert_eq|].
    by apply unmarshalReadModelFromDB_Marshal.
  - intros bookingID Hne. unfold FindByID, findByBookingID.
    by rewrite lookup_insert_ne.
Qed.

Lemma unmarshal_each_spec (payloads : list payload)
    (acc bookings : list OpsBooking.t) :
  unmarshal_each payloads acc = Ok bookings ↔
  ∃ decoded,
    bookings = acc ++ decoded ∧
    Forall2 (λ p rm, unmarshalReadModelFromDB p = Ok rm) payloads decoded.
Proof.
  revert acc. induction payloads as [|p payloads IH]; intros acc; simpl.
  - split.
    + intros [= <-]. exists []. by rewrite app_nil_r.
    + intros (decoded & -> & Hall). apply Forall2_nil_inv_l in Hall as ->.
      by rewrite app_nil_r.
  - destruct (unmarshalReadModelFromDB p) as [rm|err|v] eqn:Hp.
    + rewrite IH. split.
      * intros (decoded & -> & Hall). exists (rm :: decoded).
        rewrite <- app_assoc. split; [done|]. by constructor.
      * intros (decoded & -> & Hall).
        apply Forall2_cons_inv_l in Hall as (rm' & decoded' & Hp' & Hall & ->).
        rewrite Hp in Hp'. injection Hp' as <-.
        exists decoded'. by rewrite <- app_assoc.
    + split; [done|]. intros (decoded & _ & Hall).
      apply Forall2_cons_inv_l in Hall as (rm' & decoded' & Hp' & _).
      congruence.
    + split; [done|]. intros (decoded & _ & Hall).
      apply Forall2_cons_inv_l in Hall as (rm' & decoded' & Hp' & _).
      congruence.
Qed.

(** X8.  [FindAll] returns bookings exactly when the query succeeds and
    every selected payload decodes; the bookings are then the decoded
    payloads, one per payload and in the order of the query.  One payload
    that does not decode makes the whole call fail. *)
Theorem FindAll_all_or_nothing (receiptIssueDate : string) db
    (bookings : list OpsBooking.t) :
  FindAll receiptIssueDate db = Ok bookings ↔
  ∃ payloads,
    select_payloads receiptIssueDate db = Ok payloads ∧
    Forall2 (λ p rm, unmarshalReadModelFromDB p = Ok rm) payloads bookings.
Proof.
  unfold FindAll.
  destruct (select_payloads receiptIssueDate db) as [payloads|err|v].
  - rewrite unmarshal_each_spec. split.
    + intros (decoded & -> & Hall). by exists payloads.
    + intros (payloads' & [= <-] & Hall). by exists bookings.
  - split; [done|]. by intros (payloads & ? & _).
  - split; [done|]. by intros (payloads & ? & _).
Qed.

(** X9.  Every handler of the read model keeps the table one in which each
    row that decodes holds the booking of its own key. *)
Theorem handlers_keep_rows_under_own_id now
    (be : BookingMade_v1.t) (ce : TicketBookingConfirmed_v1.t)
    (pe : TicketPrinted_v1.t) (re : TicketRefunded_v1.t)
    (ie : TicketReceiptIssued_v1.t) db :
  stored_under_own_id db →
  stored_under_own_id (OnBookingMade now be db).2 ∧
  stored_under_own_id (OnTicketBookingConfirmed now ce db).2 ∧
  stored_under_own_id (OnTicketPrinted now pe db).2 ∧
  stored_under_own_id (OnTicketRefunded now re db).2 ∧
  stored_under_own_id (OnTicketReceiptIssued now ie db).2.
Proof.
  intros Hdb. split; [by apply OnBookingMade_stored_under_own_id|].
  split; [by apply updateByBookingID_stored_under_own_id|].
  repeat split; by apply updateByTicketID_stored_under_own_id.
Qed.

(** The key set of a table does not shrink under [OnBookingMade] and
    under the write of a booking. *)
Lemma OnBookingMade_dom now (e : BookingMade_v1.t) db :
  dom db ⊆ dom (OnBookingMade now e db).2.
Proof.
  destruct (OnBookingMade_table now e db) as [->|(_ & p & _ & ->)];
    [done|apply dom_insert_subseteq].
Qed.

Lemma updateReadModel_dom now rm db :
  dom db ⊆
    dom (updateInTx LevelRepeatableRead (updateReadModel now rm) db).2.
Proof.
  destruct (updateReadModel_table now rm db) as [->|(p & _ & _ & ->)];
    [done|apply dom_insert_subseteq].
Qed.

(** X10.  [OnBookingMade] never changes a row that is there: every row of
    the table before is a row of the table after, with the same payload. *)
Theorem OnBookingMade_never_overwrites now (e : BookingMade_v1.t) db :
  db ⊆ (OnBookingMade now e db).2.
Proof.
  destruct (OnBookingMade_table now e db) as [->|(Hrow & p & _ & ->)];
    [done|by apply insert_subseteq].
Qed.

(** X11.  No handler removes a row; and in a table whose rows are stored
    under their own id, [OnTicketBookingConfirmed] leaves the row of every
    other booking as it is. *)
Theorem handlers_remove_no_row now
    (be : BookingMade_v1.t) (ce : TicketBookingConfirmed_v1.t)
    (pe : TicketPrinted_v1.t) (re : TicketRefunded_v1.t)
    (ie : TicketReceiptIssued_v1.t) db :
  dom db ⊆ dom (OnBookingMade now be db).2 ∧
  dom db ⊆ dom (OnTicketBookingConfirmed now ce db).2 ∧
  dom db ⊆ dom (OnTicketPrinted now pe db).2 ∧
  dom db ⊆ dom (OnTicketRefunded now re db).2 ∧
  dom db ⊆ dom (OnTicketReceiptIssued now ie db).2 ∧
  (stored_under_own_id db →
   ∀ bookingID, bookingID ≠ TicketBookingConfirmed_v1.BookingID ce →
     (OnTicketBookingConfirmed now ce db).2 !! bookingID = db !! bookingID).
Proof.
  assert (∀ now ticketID updateFunc,
            dom db ⊆ dom (updateByTicketID now ticketID updateFunc db).2)
    as Hticket.
  { intros now' ticketID updateFunc.
    destruct (updateByTicketID_table now' ticketID updateFunc db)
      as [->|(rm & ->)]; [done|apply updateReadModel_dom]. }
  split; [apply OnBookingMade_dom|].
  split.
  { unfold OnTicketBookingConfirmed.
    match goal with |- context [updateByBookingID ?n ?b ?f db] =>
      destruct (updateByBookingID_table n b f db)
        as [->|(rm & updatedRm & _ & _ & ->)] end;
      [done|apply updateReadModel_dom]. }
  do 3 (split; [apply Hticket|]).
  intros Hdb bookingID Hne. unfold OnTicketBookingConfirmed.
  match goal with |- context [updateByBookingID ?n ?b ?f db] =>
    destruct (updateByBookingID_table n b f db)
      as [->|(rm & updatedRm & Hfind & Hf & ->)] end; [done|].
  destruct (updateReadModel_table now updatedRm db)
    as [->|(p' & _ & _ & ->)]; [done|].
  apply lookup_insert_ne.
  unfold findByBookingID in Hfind.
  destruct (db !! TicketBookingConfirmed_v1.BookingID ce) as [p|] eqn:Hrow;
    [|done].
  unfold unmarshalReadModelFromDB in Hfind.
  destruct (json_Unmarshal p) as [b|] eqn:Hp; [|done].
  pose proof (Hdb _ _ _ Hrow Hp) as Hid.
  simpl in Hf.
  destruct (OpsBooking.Tickets b) eqn:Hm; injection Hfind as <-;
    simpl in Hf; rewrite ?Hm in Hf; simpl in Hf;
    injection Hf as <-; simpl; congruence.
Qed.

(** X22.  [OnTicketReceiptIssued] for a ticket that is on one row only,
    when the issue time is one that [json.Marshal] encodes and the server
    executes the statement, returns no error and sets the receipt number
    and the issue time of the receipt, which is the time the event carries
    in [IssuedAt], not the time of its header; every other field and
    ticket stays. *)
Theorem OnTicketReceiptIssued_sets_receipt now
    (ie : TicketReceiptIssued_v1.t) (ticketID bookingID : string)
    db rm m ticket :
  TicketReceiptIssued_v1.TicketID ie = ticketID →
  ticket_of_one_booking db ticketID bookingID rm m ticket →
  Time_MarshalJSON_ok (TicketReceiptIssued_v1.IssuedAt ie) = true →
  ExecContext_error = None →
  (OnTicketReceiptIssued now ie db).1 = Ok tt ∧
  FindByID bookingID (OnTicketReceiptIssued now ie db).2 =
    Ok {| OpsBooking.BookingID := bookingID;
          OpsBooking.BookedAt := OpsBooking.BookedAt rm;
          OpsBooking.Tickets :=
            Some (<[ticketID :=
                      {| OpsTicket.PriceAmount := OpsTicket.PriceAmount ticket;
                         OpsTicket.PriceCurrency := OpsTicket.PriceCurrency ticket;
                         OpsTicket.CustomerEmail := OpsTicket.CustomerEmail ticket;
                         OpsTicket.ConfirmedAt := OpsTicket.ConfirmedAt ticket;
                         OpsTicket.RefundedAt := OpsTicket.RefundedAt ticket;
                         OpsTicket.PrintedAt := OpsTicket.PrintedAt ticket;
                         OpsTicket.PrintedFileName :=
                           OpsTicket.PrintedFileName ticket;
                         OpsTicket.ReceiptIssuedAt :=
                           TicketReceiptIssued_v1.IssuedAt ie;
                         OpsTicket.ReceiptNumber :=
                           TicketReceiptIssued_v1.ReceiptNumber ie |}]> m);
          OpsBooking.LastUpdate := now |}.
Proof.
  intros Hie Hone He Hexec.
  pose proof Hone as ((p & Hrow & Hp & Hid) & _).
  destruct (OnTicketReceiptIssued_step now ie _ _ _ _ _ _ Hie Hone He Hexec)
    as (p' & -> & Hone').
  split; [done|]. cbn [snd].
  rewrite (FindByID_ticket_of_one_booking _ _ _ _ _ _ Hone').
  unfold OpsBooking.with_LastUpdate, OpsBooking.with_Tickets; simpl.
  by rewrite Hid.
Qed.

(** X23.  The life of a ticket from a table that knows neither the
    booking nor the ticket: booking made, ticket confirmed, printed,
    receipt issued, refunded, each delivered once and in this order, with
    times that [json.Marshal] encodes and a server that executes the
    statements.  Every handler returns no error and the booking read back
    at the end holds the one ticket with the facts of all four ticket
    events. *)
Theorem ticket_life_cycle (now1 now2 now3 now4 now5 : Time)
    (be : BookingMade_v1.t) (ce : TicketBookingConfirmed_v1.t)
    (pe : TicketPrinted_v1.t) (ie : TicketReceiptIssued_v1.t)
    (re : TicketRefunded_v1.t) (ticketID bookingID : string) db :
  BookingMade_v1.BookingID be = bookingID →
  TicketBookingConfirmed_v1.BookingID ce = bookingID →
  TicketBookingConfirmed_v1.TicketID ce = ticketID →
  TicketPrinted_v1.TicketID pe = ticketID →
  TicketReceiptIssued_v1.TicketID ie = ticketID →
  TicketRefunded_v1.TicketID re = ticketID →
  db !! bookingID = None →
  (∀ bookingID' p', db !! bookingID' = Some p' →
     jsonb_tickets_has_key p' ticketID = false) →
  Time_MarshalJSON_ok (MessageHeader.PublishedAt (BookingMade_v1.Header be))
    = true →
  Time_MarshalJSON_ok
    (MessageHeader.PublishedAt (TicketBookingConfirmed_v1.Header ce)) = true →
  Time_MarshalJSON_ok (MessageHeader.PublishedAt (TicketPrinted_v1.Header pe))
    = true →
  Time_MarshalJSON_ok (TicketReceiptIssued_v1.IssuedAt ie) = true →
  Time_MarshalJSON_ok (MessageHeader.PublishedAt (TicketRefunded_v1.Header re))
    = true →
  ExecContext_error = None →
  let made := OnBookingMade now1 be db in
  let confirmed := OnTicketBookingConfirmed now2 ce made.2 in
  let printed := OnTicketPrinted now3 pe confirmed.2 in
  let issued := OnTicketReceiptIssued now4 ie printed.2 in
  let refunded := OnTicketRefunded now5 re issued.2 in
  made.1 = Ok tt ∧ confirmed.1 = Ok tt ∧ printed.1 = Ok tt ∧
  issued.1 = Ok tt ∧ refunded.1 = Ok tt ∧
  FindByID bookingID refunded.2 =
    Ok {| OpsBooking.BookingID := bookingID;
          OpsBooking.BookedAt :=
            MessageHeader.PublishedAt (BookingMade_v1.Header be);
          OpsBooking.Tickets :=
            Some {[ticketID :=
                     {| OpsTicket.PriceAmount :=
                          Money.Amount (TicketBookingConfirmed_v1.Price ce);
                        OpsTicket.PriceCurrency :=
                          Money.Currency (TicketBookingConfirmed_v1.Price ce);
                        OpsTicket.CustomerEmail :=
                          TicketBookingConfirmed_v1.CustomerEmail ce;
                        OpsTicket.ConfirmedAt :=
                          MessageHeader.PublishedAt
                            (TicketBookingConfirmed_v1.Header ce);
                        OpsTicket.RefundedAt :=
                          MessageHeader.PublishedAt (TicketRefunded_v1.Header re);
                        OpsTicket.PrintedAt :=
                          MessageHeader.PublishedAt (TicketPrinted_v1.Header pe);
                        OpsTicket.PrintedFileName := TicketPrinted_v1.FileName pe;
                        OpsTicket.ReceiptIssuedAt :=
                          TicketReceiptIssued_v1.IssuedAt ie;
                        OpsTicket.ReceiptNumber :=
                          TicketReceiptIssued_v1.ReceiptNumber ie |}]};
          OpsBooking.LastUpdate := now5 |}.
Proof.
  intros <- Hce <- Hpe Hie Hre Hrow Hnone Hbok Hcok Hpok Hiok Hrok Hexec.
  intros made confirmed printed issued refunded.
  destruct (OnBookingMade_fresh now1 be db Hbok Hexec Hrow)
    as (p1 & _ & Hmade). fold made in Hmade.
  destruct (OnTicketBookingConfirmed_after_made now1 now2 be ce db
              Hce Hrow Hbok Hcok Hexec) as (p2 & Hp2 & Hconfirmed).
  fold made in Hconfirmed. fold confirmed in Hconfirmed.
  apply json_Unmarshal_Marshal in Hp2.
  set (ticket2 :=
         {| OpsTicket.PriceAmount :=
              Money.Amount (TicketBookingConfirmed_v1.Price ce);
            OpsTicket.PriceCurrency :=
              Money.Currency (TicketBookingConfirmed_v1.Price ce);
            OpsTicket.CustomerEmail :=
              TicketBookingConfirmed_v1.CustomerEmail ce;
            OpsTicket.ConfirmedAt :=
              MessageHeader.PublishedAt (TicketBookingConfirmed_v1.Header ce);
            OpsTicket.RefundedAt := zero_time;
            OpsTicket.PrintedAt := zero_time;
            OpsTicket.PrintedFileName := "";
            OpsTicket.ReceiptIssuedAt := zero_time;
            OpsTicket.ReceiptNumber := "" |}) in *.
  set (rm2 :=
         {| OpsBooking.BookingID := BookingMade_v1.BookingID be;
            OpsBooking.BookedAt :=
              MessageHeader.PublishedAt (BookingMade_v1.Header be);
            OpsBooking.Tickets :=
              Some {[TicketBookingConfirmed_v1.TicketID ce := ticket2]};
            OpsBooking.LastUpdate := now2 |}) in *.
  assert (ticket_of_one_booking confirmed.2
            (TicketBookingConfirmed_v1.TicketID ce)
            (BookingMade_v1.BookingID be) rm2
            {[TicketBookingConfirmed_v1.TicketID ce := ticket2]} ticket2)
    as Hone2.
  { rewrite Hconfirmed. cbn [snd].
    split; [|split; [reflexivity|split; [apply lookup_singleton_eq|]]].
    - exists p2. split; [apply lookup_insert_eq|]. by split.
    - intros bookingID' p' Hrow' Hne.
      rewrite lookup_insert_ne in Hrow' by done. by eapply Hnone. }
  destruct (OnTicketPrinted_step now3 pe _ _ _ _ _ _ Hpe Hone2 Hpok Hexec)
    as (p3 & Hprinted & Hone3). fold printed in Hprinted.
  assert (printed.2 = <[BookingMade_v1.BookingID be := p3]> confirmed.2)
    as Htable3 by (by rewrite Hprinted).
  rewrite <- Htable3 in Hone3.
  destruct (OnTicketReceiptIssued_step now4 ie _ _ _ _ _ _ Hie Hone3 Hiok Hexec)
    as (p4 & Hissued & Hone4). fold issued in Hissued.
  assert (issued.2 = <[BookingMade_v1.BookingID be := p4]> printed.2)
    as Htable4 by (by rewrite Hissued).
  rewrite <- Htable4 in Hone4.
  destruct (OnTicketRefunded_step now5 re _ _ _ _ _ _ Hre Hone4 Hrok Hexec)
    as (p5 & Hrefunded & Hone5). fold refunded in Hrefunded.
  split; [by rewrite Hmade|].
  split; [by rewrite Hconfirmed|].
  split; [by rewrite Hprinted|]. split; [by rewrite Hissued|].
  split; [by rewrite Hrefunded|].
  rewrite Hrefunded. cbn [snd].
  rewrite (FindByID_ticket_of_one_booking _ _ _ _ _ _ Hone5).
  unfold OpsBooking.with_LastUpdate, OpsBooking.with_Tickets, rm2, ticket2.
  simpl. by rewrite !insert_insert_eq, insert_singleton_eq.
Qed.

End projector_more_facts.

(** ** The pipeline: success, recovery, panics and bounds *)

Section pipeline_more_facts.
Import Pipeline.
Context {U : Type}.
Implicit Types (h : HandlerFunc U) (w : World U) (msg : Message.t)
  (f : Message.t → U → outcome * U).

Lemma failed_total_emit eff w :
  failed_total (effects (emit eff w)) =
    failed_total (effects w) + (if is_failed eff then 1 else 0).
Proof.
  unfold failed_total, emit; simpl.
  rewrite List.filter_app, length_app; simpl.
  by destruct (is_failed eff).
Qed.

Lemma processed_total_app (effs effs' : list effect) :
  processed_total (effs ++ effs') = processed_total effs + processed_total effs'.
Proof. unfold processed_total. by rewrite List.filter_app, length_app. Qed.

Lemma sleeps_app (effs effs' : list effect) :
  sleeps (effs ++ effs') = sleeps effs ++ sleeps effs'.
Proof. unfold sleeps. by rewrite omap_app. Qed.

(** The chain that [Retry] wraps in [useMiddlewares] runs the handler of
    the application once. *)
Lemma inner_middlewares_run_handler f msg :
  runs_handler
    (tracingMiddleware
       (correlationIdMiddleware
          (logMiddleware (metricsMiddleware (lift_handler f)))))
    f msg.
Proof.
  intros w.
  unfold tracingMiddleware, correlationIdMiddleware, logMiddleware,
    metricsMiddleware, lift_handler, emit, SetContext.
  destruct (bool_decide (Message.Metadata_Get msg "correlation_id" = ""));
    cbn [user effects uuids ctx];
    destruct (f msg (user w)) as [[msgs [err|]|v] s'];
    cbn [fst snd user effects counts_processed counts_failed];
    (eexists; split; [reflexivity|]);
    cbn [user effects];
    rewrite ?processed_total_app, ?failed_total_app, ?sleeps_app;
    cbn; rewrite ?app_nil_r;
    (split; [reflexivity|]); (split; [lia|]); (split; [lia|done]).
Qed.

(** X12.  The four middlewares of the repository, around a handler of the
    application, return what the handler returns (messages, error or
    panic) and leave the state of the application as the handler leaves
    it; the processed counter goes up by one unless the handler panics,
    the failure counter exactly when it returns an error. *)
Theorem middlewares_pass_outcome_through f msg :
  runs_handler
    (tracingMiddleware
       (correlationIdMiddleware
          (logMiddleware (metricsMiddleware (lift_handler f)))))
    f msg.
Proof.
  intros w.
  destruct (inner_middlewares_run_handler f msg w)
    as (w1 & Hcall & Hu & Hp & Hf & Hs).
  exists w1. split; [exact Hcall|]. split; [exact Hu|].
  split; [exact Hp|]. split; [exact Hf | exact Hs].
Qed.

Lemma user_emit eff w : user (emit eff w) = user w.
Proof. done. Qed.

(** The loop of [Retry] when the handler fails [k] more times and then
    returns no error or panics: the loop ends with that outcome. *)
Lemma retryLoop_until (r : Retry.t) h f msg :
  runs_handler h f msg →
  ∀ (k remaining retryNum : nat) (waitTime : Z) w sk out s',
    (k ≤ remaining)%nat →
    fails_times f msg k (user w) sk →
    f msg sk = (out, s') →
    counts_failed out = 0 →
    ∃ w',
      retryLoop r h msg remaining retryNum waitTime w = (out, w') ∧
      user w' = s' ∧
      processed_total (effects w') =
        processed_total (effects w) + k + counts_processed out ∧
      failed_total (effects w') = failed_total (effects w) + k ∧
      sleeps (effects w') =
        sleeps (effects w) ++ take (S k) (waits r remaining waitTime).
Proof.
  intros Hh k.
  induction k as [|k IH];
    intros remaining retryNum waitTime w sk out s' Hk Hfails Hout Hfinal.
  - simpl in Hfails. subst sk.
    destruct (Hh (emit (Sleep waitTime) w)) as (w1 & Hcall & Hu & Hp & Hf & Hs).
    rewrite processed_total_emit in Hp. rewrite failed_total_emit in Hf.
    rewrite sleeps_emit in Hs.
    rewrite user_emit, Hout in Hcall, Hu, Hp, Hf.
    cbn [fst snd is_processed is_failed] in Hcall, Hu, Hp, Hf.
    exists w1.
    split.
    { destruct remaining; cbn [retryLoop]; rewrite Hcall;
        by destruct out as [msgs [err|]|v]. }
    split; [done|]. split; [lia|]. split; [lia|].
    rewrite Hs. by destruct remaining.
  - destruct Hfails as (msgs & err & s1 & Hfail & Hfails).
    destruct remaining as [|remaining]; [lia|].
    destruct (Hh (emit (Sleep waitTime) w)) as (w1 & Hcall & Hu & Hp & Hf & Hs).
    rewrite processed_total_emit in Hp. rewrite failed_total_emit in Hf.
    rewrite sleeps_emit in Hs.
    rewrite user_emit, Hfail in Hcall, Hu, Hp, Hf.
    cbn [fst snd is_processed is_failed counts_processed counts_failed]
      in Hcall, Hu, Hp, Hf.
    cbn [retryLoop waits]. rewrite Hcall.
    match goal with |- context [retryLoop r h msg remaining ?n ?d ?w0] =>
      destruct (IH remaining n d w0 sk out s') as (w2 & Hloop & Hu2 & Hp2 & Hf2 & Hs2)
    end; [lia | by rewrite user_emit, Hu | done | done |].
    rewrite processed_total_emit in Hp2. rewrite failed_total_emit in Hf2.
    rewrite sleeps_emit in Hs2. cbn [is_processed is_failed] in Hp2, Hf2.
    rewrite app_nil_r in Hs2.
    exists w2. split; [done|]. split; [done|]. split; [lia|]. split; [lia|].
    rewrite Hs2, Hs, <- app_assoc. done.
Qed.

(** The loop of [Retry] when the handler fails once more than [remaining]
    says: it gives up with the last error. *)
Lemma retryLoop_exhausted (r : Retry.t) h f msg :
  runs_handler h f msg →
  ∀ (remaining retryNum : nat) (waitTime : Z) w s',
    fails_times f msg (S remaining) (user w) s' →
    ∃ err w',
      retryLoop r h msg remaining retryNum waitTime w = (Return [] (Some err), w') ∧
      user w' = s' ∧
      processed_total (effects w') = processed_total (effects w) + S remaining ∧
      failed_total (effects w') = failed_total (effects w) + S remaining ∧
      sleeps (effects w') = sleeps (effects w) ++ waits r remaining waitTime.
Proof.
  intros Hh remaining.
  induction remaining as [|remaining IH];
    intros retryNum waitTime w s' (msgs & err & s1 & Hfail & Hfails);
    destruct (Hh (emit (Sleep waitTime) w)) as (w1 & Hcall & Hu & Hp & Hf & Hs);
    rewrite processed_total_emit in Hp; rewrite failed_total_emit in Hf;
    rewrite sleeps_emit in Hs;
    rewrite user_emit, Hfail in Hcall, Hu, Hp, Hf;
    cbn [fst snd is_processed is_failed counts_processed counts_failed]
      in Hcall, Hu, Hp, Hf;
    cbn [retryLoop waits]; rewrite Hcall.
  - simpl in Hfails. subst s1. eexists _, _. split; [done|].
    rewrite processed_total_emit, failed_total_emit, sleeps_emit; simpl.
    rewrite app_nil_r. split; [done|]. split; [lia|]. split; [lia|done].
  - match goal with |- context [retryLoop r h msg remaining ?n ?d ?w0] =>
      destruct (IH n d w0 s') as (err' & w2 & Hloop & Hu2 & Hp2 & Hf2 & Hs2)
    end; [by rewrite user_emit, Hu|].
    rewrite processed_total_emit in Hp2. rewrite failed_total_emit in Hf2.
    rewrite sleeps_emit in Hs2. cbn [is_processed is_failed] in Hp2, Hf2.
    rewrite app_nil_r in Hs2.
    exists err', w2. split; [done|]. split; [done|]. split; [lia|]. split; [lia|].
    rewrite Hs2, Hs, <- app_assoc. done.
Qed.

(** The loop of [Retry] on any handler: it calls the handler at most once
    more than [remaining] says. *)
Lemma retryLoop_bounded (r : Retry.t) h f msg :
  runs_handler h f msg →
  ∀ (remaining retryNum : nat) (waitTime : Z) w,
    ∃ calls failures,
      processed_total (effects (retryLoop r h msg remaining retryNum waitTime w).2)
        = processed_total (effects w) + calls ∧
      failed_total (effects (retryLoop r h msg remaining retryNum waitTime w).2)
        = failed_total (effects w) + failures ∧
      (failures ≤ calls)%nat ∧ (calls ≤ S remaining)%nat ∧
      (length (sleeps (effects (retryLoop r h msg remaining retryNum waitTime w).2))
        ≤ length (sleeps (effects w)) + S remaining)%nat.
Proof.
  intros Hh remaining.
  induction remaining as [|remaining IH]; intros retryNum waitTime w;
    destruct (Hh (emit (Sleep waitTime) w)) as (w1 & Hcall & Hu & Hp & Hf & Hs);
    rewrite processed_total_emit in Hp; rewrite failed_total_emit in Hf;
    rewrite sleeps_emit in Hs;
    cbn [retryLoop]; rewrite Hcall;
    destruct (f msg (user (emit (Sleep waitTime) w))).1 as [msgs [err|]|v];
    cbn [is_processed is_failed counts_processed counts_failed] in Hp, Hf;
    cbn [snd].
  all: try solve [ exists 1, 0; rewrite Hs, length_app; simpl; lia
                 | exists 0, 0; rewrite Hs, length_app; simpl; lia ].
  - exists 1, 1.
    rewrite processed_total_emit, failed_total_emit, sleeps_emit; simpl.
    rewrite app_nil_r, Hs, length_app. simpl. lia.
  - match goal with |- context [retryLoop r h msg remaining ?n ?d ?w0] =>
      destruct (IH n d w0) as (calls & failures & Hp2 & Hf2 & Hle & Hle' & Hs2)
    end.
    rewrite processed_total_emit in Hp2. rewrite failed_total_emit in Hf2.
    rewrite sleeps_emit in Hs2. cbn [is_processed is_failed] in Hp2, Hf2.
    rewrite app_nil_r, Hs, length_app in Hs2. simpl in Hs2.
    exists (S calls), (S failures). lia.
Qed.

Lemma Retry_Middleware_until (r : Retry.t) h f msg :
  runs_handler h f msg →
  ∀ (k : nat) w sk out s',
    (k ≤ Nat.max 1 (Retry.MaxRetries r))%nat →
    fails_times f msg k (user w) sk →
    f msg sk = (out, s') →
    counts_failed out = 0 →
    ∃ w',
      Retry_Middleware r h msg w = (out, w') ∧
      user w' = s' ∧
      processed_total (effects w') =
        processed_total (effects w) + k + counts_processed out ∧
      failed_total (effects w') = failed_total (effects w) + k ∧
      sleeps (effects w') =
        sleeps (effects w) ++
        take k (waits r (Retry.MaxRetries r - 1) (Retry.InitialInterval r)).
Proof.
  intros Hh k w sk out s' Hk Hfails Hout Hfinal.
  destruct (Hh w) as (w1 & Hcall & Hu & Hp & Hf & Hs).
  unfold Retry_Middleware. rewrite Hcall.
  destruct k as [|k].
  - simpl in Hfails. subst sk. rewrite Hout in *. simpl in *.
    exists w1. split; [by destruct out as [msgs [err|]|v]|].
    split; [done|]. split; [lia|]. split; [lia|]. by rewrite app_nil_r.
  - destruct Hfails as (msgs & err & s1 & Hfail & Hfails).
    rewrite Hfail in *. simpl in Hu, Hp, Hf. cbn [fst].
    destruct (retryLoop_until r h f msg Hh k (Retry.MaxRetries r - 1) 1
                (Retry.InitialInterval r) w1 sk out s')
      as (w2 & Hloop & Hu2 & Hp2 & Hf2 & Hs2); [lia | by rewrite Hu | done..|].
    exists w2. split; [done|]. split; [done|]. split; [lia|]. split; [lia|].
    by rewrite Hs2, Hs.
Qed.

Lemma Retry_Middleware_exhausted (r : Retry.t) h f msg w s' :
  runs_handler h f msg →
  fails_times f msg (S (S (Retry.MaxRetries r - 1))) (user w) s' →
  ∃ err w',
    Retry_Middleware r h msg w = (Return [] (Some err), w') ∧
    user w' = s' ∧
    processed_total (effects w') =
      processed_total (effects w) + S (S (Retry.MaxRetries r - 1)) ∧
    failed_total (effects w') =
      failed_total (effects w) + S (S (Retry.MaxRetries r - 1)) ∧
    sleeps (effects w') =
      sleeps (effects w) ++
      waits r (Retry.MaxRetries r - 1) (Retry.InitialInterval r).
Proof.
  intros Hh (msgs & err & s1 & Hfail & Hfails).
  destruct (Hh w) as (w1 & Hcall & Hu & Hp & Hf & Hs).
  unfold Retry_Middleware. rewrite Hcall, Hfail in *.
  simpl in Hu, Hp, Hf. cbn [fst].
  destruct (retryLoop_exhausted r h f msg Hh (Retry.MaxRetries r - 1) 1
              (Retry.InitialInterval r) w1 s')
    as (err' & w2 & Hloop & Hu2 & Hp2 & Hf2 & Hs2); [by rewrite Hu|].
  exists err', w2. split; [done|]. split; [done|].
  split; [lia|]. split; [lia|]. by rewrite Hs2, Hs.
Qed.

Lemma Retry_Middleware_bounded (r : Retry.t) h f msg w :
  runs_handler h f msg →
  ∃ calls failures,
    processed_total (effects (Retry_Middleware r h msg w).2)
      = processed_total (effects w) + calls ∧
    failed_total (effects (Retry_Middleware r h msg w).2)
      = failed_total (effects w) + failures ∧
    (failures ≤ calls)%nat ∧ (calls ≤ 1 + Nat.max 1 (Retry.MaxRetries r))%nat ∧
    (length (sleeps (effects (Retry_Middleware r h msg w).2))
       ≤ length (sleeps (effects w)) + Nat.max 1 (Retry.MaxRetries r))%nat.
Proof.
  intros Hh.
  destruct (Hh w) as (w1 & Hcall & Hu & Hp & Hf & Hs).
  unfold Retry_Middleware. rewrite Hcall.
  destruct (f msg (user w)).1 as [msgs [err|]|v]; simpl in Hp, Hf; cbn [snd].
  - destruct (retryLoop_bounded r h f msg Hh (Retry.MaxRetries r - 1) 1
                (Retry.InitialInterval r) w1)
      as (calls & failures & Hp2 & Hf2 & Hle & Hle' & Hs2).
    exists (S calls), (S failures). rewrite Hs in Hs2. lia.
  - exists 1, 0. rewrite Hs. lia.
  - exists 0, 0. rewrite Hs. lia.
Qed.

(** X13.  A handler that fails on a message at most three times in a row
    and then returns no error: the message is acknowledged, the handler
    has been called once per failure and once more, the state of the
    application is the one the successful call leaves, and the waits are
    the first of 400 ms, 800 ms and 1 s, one per failure (none when the
    first call succeeds). *)
Theorem handler_recovers_within_retries f msg w (k : nat) sk s' :
  (k ≤ 3)%nat →
  fails_times f msg k (user w) sk →
  f msg sk = (Return [] None, s') →
  ∃ w',
    handleMessage (useMiddlewares NewDefaultRouter) (lift_handler f) msg w
      = (Ack, w') ∧
    user w' = s' ∧
    processed_total (effects w') = processed_total (effects w) + k + 1 ∧
    failed_total (effects w') = failed_total (effects w) + k ∧
    sleeps (effects w') =
      sleeps (effects w) ++
      take k [400 * Millisecond; 800 * Millisecond; Second]%Z.
Proof.
  intros Hk Hfails Hok.
  unfold handleMessage.
  cbn [useMiddlewares NewDefaultRouter AddMiddleware middlewares app wrap foldr].
  match goal with |- context [Retry_Middleware ?r ?h] =>
    destruct (Retry_Middleware_until r h f msg
                (inner_middlewares_run_handler f msg)
                k w sk (Return [] None) s' Hk Hfails Hok eq_refl)
      as (w' & Hretry & Hu & Hp & Hf & Hs) end.
  unfold Recoverer at 1. rewrite Hretry.
  exists w'. split; [done|]. split; [done|]. split; [exact Hp|].
  split; [exact Hf | exact Hs].
Qed.

(** X14.  When the first four calls of the handler on a message fail, the
    message is negative-acknowledged after exactly those four calls,
    whatever a fifth call would have returned. *)
Theorem four_failures_exhaust_the_retries f msg w s' :
  fails_times f msg 4 (user w) s' →
  ∃ w',
    handleMessage (useMiddlewares NewDefaultRouter) (lift_handler f) msg w
      = (Nack, w') ∧
    user w' = s' ∧
    processed_total (effects w') = processed_total (effects w) + 4 ∧
    failed_total (effects w') = failed_total (effects w) + 4.
Proof.
  intros Hfails.
  unfold handleMessage.
  cbn [useMiddlewares NewDefaultRouter AddMiddleware middlewares app wrap foldr].
  match goal with |- context [Retry_Middleware ?r ?h] =>
    destruct (Retry_Middleware_exhausted r h f msg w s'
                (inner_middlewares_run_handler f msg) Hfails)
      as (err & w' & Hretry & Hu & Hp & Hf & _) end.
  unfold Recoverer at 1. rewrite Hretry.
  exists w'. split; [done|]. split; [done|]. split; [exact Hp | exact Hf].
Qed.

(** X15.  No panic leaves the pipeline of [useMiddlewares], whatever the
    handler function.  A handler of the application that panics, at its
    first call or after at most three failed ones, is not called again:
    the panic reaches the router as the error of [Recoverer], the message
    is negative-acknowledged, the panicking call is not counted as
    processed and no wait follows it. *)
Theorem handler_panic_is_nacked_without_retry f msg w (k : nat) sk s' v :
  (∀ (h : HandlerFunc U) msg0 w0 v0,
     (wrap (middlewares (useMiddlewares NewDefaultRouter)) h msg0 w0).1
       ≠ Panicked v0) ∧
  ((k ≤ 3)%nat →
   fails_times f msg k (user w) sk →
   f msg sk = (Panicked v, s') →
   ∃ w',
     wrap (middlewares (useMiddlewares NewDefaultRouter)) (lift_handler f) msg w
       = (Return [] (Some (ErrRecoveredPanic v)), w') ∧
     handleMessage (useMiddlewares NewDefaultRouter) (lift_handler f) msg w
       = (Nack, w') ∧
     user w' = s' ∧
     processed_total (effects w') = processed_total (effects w) + k ∧
     sleeps (effects w') =
       sleeps (effects w) ++
       take k [400 * Millisecond; 800 * Millisecond; Second]%Z).
Proof.
  split.
  - intros h msg0 w0 v0.
    cbn [useMiddlewares NewDefaultRouter AddMiddleware middlewares app wrap
         foldr].
    unfold Recoverer at 1.
    match goal with |- context [Retry_Middleware ?r ?h0 msg0 w0] =>
      destruct (Retry_Middleware r h0 msg0 w0) as [[msgs err|v1] w1] end;
      done.
  - intros Hk Hfails Hpanic.
    unfold handleMessage.
    cbn [useMiddlewares NewDefaultRouter AddMiddleware middlewares app wrap
         foldr].
    match goal with |- context [Retry_Middleware ?r ?h] =>
      destruct (Retry_Middleware_until r h f msg
                  (inner_middlewares_run_handler f msg)
                  k w sk (Panicked v) s' Hk Hfails Hpanic eq_refl)
        as (w' & Hretry & Hu & Hp & Hf & Hs) end.
    unfold Recoverer at 1 2. rewrite Hretry.
    exists w'. split; [done|]. split; [done|]. split; [done|].
    split; [|exact Hs]. simpl in Hp. lia.
Qed.

(** X16.  Whatever the handler does, one delivery of a message calls it at
    most four times, waits at most three times, and counts at most as many
    failures as processed messages. *)
Theorem delivery_attempts_are_bounded f msg w :
  ∃ calls failures,
    processed_total
      (effects
         (handleMessage (useMiddlewares NewDefaultRouter) (lift_handler f)
            msg w).2) = processed_total (effects w) + calls ∧
    failed_total
      (effects
         (handleMessage (useMiddlewares NewDefaultRouter) (lift_handler f)
            msg w).2) = failed_total (effects w) + failures ∧
    (failures ≤ calls)%nat ∧ (calls ≤ 4)%nat ∧
    (length
       (sleeps
          (effects
             (handleMessage (useMiddlewares NewDefaultRouter) (lift_handler f)
                msg w).2)) ≤ length (sleeps (effects w)) + 3)%nat.
Proof.
  unfold handleMessage.
  cbn [useMiddlewares NewDefaultRouter AddMiddleware middlewares app wrap foldr].
  match goal with |- context [Retry_Middleware ?r ?h] =>
    destruct (Retry_Middleware_bounded r h f msg w
                (inner_middlewares_run_handler f msg))
      as (calls & failures & Hp & Hf & Hle & Hle' & Hs);
    unfold Recoverer at 1 2 3;
    destruct (Retry_Middleware r h msg w) as [[msgs err|v1] w1] end.
  - exists calls, failures. simpl in *.
    destruct msgs, err; simpl; lia.
  - exists calls, failures. simpl in *. lia.
Qed.

End pipeline_more_facts.

(** ** The splitter and the data lake handler in the pipeline *)

Section consumer_facts.
Import Pipeline Splitter.
Context {U : Type} `{!CommandEventMarshaler}.

(** X17.  A message with event name E, whose publishing succeeds, is
    handed to the publisher once, for topic "events.E", and acknowledged:
    the state of the broker is the one that single [Publish] leaves, the
    handler is called once and nothing waits. *)
Theorem events_splitter_publishes_once_and_acks `{!Publisher U}
    (msg : Message.t) (eventName : string) (w : World U) (s' : U) :
  NameFromMessage msg = eventName →
  eventName ≠ "" →
  Publish ("events." +:+ eventName) msg (user w) = (Ok tt, s') →
  ∃ w',
    handleMessage (useMiddlewares NewDefaultRouter)
      (AddConsumerHandler events_splitter) msg w = (Ack, w') ∧
    user w' = s' ∧
    processed_total (effects w') = processed_total (effects w) + 1 ∧
    failed_total (effects w') = failed_total (effects w) ∧
    sleeps (effects w') = sleeps (effects w).
Proof.
  intros Hname Hne Hpub. unfold AddConsumerHandler, handleMessage.
  cbn [useMiddlewares NewDefaultRouter AddMiddleware middlewares app wrap foldr].
  match goal with |- context [Retry_Middleware ?r ?h] =>
    match h with context [lift_handler ?f] =>
      assert (f msg (user w) = (Return [] None, s')) as Hok;
      [|destruct (Retry_Middleware_until r h f msg
                    (inner_middlewares_run_handler f msg)
                    0 w (user w) (Return [] None) s'
                    (Nat.le_0_l 3) eq_refl Hok eq_refl)
          as (w' & Hretry & Hu & Hp & Hf & Hs)] end end.
  - cbn beta. unfold events_splitter. rewrite Hname.
    rewrite bool_decide_eq_false_2 by done. by rewrite Hpub.
  - unfold Recoverer at 1. rewrite Hretry.
    exists w'. split; [done|]. split; [done|].
    rewrite app_nil_r in Hs. simpl in Hp. split; [lia|]. split; [lia|done].
Qed.

(** X18.  The data lake handler on a message with event name E.  When the
    header of the event decodes, the handler does one thing: it stores the
    payload of the message as it is, under the id of the header, with the
    header and the name.  When the header does not decode, the handler
    fails with "cannot unmarshal event" without calling the store; in the
    pipeline it is called four times, the message is negative-acknowledged
    and the store is as before. *)
Theorem store_to_data_lake_outcomes `{!DataLake U, !HeaderUnmarshaler}
    (msg : Message.t) (eventName : string) (w : World U) :
  NameFromMessage msg = eventName →
  eventName ≠ "" →
  (∀ header s,
     Unmarshal_Header msg = inr header →
     store_to_data_lake msg s =
       StoreEvent (Entities.MessageHeader.ID header) header eventName
         (Message.Payload msg) s) ∧
  (∀ err,
     Unmarshal_Header msg = inl err →
     (∀ s, store_to_data_lake msg s =
             (Err (ErrWrap "cannot unmarshal event" err), s)) ∧
     ∃ w',
       handleMessage (useMiddlewares NewDefaultRouter)
         (AddConsumerHandler store_to_data_lake) msg w = (Nack, w') ∧
       user w' = user w ∧
       processed_total (effects w') = processed_total (effects w) + 4).
Proof.
  intros Hname Hne. split.
  - intros header s Hheader. unfold store_to_data_lake.
    rewrite Hname, bool_decide_eq_false_2 by done. by rewrite Hheader.
  - intros err Herr.
    assert (∀ s, store_to_data_lake msg s =
                   (Err (ErrWrap "cannot unmarshal event" err), s)) as Hfail.
    { intros s. unfold store_to_data_lake.
      rewrite Hname, bool_decide_eq_false_2 by done. by rewrite Herr. }
    split; [done|]. unfold AddConsumerHandler.
    unfold handleMessage.
    cbn [useMiddlewares NewDefaultRouter AddMiddleware middlewares app wrap
         foldr].
    match goal with |- context [Retry_Middleware ?r ?h] =>
      match h with context [lift_handler ?f] =>
        assert (fails_times f msg 4 (user w) (user w)) as Hfails;
        [|destruct (Retry_Middleware_exhausted r h f msg w (user w)
                      (inner_middlewares_run_handler f msg) Hfails)
            as (err' & w' & Hretry & Hu & Hp & _)] end end.
    { simpl. repeat (eexists _, _, _; split; [by rewrite Hfail|]). done. }
    unfold Recoverer at 1. rewrite Hretry. by exists w'.
Qed.

End consumer_facts.

(** ** The front end handler *)

Section frontend_facts.
Import Frontend.

Lemma substring_all (s : string) : String.substring 0 (String.length s) s = s.
Proof. induction s as [|c s IH]; simpl; [done|by rewrite IH]. Qed.

Lemma TrimPrefix_slash (rest : string) : TrimPrefix ("/" +:+ rest) "/" = rest.
Proof.
  change ("/" +:+ rest) with (String (Ascii.ascii_of_nat 47) rest).
  unfold TrimPrefix. simpl. destruct rest as [|c rest]; [done|].
  rewrite ?Nat.sub_0_r. apply substring_all.
Qed.

(** X19.  With a readable shell file, [GetStaticFiles] never answers with
    an error.  A request for "/name" is handed to the file server exactly
    when [name] is not empty, opens in the embedded file system and is not
    a directory; every other request (the root, a missing file, a
    directory) gets the shell file, with status 200 and as HTML. *)
Theorem GetStaticFiles_falls_back_to_shell (fs : FS) (shell rest : string) :
  ReadFile fs "_shell.html" = Some shell →
  let h := newFrontendHandler fs in
  let path := "/" +:+ rest in
  (GetStaticFiles h path = FileServed path ↔
     rest ≠ "" ∧ Open fs rest = true ∧ Stat fs rest = Some false) ∧
  (GetStaticFiles h path ≠ FileServed path →
     GetStaticFiles h path = Blob 200 "text/html; charset=utf-8" shell) ∧
  (∀ code, GetStaticFiles h path ≠ HTTPError code).
Proof.
  intros Hshell h path. subst h path.
  assert (serveFile (newFrontendHandler fs) (indexFile (newFrontendHandler fs))
            = Blob 200 "text/html; charset=utf-8" shell) as Hindex.
  { unfold serveFile, newFrontendHandler. cbn [staticFS indexFile].
    by rewrite Hshell. }
  unfold GetStaticFiles. rewrite Hindex, TrimPrefix_slash.
  cbn [staticFS newFrontendHandler].
  destruct (decide (rest = "")) as [->|Hne].
  - rewrite bool_decide_eq_true_2 by done.
    split; [|done]. split; [done|]. by intros [? _].
  - rewrite bool_decide_eq_false_2.
    2:{ intros Heq. apply Hne.
        change ("/" +:+ rest) with (String (Ascii.ascii_of_nat 47) rest) in Heq.
        by injection Heq. }
    destruct (Open fs rest); cbn [negb];
      [destruct (Stat fs rest) as [[|]|]|].
    all: split; [|by split].
    all: split; [try done | try (by intros (_ & ? & ?))].
Qed.

End frontend_facts.

(** ** The receipts client *)

Section receipts_facts.
Import Entities ReceiptsAdapter.
Context {U : Type} `{!ReceiptsClient U}.

(** X20.  A receipt that the service reports as created (201) at the first
    request and as existing (200) at a repeated one is returned by
    [IssueReceipt] both times, with the same number and issue time: a
    repeated request is a success, not an error. *)
Theorem IssueReceipt_repeated_request (request : IssueReceiptRequest.t)
    (s s1 s2 : U) (body : ReceiptBody.t)
    (other200 other201 : option ReceiptBody.t) :
  let sent :=
    {| CreateReceipt.IdempotencyKey :=
         Some (IssueReceiptRequest.IdempotencyKey request
                 +:+ IssueReceiptRequest.TicketID request);
       CreateReceipt.TicketId := IssueReceiptRequest.TicketID request;
       CreateReceipt.MoneyAmount :=
         Money.Amount (IssueReceiptRequest.Price request);
       CreateReceipt.MoneyCurrency :=
         Money.Currency (IssueReceiptRequest.Price request) |} in
  PutReceiptsWithResponse sent s =
    (Ok {| PutReceiptsResponse.StatusCode := 201;
           PutReceiptsResponse.JSON200 := other200;
           PutReceiptsResponse.JSON201 := Some body |}, s1) →
  PutReceiptsWithResponse sent s1 =
    (Ok {| PutReceiptsResponse.StatusCode := 200;
           PutReceiptsResponse.JSON200 := Some body;
           PutReceiptsResponse.JSON201 := other201 |}, s2) →
  let receipt :=
    {| IssueReceiptResponse.ReceiptNumber := ReceiptBody.Number body;
       IssueReceiptResponse.IssuedAt := ReceiptBody.IssuedAt body |} in
  IssueReceipt request s = (Ok receipt, s1) ∧
  IssueReceipt request s1 = (Ok receipt, s2).
Proof.
  intros sent Hfirst Hsecond receipt.
  unfold IssueReceipt. fold sent. by rewrite Hfirst, Hsecond.
Qed.

End receipts_facts.

(** ** [Service.Run]: the shutdowns *)

Section service_run_more_facts.
Import ServiceRun.

Lemma step_keeps_context (s s' : state) (ev : event) :
  ctx_done s = false →
  step s ev = Some s' →
  ev ≠ EchoShutdown ∧ ev ≠ TraceShutdown ∧
  (cancels ev = true ∨ ctx_done s' = false).
Proof.
  intros Hdone Hstep.
  destruct ev as [| |[|]| | |[|]| | | | |];
    simpl in Hstep; rewrite ?Hdone in Hstep;
    repeat match type of Hstep with
           | match ?x with _ => _ end = Some _ => destruct x eqn:?
           | (if ?x then _ else _) = Some _ => destruct x eqn:?
           end;
    try discriminate; injection Hstep as <-;
    (split; [discriminate|]); (split; [discriminate|]); simpl; auto.
Qed.

Lemma run_shutdown_after_cancel (tr : list event) : ∀ s s' : state,
  ctx_done s = false →
  run s tr = Some s' →
  ∀ i, tr !! i = Some EchoShutdown ∨ tr !! i = Some TraceShutdown →
  ∃ j ev, j < i ∧ tr !! j = Some ev ∧ cancels ev = true.
Proof.
  induction tr as [|ev tr IH]; intros s s' Hdone Hrun i Hi.
  { by destruct Hi. }
  simpl in Hrun. destruct (step s ev) as [s1|] eqn:Hstep; [|done].
  destruct (step_keeps_context s s1 ev Hdone Hstep) as (Hne1 & Hne2 & Hcase).
  destruct i as [|i]; [destruct Hi; by simplify_eq/=|]. simpl in Hi.
  destruct Hcase as [Hcancel|Hdone1].
  - exists 0, ev. split; [lia|done].
  - destruct (IH s1 s' Hdone1 Hrun i Hi) as (j & ev' & Hj & Hev & Hcancel).
    exists (S j), ev'. split; [lia|done].
Qed.

(** X21.  In every schedule of [Service.Run], the shutdown of the echo
    server and the shutdown of the trace provider are called only after an
    event that cancels the context of the group: the signal from outside,
    or the return of the router or of the echo server with an error. *)
Theorem shutdown_only_after_cancel (tr : list event) (s : state) :
  run init tr = Some s →
  ∀ i, tr !! i = Some EchoShutdown ∨ tr !! i = Some TraceShutdown →
  ∃ j ev, j < i ∧ tr !! j = Some ev ∧ cancels ev = true.
Proof. intros Hrun. exact (run_shutdown_after_cancel tr init s eq_refl Hrun). Qed.

End service_run_more_facts.

(** ** These properties at concrete inputs *)

Section more_concrete_runs.
Import Entities Projector Pipeline Splitter ServiceRun Frontend ReceiptsAdapter.
Import Examples.

Lemma db_B1_ticket_T1 :
  ticket_of_one_booking db_B1 "T1" "B1" booking_B1
    {["T1" := ticket_T1]} ticket_T1.
Proof.
  split; [|split; [reflexivity|split; [reflexivity|]]].
  - exists booking_B1. split; [reflexivity|]. split; reflexivity.
  - intros bookingID' p' Hrow Hne. unfold db_B1 in Hrow.
    rewrite lookup_singleton_ne in Hrow by done. discriminate.
Defined.

Lemma db_B1_booking_row : booking_row db_B1 "B1" booking_B1.
Proof. exists booking_B1. split; [reflexivity|]. split; reflexivity. Defined.

Lemma db_B1_stored_under_own_id : stored_under_own_id db_B1.
Proof.
  intros bookingID p rm Hrow Hp. unfold db_B1 in Hrow.
  apply lookup_singleton_Some in Hrow as [<- <-].
  injection Hp as <-. reflexivity.
Defined.

Lemma ticket_events_before_ticket_exists_witness :
  OnTicketPrinted 1%Z ticket_printed db_empty =
    (Err (ErrMsg "read model for ticket T1 not exist yet"), db_empty).
Proof.
  refine (proj1 (ticket_events_before_ticket_exists 1%Z ticket_printed
                   ticket_refunded ticket_receipt_issued "T1" db_empty
                   eq_refl eq_refl eq_refl _)).
  intros bookingID p Hrow. unfold db_empty in Hrow.
  rewrite lookup_empty in Hrow. discriminate.
Defined.

Lemma ticket_events_redelivery_witness :
  OnTicketRefunded 2%Z ticket_refunded
      (OnTicketRefunded 1%Z ticket_refunded db_B1).2 =
    OnTicketRefunded 2%Z ticket_refunded db_B1.
Proof.
  refine (proj1 (proj2 (ticket_events_redelivery 1%Z 2%Z ticket_printed
                          ticket_refunded ticket_receipt_issued "T1" "B1"
                          db_B1 booking_B1 {["T1" := ticket_T1]} ticket_T1
                          eq_refl eq_refl eq_refl db_B1_ticket_T1))).
Defined.

Lemma ticket_events_commute_witness :
  OnTicketReceiptIssued 3%Z ticket_receipt_issued
      (OnTicketPrinted 1%Z ticket_printed db_B1).2 =
    OnTicketPrinted 3%Z ticket_printed
      (OnTicketReceiptIssued 2%Z ticket_receipt_issued db_B1).2.
Proof.
  edestruct (ticket_events_commute 1%Z 2%Z 3%Z ticket_printed
               ticket_refunded ticket_receipt_issued "T1" "B1"
               db_B1 booking_B1 {["T1" := ticket_T1]} ticket_T1)
    as (_ & Hcommute & _).
  1-3: reflexivity.
  - exact db_B1_ticket_T1.
  - reflexivity.
  - reflexivity.
  - reflexivity.
  - reflexivity.
  - exact Hcommute.
Defined.

Lemma OnTicketBookingConfirmed_redelivery_witness :
  OnTicketBookingConfirmed 2%Z ticket_confirmed
      (OnTicketBookingConfirmed 1%Z ticket_confirmed db_B1).2 =
    OnTicketBookingConfirmed 2%Z ticket_confirmed db_B1.
Proof.
  exact (OnTicketBookingConfirmed_redelivery 1%Z 2%Z ticket_confirmed db_B1
           booking_B1 db_B1_booking_row).
Defined.

Lemma OnTicketBookingConfirmed_keeps_other_facts_witness :
  (OnTicketBookingConfirmed 2%Z ticket_confirmed db_B1).1 = Ok tt.
Proof.
  edestruct (OnTicketBookingConfirmed_keeps_other_facts 2%Z
               ticket_confirmed db_B1 booking_B1 {["T1" := ticket_T1]}
               ticket_T1)
    as [Hok _].
  - exact db_B1_booking_row.
  - reflexivity.
  - reflexivity.
  - reflexivity.
  - reflexivity.
  - exact Hok.
Defined.

Lemma OnTicketBookingConfirmed_outcomes_witness :
  OnTicketBookingConfirmed 1%Z ticket_confirmed db_empty =
    (Err (ErrMsg "read model for booking B1 not exist yet"), db_empty).
Proof.
  apply (proj1 (OnTicketBookingConfirmed_outcomes 1%Z ticket_confirmed
                  db_empty)).
  reflexivity.
Defined.

Lemma FindByID_after_OnBookingMade_witness :
  FindByID "B1" (OnBookingMade 7%Z booking_made db_empty).2 =
    Ok {| OpsBooking.BookingID := "B1"; OpsBooking.BookedAt := 100%Z;
          OpsBooking.Tickets := Some ∅; OpsBooking.LastUpdate := 7%Z |}.
Proof.
  edestruct (FindByID_after_OnBookingMade 7%Z booking_made db_empty)
    as (_ & Hfound & _).
  1-3: reflexivity.
  exact Hfound.
Defined.

Lemma FindAll_all_or_nothing_witness :
  FindAll "" db_B1 = Ok [booking_B1].
Proof.
  apply (proj2 (FindAll_all_or_nothing "" db_B1 [booking_B1])).
  exists [booking_B1]. split.
  - vm_compute. reflexivity.
  - constructor; [reflexivity|constructor].
Defined.

Lemma handlers_keep_rows_under_own_id_witness :
  stored_under_own_id (OnTicketPrinted 1%Z ticket_printed db_B1).2.
Proof.
  refine (proj1 (proj2 (proj2 (handlers_keep_rows_under_own_id 1%Z
                                 booking_made ticket_confirmed ticket_printed
                                 ticket_refunded ticket_receipt_issued db_B1
                                 db_B1_stored_under_own_id)))).
Defined.

Lemma handlers_remove_no_row_witness :
  (OnTicketBookingConfirmed 1%Z ticket_confirmed db_B1).2 !! "B2" =
    db_B1 !! "B2".
Proof.
  refine (proj2 (proj2 (proj2 (proj2 (proj2
            (handlers_remove_no_row 1%Z booking_made ticket_confirmed
               ticket_printed ticket_refunded ticket_receipt_issued db_B1)))))
            db_B1_stored_under_own_id "B2" _).
  discriminate.
Defined.

Lemma handler_recovers_within_retries_witness :
  ∃ w',
    handleMessage (useMiddlewares NewDefaultRouter) (lift_handler flaky)
      msg_printed (world "events.TicketPrinted_v1" "PrintTicket" 0)
      = (Ack, w') ∧
    user w' = 3 ∧
    processed_total (effects w') = 0 + 2 + 1 ∧
    failed_total (effects w') = 0 + 2 ∧
    sleeps (effects w') =
      [] ++ take 2 [400 * Millisecond; 800 * Millisecond; Second]%Z.
Proof.
  apply (handler_recovers_within_retries flaky msg_printed
           (world "events.TicketPrinted_v1" "PrintTicket" 0) 2 2 3).
  - lia.
  - simpl. eexists _, _, _. split; [reflexivity|].
    eexists _, _, _. split; [reflexivity|]. reflexivity.
  - reflexivity.
Defined.

Lemma four_failures_exhaust_the_retries_witness :
  ∃ w',
    handleMessage (useMiddlewares NewDefaultRouter)
      (lift_handler generic_failure) msg_printed
      (world "events.TicketPrinted_v1" "PrintTicket" tt) = (Nack, w') ∧
    user w' = tt ∧
    processed_total (effects w') = 0 + 4 ∧
    failed_total (effects w') = 0 + 4.
Proof.
  apply (four_failures_exhaust_the_retries generic_failure msg_printed
           (world "events.TicketPrinted_v1" "PrintTicket" tt) tt).
  simpl. repeat (eexists _, _, _; split; [reflexivity|]). reflexivity.
Defined.

Lemma handler_panic_is_nacked_without_retry_witness :
  ∃ w',
    wrap (middlewares (useMiddlewares NewDefaultRouter))
      (lift_handler panicking) msg_printed
      (world "events.TicketPrinted_v1" "PrintTicket" 0)
      = (Return [] (Some (ErrRecoveredPanic "index out of range")), w') ∧
    handleMessage (useMiddlewares NewDefaultRouter)
      (lift_handler panicking) msg_printed
      (world "events.TicketPrinted_v1" "PrintTicket" 0) = (Nack, w') ∧
    user w' = 1 ∧
    processed_total (effects w') = 0 + 0 ∧
    sleeps (effects w') =
      [] ++ take 0 [400 * Millisecond; 800 * Millisecond; Second]%Z.
Proof.
  apply (proj2 (handler_panic_is_nacked_without_retry panicking msg_printed
                  (world "events.TicketPrinted_v1" "PrintTicket" 0)
                  0 0 1 "index out of range")).
  - lia.
  - reflexivity.
  - reflexivity.
Defined.

Lemma events_splitter_publishes_once_and_acks_witness :
  ∃ w',
    handleMessage (useMiddlewares NewDefaultRouter)
      (AddConsumerHandler events_splitter) msg_printed
      (world "events" "events_splitter" []) = (Ack, w') ∧
    user w' = [("events.TicketPrinted_v1", msg_printed)] ∧
    processed_total (effects w') = 0 + 1 ∧
    failed_total (effects w') = 0 ∧
    sleeps (effects w') = [].
Proof.
  apply (events_splitter_publishes_once_and_acks msg_printed
           "TicketPrinted_v1" (world "events" "events_splitter" [])
           [("events.TicketPrinted_v1", msg_printed)]).
  - reflexivity.
  - discriminate.
  - reflexivity.
Defined.

Lemma store_to_data_lake_outcomes_witness :
  @store_to_data_lake _ recording_data_lake name_marshaler header_unmarshaler
      msg_printed [] =
    (Ok tt, [("e1", "TicketPrinted_v1", "{}")]).
Proof.
  refine (proj1 (@store_to_data_lake_outcomes _ name_marshaler
                   recording_data_lake header_unmarshaler
                   msg_printed "TicketPrinted_v1"
                   (world "events" "store_to_data_lake" []) _ _)
            (header 100%Z) [] _).
  - reflexivity.
  - discriminate.
  - reflexivity.
Defined.

Lemma GetStaticFiles_falls_back_to_shell_witness :
  GetStaticFiles (newFrontendHandler static_fs) "/assets" =
    Blob 200 "text/html; charset=utf-8" "<html></html>".
Proof.
  refine (proj1 (proj2 (GetStaticFiles_falls_back_to_shell static_fs
                          "<html></html>" "assets" _)) _).
  - reflexivity.
  - vm_compute. discriminate.
Defined.

Lemma IssueReceipt_repeated_request_witness :
  (IssueReceipt receipt_request receipts_service).1 =
    Ok {| IssueReceiptResponse.ReceiptNumber := "receipt-k1T1";
          IssueReceiptResponse.IssuedAt := 450%Z |} ∧
  (IssueReceipt receipt_request
     (IssueReceipt receipt_request receipts_service).2).1 =
    Ok {| IssueReceiptResponse.ReceiptNumber := "receipt-k1T1";
          IssueReceiptResponse.IssuedAt := 450%Z |}.
Proof.
  edestruct (IssueReceipt_repeated_request receipt_request receipts_service)
    as [Hfirst Hsecond].
  - vm_compute. reflexivity.
  - vm_compute. reflexivity.
  - rewrite Hfirst. cbn [fst snd]. rewrite Hsecond. split; reflexivity.
Defined.

Lemma shutdown_only_after_cancel_witness :
  ∃ j ev, j < 3 ∧
    [RouterRun; RouterSignalsRunning; ContextCancelled; EchoShutdown] !! j
      = Some ev ∧ cancels ev = true.
Proof.
  eapply (shutdown_only_after_cancel
            [RouterRun; RouterSignalsRunning; ContextCancelled; EchoShutdown]).
  - reflexivity.
  - left. reflexivity.
Defined.

Lemma OnTicketReceiptIssued_sets_receipt_witness :
  (OnTicketReceiptIssued 1%Z ticket_receipt_issued db_B1).1 = Ok tt.
Proof.
  edestruct (OnTicketReceiptIssued_sets_receipt 1%Z ticket_receipt_issued
               "T1" "B1" db_B1 booking_B1 {["T1" := ticket_T1]} ticket_T1)
    as [Hok _].
  - reflexivity.
  - exact db_B1_ticket_T1.
  - reflexivity.
  - reflexivity.
  - exact Hok.
Defined.

Lemma ticket_life_cycle_witness :
  (OnTicketRefunded 5%Z ticket_refunded
     (OnTicketReceiptIssued 4%Z ticket_receipt_issued
        (OnTicketPrinted 3%Z ticket_printed
           (OnTicketBookingConfirmed 2%Z ticket_confirmed
              (OnBookingMade 1%Z booking_made db_empty).2).2).2).2).1 = Ok tt.
Proof.
  edestruct (ticket_life_cycle 1%Z 2%Z 3%Z 4%Z 5%Z booking_made
               ticket_confirmed ticket_printed ticket_receipt_issued
               ticket_refunded "T1" "B1" db_empty)
    as (_ & _ & _ & _ & Hrefunded & _).
  1-7: reflexivity.
  - intros bookingID' p' Hrow. unfold db_empty in Hrow.
    rewrite lookup_empty in Hrow. discriminate.
  - reflexivity.
  - reflexivity.
  - reflexivity.
  - reflexivity.
  - reflexivity.
  - reflexivity.
  - exact Hrefunded.
Defined.

End more_concrete_runs.
